(** * Laude Agent: OTP authentication, audio merging and the report pipeline

    A shallow embedding of
      - [auth_system.py]   (class [EnterpriseAuth], SQLite store),
      - [backend/server.py] (the FastAPI authentication endpoints and the
        endpoints for automation requests, their chat and their
        administration, MongoDB; the request models and the bearer
        dependency that run before them),
      - [src/utils/merge_audio.py] ([merge_audio_clips],
        [cleanup_temp_files]),
      - [src/main.py]      (the record/merge/transcribe/summarise/send run),
      - [src/run_full_system.py] ([main], [create_bullet_point_email],
        [extract_key_points]),
    followed by the properties established about them.

    Conventions of the embedding.
      - Python [str] is [string], the UTF-8 bytes of the text; [lower],
        [strip] and [len] are those of Python on ASCII text, and a
        statement that holds of ASCII text only says so ([Py.isascii]).
      - Timestamps ([datetime], SQL [TIMESTAMP]) are integers counting
        microseconds; the clock, the random source and the token source are
        read from an explicit environment record.  MongoDB keeps whole
        milliseconds of an instant; a statement about the backend that
        depends on the dropped part says so.
      - A method body runs in the monad [M]: it threads the committed store
        and a fault schedule that says which database or file-system call
        raises.  A [sqlite3] connection is the working copy of the store that
        the body passes along; [commit] publishes it, returning without
        [commit] discards it.
      - A call reads the clock once, and requests run one after another:
        no two calls interleave.
      - [logger] and [print] calls are not part of the model. *)

From Stdlib Require Import ZArith List String Ascii Bool Lia Arith.
Import ListNotations.
Open Scope string_scope.
Open Scope Z_scope.

(* ===================================================================== *)
(** * Python string primitives used by the sources *)
(* ===================================================================== *)

Module Py.

(** [c in s] for a one-character needle. *)
Fixpoint contains (c : ascii) (s : string) : bool :=
  match s with
  | EmptyString => false
  | String d s' => if Ascii.eqb d c then true else contains c s'
  end.

(** [s.split(sep)] for a one-character separator. *)
Fixpoint split (sep : ascii) (s : string) : list string :=
  match s with
  | EmptyString => [EmptyString]
  | String c s' =>
      if Ascii.eqb c sep then EmptyString :: split sep s'
      else match split sep s' with
           | [] => [String c EmptyString]
           | p :: ps => String c p :: ps
           end
  end.

(** [s.isascii()]: every character is below 128.  A [string] holds the
    UTF-8 bytes of a Python [str]; on a string of ASCII characters the
    bytes are the characters, so that [len] is [String.length] and
    [lower] and [strip] below are those of Python.  Outside that range
    Python folds and strips by the Unicode tables, which are not part of
    this development: a statement that holds of ASCII text only carries
    the hypothesis [isascii]. *)
Definition isascii_char (c : ascii) : bool := (N_of_ascii c <? 128)%N.

Fixpoint isascii (s : string) : bool :=
  match s with
  | EmptyString => true
  | String c s' => isascii_char c && isascii s'
  end.

Definition lower_char (c : ascii) : ascii :=
  let n := N_of_ascii c in
  if (65 <=? n)%N && (n <=? 90)%N then ascii_of_N (n + 32) else c.

(** [s.lower()] on the ASCII range: [A]..[Z] are folded, every other
    byte is kept. *)
Fixpoint lower (s : string) : string :=
  match s with
  | EmptyString => EmptyString
  | String c s' => String (lower_char c) (lower s')
  end.

(** [c.isspace()] for an ASCII character. *)
Definition isspace (c : ascii) : bool :=
  let n := N_of_ascii c in
  ((9 <=? n)%N && (n <=? 13)%N) || ((28 <=? n)%N && (n <=? 32)%N).

Fixpoint lstrip (s : string) : string :=
  match s with
  | EmptyString => EmptyString
  | String c s' => if isspace c then lstrip s' else s
  end.

Fixpoint rev_string (acc s : string) : string :=
  match s with
  | EmptyString => acc
  | String c s' => rev_string (String c acc) s'
  end.

(** [s.strip()] on the ASCII range. *)
Definition strip (s : string) : string :=
  rev_string "" (lstrip (rev_string "" (lstrip s))).

(** [sep.join(parts)]. *)
Definition join (sep : string) (parts : list string) : string :=
  String.concat sep parts.

(** [s.endswith(suffix)]. *)
Definition endswith (s suffix : string) : bool :=
  let n := String.length s in
  let k := String.length suffix in
  (k <=? n)%nat && String.eqb (substring (n - k) k s) suffix.

(** [x in xs] for a list of strings. *)
Definition mem (x : string) (xs : list string) : bool :=
  existsb (String.eqb x) xs.

Definition digit_char (d : Z) : ascii := ascii_of_N (48 + Z.to_N d).

Definition is_digit (c : ascii) : bool :=
  let n := N_of_ascii c in (48 <=? n)%N && (n <=? 57)%N.

(** Decimal digits of a non-negative integer, most significant first.
    The fuel is the number of binary digits, which bounds the number of
    decimal ones. *)
Fixpoint digits (fuel : nat) (n : Z) : string :=
  match fuel with
  | O => String (digit_char (n mod 10)) EmptyString
  | S fuel' =>
      if n <? 10 then String (digit_char n) EmptyString
      else digits fuel' (n / 10) ++ String (digit_char (n mod 10)) EmptyString
  end.

(** [str(n)] for [n >= 0]. *)
Definition str_nonneg (n : Z) : string := digits (Z.to_nat (Z.log2 n)) n.

Fixpoint zeros (k : nat) : string :=
  match k with
  | O => EmptyString
  | S k' => String "0"%char (zeros k')
  end.

(** [s.zfill(width)] on a digit string without sign. *)
Definition zfill (width : nat) (s : string) : string :=
  zeros (width - String.length s) ++ s.

(** The format specification [:06d]: sign-aware zero padding to a minimum
    width of six characters. *)
Definition format_06d (n : Z) : string :=
  if n <? 0 then String "-"%char (zfill 5 (str_nonneg (- n)))
  else zfill 6 (str_nonneg n).

(** [int(s)] on a string of decimal digits ([None] stands for
    [ValueError]; the empty string is not a number). *)
Fixpoint int_digits (acc : Z) (s : string) : option Z :=
  match s with
  | EmptyString => Some acc
  | String c s' =>
      if is_digit c
      then int_digits (10 * acc + (Z.of_N (N_of_ascii c) - 48)) s'
      else None
  end.

Definition int (s : string) : option Z :=
  match s with
  | EmptyString => None
  | _ => int_digits 0 s
  end.

Fixpoint chars (s : string) : list ascii :=
  match s with
  | EmptyString => []
  | String c s' => c :: chars s'
  end.

End Py.

(* ===================================================================== *)
(** * Exceptions, fault schedules and the method monad *)
(* ===================================================================== *)

Inductive exn : Type :=
| DatabaseError                                  (* sqlite3.Error, PyMongoError *)
| IntegrityError                                 (* UNIQUE / duplicate key *)
| OSError                                        (* file system *)
| IndexError                                     (* list index out of range *)
| HTTPException (status_code : Z) (detail : string).

Inductive outcome (A : Type) : Type :=
| Returned (a : A)
| Raised (e : exn).
Arguments Returned {A} a.
Arguments Raised {A} e.

(** The world of a call: the committed [store], the fault schedule [faulty]
    (the [n]-th external call raises iff [faulty n]), and the number
    [calls] of external calls attempted so far. *)
Record world (St : Type) : Type := World {
  store : St;
  faulty : nat -> bool;
  calls : nat
}.
Arguments World {St} _ _ _.
Arguments store {St} _.
Arguments faulty {St} _ _.
Arguments calls {St} _.

Definition M (St A : Type) : Type := world St -> outcome A * world St.

Definition ret {St A} (a : A) : M St A := fun w => (Returned a, w).

Definition bind {St A B} (m : M St A) (k : A -> M St B) : M St B :=
  fun w =>
    match m w with
    | (Returned a, w') => k a w'
    | (Raised e, w') => (Raised e, w')
    end.

Definition raise {St A} (e : exn) : M St A := fun w => (Raised e, w).

(** [try: body except Exception as e: handler e]. *)
Definition try_except {St A} (body : M St A) (handler : exn -> M St A) : M St A :=
  fun w =>
    match body w with
    | (Returned a, w') => (Returned a, w')
    | (Raised e, w') => handler e w'
    end.

Declare Scope monad_scope.
Delimit Scope monad_scope with monad.
Notation "x <- c1 ;; c2" := (bind c1 (fun x => c2))
  (at level 61, c1 at next level, right associativity) : monad_scope.
Notation "c1 ;; c2" := (bind c1 (fun _ => c2))
  (at level 61, right associativity) : monad_scope.
Open Scope monad_scope.

(** One external call: it raises [e] when the schedule says so. *)
Definition attempt {St} (e : exn) : M St unit :=
  fun w =>
    let w' := World (store w) (faulty w) (S (calls w)) in
    if faulty w (calls w) then (Raised e, w') else (Returned tt, w').

Definition get_store {St} : M St St := fun w => (Returned (store w), w).

Definition put_store {St} (s : St) : M St unit :=
  fun w => (Returned tt, World s (faulty w) (calls w)).

(** The schedule under which nothing fails. *)
Definition reliable : nat -> bool := fun _ => false.

(** The schedule whose [k]-th call fails. *)
Definition fails_at (k : nat) : nat -> bool := fun n => Nat.eqb n k.

(** The result and the final store of a call started on [s]. *)
Definition run {St A} (m : M St A) (f : nat -> bool) (s : St) : outcome A * St :=
  let (r, w) := m (World s f 0%nat) in (r, store w).

(** The environment a call reads: [datetime.now()], SQL
    [CURRENT_TIMESTAMP], [secrets.randbelow(900000)],
    [secrets.token_urlsafe(32)] and [uuid.uuid4()]. *)
Record environment : Type := Environment {
  now : Z;
  current_timestamp : Z;
  randbelow : Z;
  token_urlsafe : string;
  uuid4 : string
}.

Definition minutes (n : Z) : Z := n * 60000000.
Definition hours (n : Z) : Z := n * 3600000000.

(* ===================================================================== *)
(** * The relational store of [auth_system.py] *)
(* ===================================================================== *)

(** One module per table; the fields are the columns of the
    [CREATE TABLE] statements of [init_database]. *)

Module User.
Record t : Type := mk {
  id : Z;
  email : string;
  full_name : string;
  department : string;
  company_domain : string;
  is_active : bool;
  is_admin : bool;
  created_at : Z;
  last_login : option Z;
  login_count : Z
}.
Definition record_login (at_ : Z) (u : t) : t :=
  mk (id u) (email u) (full_name u) (department u) (company_domain u)
     (is_active u) (is_admin u) (created_at u) (Some at_) (login_count u + 1).
End User.

Module Otp.
Record t : Type := mk {
  id : Z;
  email : string;
  otp_code : string;
  created_at : Z;
  expires_at : Z;
  is_used : bool;
  attempts : Z
}.
Definition set_used (r : t) : t :=
  mk (id r) (email r) (otp_code r) (created_at r) (expires_at r) true (attempts r).
Definition add_attempt (r : t) : t :=
  mk (id r) (email r) (otp_code r) (created_at r) (expires_at r) (is_used r)
     (attempts r + 1).
End Otp.

Module Session.
Record t : Type := mk {
  id : Z;
  user_id : Z;
  session_token : string;
  created_at : Z;
  expires_at : Z;
  is_active : bool;
  last_activity : Z;
  ip_address : option string;
  user_agent : option string
}.
Definition set_inactive (s : t) : t :=
  mk (id s) (user_id s) (session_token s) (created_at s) (expires_at s) false
     (last_activity s) (ip_address s) (user_agent s).
Definition set_last_activity (at_ : Z) (s : t) : t :=
  mk (id s) (user_id s) (session_token s) (created_at s) (expires_at s)
     (is_active s) at_ (ip_address s) (user_agent s).
End Session.

Module Audit.
Record t : Type := mk {
  id : Z;
  user_id : option Z;
  action : string;
  details : string;
  ip_address : option string;
  timestamp : Z
}.
End Audit.

Module Company.
Record t : Type := mk {
  id : Z;
  domain : string;
  company_name : string;
  admin_email : string;
  smtp_server : option string;
  smtp_port : Z;
  smtp_username : option string;
  smtp_password : option string;
  is_active : bool;
  created_at : Z
}.
End Company.

Record database : Type := Database {
  users : list User.t;
  otp_codes : list Otp.t;
  user_sessions : list Session.t;
  audit_log : list Audit.t;
  company_settings : list Company.t
}.

Definition empty_database : database := Database [] [] [] [] [].

Definition with_users (us : list User.t) (db : database) : database :=
  Database us (otp_codes db) (user_sessions db) (audit_log db) (company_settings db).
Definition with_otp_codes (os : list Otp.t) (db : database) : database :=
  Database (users db) os (user_sessions db) (audit_log db) (company_settings db).
Definition with_user_sessions (ss : list Session.t) (db : database) : database :=
  Database (users db) (otp_codes db) ss (audit_log db) (company_settings db).
Definition with_audit_log (al : list Audit.t) (db : database) : database :=
  Database (users db) (otp_codes db) (user_sessions db) al (company_settings db).
Definition with_company_settings (cs : list Company.t) (db : database) : database :=
  Database (users db) (otp_codes db) (user_sessions db) (audit_log db) cs.

(** [INTEGER PRIMARY KEY AUTOINCREMENT]: one more than the largest id. *)
Definition next_id (ids : list Z) : Z := 1 + fold_right Z.max 0 ids.

(** ** The connection primitives of [sqlite3] *)

Definition connect : M database database :=
  attempt DatabaseError ;; get_store.

(** [cursor.execute] of a [SELECT], followed by the fetch. *)
Definition fetch {A} (query : database -> A) (conn : database) : M database A :=
  attempt DatabaseError ;; ret (query conn).

(** [cursor.execute] of an [INSERT] or [UPDATE] on the working copy. *)
Definition execute (stmt : database -> database) (conn : database)
  : M database database :=
  attempt DatabaseError ;; ret (stmt conn).

(** The same for a statement that a [UNIQUE] constraint can reject. *)
Definition execute_checked (stmt : database -> option database) (conn : database)
  : M database database :=
  attempt DatabaseError ;;
  match stmt conn with
  | Some conn' => ret conn'
  | None => raise IntegrityError
  end.

Definition commit (conn : database) : M database unit :=
  attempt DatabaseError ;; put_store conn.

(** ** The SQL statements of [EnterpriseAuth] *)

Module Sql.

(** [SELECT id FROM users WHERE email = ?] (and the wider projection of
    [verify_otp]); [fetchone]. *)
Definition select_user_by_email (email : string) (db : database)
  : option User.t :=
  find (fun u => String.eqb (User.email u) email) (users db).

(** [INSERT INTO users (email, full_name, department, company_domain)];
    [email] is [UNIQUE]. *)
Definition insert_user (env : environment)
           (email full_name department domain : string) (db : database)
  : option database :=
  if existsb (fun u => String.eqb (User.email u) email) (users db) then None
  else Some (with_users
               (users db ++
                [User.mk (next_id (map User.id (users db))) email full_name
                         department domain true false
                         (current_timestamp env) None 0]) db).

(** [cursor.lastrowid] after an [INSERT INTO users]. *)
Definition lastrowid_users (db : database) : Z :=
  match rev (users db) with
  | u :: _ => User.id u
  | [] => 0
  end.

(** [INSERT INTO audit_log (user_id, action, details, ip_address)]. *)
Definition insert_audit (env : environment) (user_id : option Z)
           (action details : string) (ip_address : option string)
           (db : database) : database :=
  with_audit_log
    (audit_log db ++
     [Audit.mk (next_id (map Audit.id (audit_log db))) user_id action details
               ip_address (current_timestamp env)]) db.

(** [UPDATE otp_codes SET is_used = 1 WHERE email = ? AND is_used = 0]. *)
Definition deactivate_row (email : string) (r : Otp.t) : Otp.t :=
  if String.eqb (Otp.email r) email && negb (Otp.is_used r)
  then Otp.set_used r else r.

Definition deactivate_otps (email : string) (db : database) : database :=
  with_otp_codes (map (deactivate_row email) (otp_codes db)) db.

(** [INSERT INTO otp_codes (email, otp_code, expires_at)]. *)
Definition insert_otp (env : environment) (email otp_code : string)
           (expires_at : Z) (db : database) : database :=
  with_otp_codes
    (otp_codes db ++
     [Otp.mk (next_id (map Otp.id (otp_codes db))) email otp_code
             (current_timestamp env) expires_at false 0]) db.

(** [ORDER BY created_at DESC LIMIT 1]: a row with the largest
    [created_at], the earliest such row of the table on a tie. *)
Fixpoint newest (rows : list Otp.t) : option Otp.t :=
  match rows with
  | [] => None
  | r :: rest =>
      match newest rest with
      | None => Some r
      | Some r' =>
          if Otp.created_at r' >? Otp.created_at r then Some r' else Some r
      end
  end.

(** [SELECT id, expires_at, attempts FROM otp_codes
     WHERE email = ? AND otp_code = ? AND is_used = 0
     ORDER BY created_at DESC LIMIT 1]. *)
Definition select_otp (email otp_code : string) (db : database)
  : option Otp.t :=
  newest (filter (fun r => String.eqb (Otp.email r) email
                           && String.eqb (Otp.otp_code r) otp_code
                           && negb (Otp.is_used r)) (otp_codes db)).

(** [UPDATE otp_codes SET attempts = attempts + 1
     WHERE email = ? AND is_used = 0]. *)
Definition count_row (email : string) (r : Otp.t) : Otp.t :=
  if String.eqb (Otp.email r) email && negb (Otp.is_used r)
  then Otp.add_attempt r else r.

Definition increment_attempts (email : string) (db : database) : database :=
  with_otp_codes (map (count_row email) (otp_codes db)) db.

(** [UPDATE otp_codes SET is_used = 1 WHERE id = ?]. *)
Definition mark_row (otp_id : Z) (r : Otp.t) : Otp.t :=
  if Otp.id r =? otp_id then Otp.set_used r else r.

Definition mark_otp_used (otp_id : Z) (db : database) : database :=
  with_otp_codes (map (mark_row otp_id) (otp_codes db)) db.

(** [INSERT INTO user_sessions (user_id, session_token, expires_at)];
    [session_token] is [UNIQUE]. *)
Definition insert_session (env : environment) (user_id : Z)
           (session_token : string) (expires_at : Z) (db : database)
  : option database :=
  if existsb (fun s => String.eqb (Session.session_token s) session_token)
             (user_sessions db)
  then None
  else Some (with_user_sessions
               (user_sessions db ++
                [Session.mk (next_id (map Session.id (user_sessions db)))
                            user_id session_token (current_timestamp env)
                            expires_at true (current_timestamp env)
                            None None]) db).

(** [UPDATE users SET last_login = CURRENT_TIMESTAMP,
     login_count = login_count + 1 WHERE id = ?]. *)
Definition update_login_stats (env : environment) (user_id : Z)
           (db : database) : database :=
  with_users
    (map (fun u => if User.id u =? user_id
                   then User.record_login (current_timestamp env) u else u)
         (users db)) db.

(** [SELECT ... FROM user_sessions s JOIN users u ON s.user_id = u.id
     WHERE s.session_token = ? AND s.is_active = 1]; [fetchone]. *)
Definition select_session (session_token : string) (db : database)
  : option (Session.t * User.t) :=
  hd_error
    (flat_map
       (fun s => map (pair s)
                     (filter (fun u => User.id u =? Session.user_id s)
                             (users db)))
       (filter (fun s => String.eqb (Session.session_token s) session_token
                         && Session.is_active s) (user_sessions db))).

(** [UPDATE user_sessions SET is_active = 0 WHERE session_token = ?]. *)
Definition deactivate_session_row (session_token : string) (s : Session.t)
  : Session.t :=
  if String.eqb (Session.session_token s) session_token
  then Session.set_inactive s else s.

Definition deactivate_session (session_token : string) (db : database)
  : database :=
  with_user_sessions
    (map (deactivate_session_row session_token) (user_sessions db)) db.

(** [UPDATE user_sessions SET last_activity = CURRENT_TIMESTAMP
     WHERE session_token = ?]. *)
Definition touch_session_row (env : environment) (session_token : string)
           (s : Session.t) : Session.t :=
  if String.eqb (Session.session_token s) session_token
  then Session.set_last_activity (current_timestamp env) s else s.

Definition touch_session (env : environment) (session_token : string)
           (db : database) : database :=
  with_user_sessions
    (map (touch_session_row env session_token) (user_sessions db)) db.

(** [SELECT ... FROM company_settings WHERE domain = ? AND is_active = 1];
    [fetchone]. *)
Definition select_company (domain : string) (db : database)
  : option Company.t :=
  find (fun c => String.eqb (Company.domain c) domain && Company.is_active c)
       (company_settings db).

(** [INSERT OR IGNORE INTO company_settings
     (domain, company_name, admin_email)]; [domain] is [UNIQUE]. *)
Definition insert_or_ignore_company (env : environment)
           (domain company_name admin_email : string) (db : database)
  : database :=
  if existsb (fun c => String.eqb (Company.domain c) domain)
             (company_settings db)
  then db
  else with_company_settings
         (company_settings db ++
          [Company.mk (next_id (map Company.id (company_settings db)))
                      domain company_name admin_email None 587 None None
                      true (current_timestamp env)]) db.

End Sql.

(* ===================================================================== *)
(** * [auth_system.py]: class [EnterpriseAuth] *)
(* ===================================================================== *)

Module UserData.
Record t : Type := mk {
  user_id : Z;
  email : string;
  full_name : string;
  department : string;
  company_domain : string;
  session_expires : Z
}.
End UserData.

(** The dictionaries returned by the public methods; a key that a
    dictionary does not carry is [None]. *)
Module Response.
Record t : Type := mk {
  success : bool;
  message : option string;
  user_id : option Z;
  expires_in_minutes : option Z;
  session_token : option string;
  user_data : option UserData.t
}.
Definition failure (msg : string) : t :=
  mk false (Some msg) None None None None.
End Response.

Module EnterpriseAuth.

Definition ALLOWED_DOMAINS : list string :=
  ["hhamedicine.com"; "hssmedicine.com"].
Definition OTP_EXPIRY_MINUTES : Z := 10.
Definition SESSION_EXPIRY_HOURS : Z := 8.

Definition _setup_default_companies (env : environment) (cursor : database)
  : M database database :=
  let companies :=
    [("hhamedicine.com", "HHA Medicine", "admin@hhamedicine.com");
     ("hssmedicine.com", "HSS Medicine", "admin@hssmedicine.com")] in
  fold_left
    (fun acc company =>
       let '(domain, company_name, admin_email) := company in
       conn <- acc ;;
       execute (Sql.insert_or_ignore_company env domain company_name
                                             admin_email) conn)
    companies (ret cursor).

(** The five [CREATE TABLE IF NOT EXISTS] statements leave the tables of
    the record as they are; the handler logs and re-raises. *)
Definition init_database_body (env : environment) : M database unit :=
  conn <- connect ;;
  conn <- execute (fun db => db) conn ;;
  conn <- execute (fun db => db) conn ;;
  conn <- execute (fun db => db) conn ;;
  conn <- execute (fun db => db) conn ;;
  conn <- execute (fun db => db) conn ;;
  commit conn ;;
  conn <- _setup_default_companies env conn ;;
  commit conn ;;
  ret tt.

Definition init_database (env : environment) : M database unit :=
  try_except (init_database_body env) (fun e => raise e).

Definition __init__ (env : environment) : M database unit :=
  init_database env.

Definition validate_email_domain (email : string) : bool * string :=
  if String.eqb email "" || negb (Py.contains "@" email)
  then (false, "Invalid email format")
  else
    let domain := Py.lower (nth 1 (Py.split "@" email) "") in
    if negb (Py.mem domain ALLOWED_DOMAINS)
    then (false,
          "Access restricted to " ++ Py.join " and " ALLOWED_DOMAINS
          ++ " employees only")
    else (true, domain).

Definition get_company_info (domain : string)
  : M database (option Company.t) :=
  try_except
    (conn <- connect ;;
     company_record <- fetch (Sql.select_company domain) conn ;;
     ret company_record)
    (fun _ => ret None).

Definition _log_audit (env : environment) (cursor : database) (user_id : Z)
           (action details : string) : M database database :=
  execute (Sql.insert_audit env (Some user_id) action details None) cursor.

Definition register_user_body (env : environment)
           (email full_name department : string)
  : M database Response.t :=
  let (is_valid, domain_or_error) := validate_email_domain email in
  if negb is_valid then ret (Response.failure domain_or_error)
  else
    let domain := domain_or_error in
    company_info <- get_company_info domain ;;
    match company_info with
    | None =>
        ret (Response.failure
               ("Company configuration not found for domain: " ++ domain))
    | Some company =>
        conn <- connect ;;
        existing <- fetch (Sql.select_user_by_email (Py.lower email)) conn ;;
        match existing with
        | Some _ =>
            ret (Response.failure
                   "User already registered. Please use login instead.")
        | None =>
            conn <- execute_checked
                      (Sql.insert_user env (Py.lower email)
                                       (Py.strip full_name)
                                       (Py.strip department) domain) conn ;;
            let user_id := Sql.lastrowid_users conn in
            conn <- _log_audit env conn user_id "USER_REGISTERED"
                               ("New user registered: " ++ email) ;;
            commit conn ;;
            ret (Response.mk true
                   (Some ("Registration successful! Welcome to "
                          ++ Company.company_name company))
                   (Some user_id) None None None)
        end
    end.

Definition register_user (env : environment)
           (email full_name department : string)
  : M database Response.t :=
  try_except (register_user_body env email full_name department)
    (fun _ => ret (Response.failure "Registration failed. Please try again.")).

(** The three file-system calls ([mkdir] and the two [open]s) sit in one
    [try]; the handler only logs. *)
Definition _save_email_to_file (email subject body otp_code : string)
  : M database unit :=
  try_except
    (attempt OSError ;; attempt OSError ;; attempt OSError ;; ret tt)
    (fun _ => ret tt).

Definition send_otp_email (email otp_code : string) (expires_at : Z)
  : M database bool :=
  try_except
    (match nth_error (Py.split "@" email) 1 with
     | None => raise IndexError
     | Some domain =>
         company_info <- get_company_info domain ;;
         match company_info with
         | None => ret false
         | Some company =>
             _save_email_to_file email
               "Laude Agent - Login Verification Code"
               (Company.company_name company) otp_code ;;
             ret true
         end
     end)
    (fun _ => ret false).

Definition generate_otp_body (env : environment) (email : string)
  : M database Response.t :=
  let (is_valid, domain_or_error) := validate_email_domain email in
  if negb is_valid then ret (Response.failure domain_or_error)
  else
    let otp_code := Py.format_06d (randbelow env + 100000) in
    let expires_at := now env + minutes OTP_EXPIRY_MINUTES in
    conn <- connect ;;
    conn <- execute (Sql.deactivate_otps (Py.lower email)) conn ;;
    conn <- execute (Sql.insert_otp env (Py.lower email) otp_code expires_at)
                    conn ;;
    commit conn ;;
    email_sent <- send_otp_email email otp_code expires_at ;;
    if email_sent : bool
    then ret (Response.mk true
                (Some ("OTP sent to " ++ email ++ ". Valid for "
                       ++ Py.str_nonneg OTP_EXPIRY_MINUTES ++ " minutes."))
                None (Some OTP_EXPIRY_MINUTES) None None)
    else ret (Response.failure "Failed to send OTP email. Please try again.").

Definition generate_otp (env : environment) (email : string)
  : M database Response.t :=
  try_except (generate_otp_body env email)
    (fun _ => ret (Response.failure
                     "Failed to generate OTP. Please try again.")).

Definition verify_otp_body (env : environment) (email otp_code : string)
  : M database Response.t :=
  conn <- connect ;;
  otp_record <- fetch (Sql.select_otp (Py.lower email) otp_code) conn ;;
  match otp_record with
  | None =>
      conn <- execute (Sql.increment_attempts (Py.lower email)) conn ;;
      commit conn ;;
      ret (Response.failure "Invalid OTP code. Please check and try again.")
  | Some row =>
      let otp_id := Otp.id row in
      let expires_at := Otp.expires_at row in
      let attempts := Otp.attempts row in
      if now env >? expires_at then
        conn <- execute (Sql.mark_otp_used otp_id) conn ;;
        commit conn ;;
        ret (Response.failure "OTP has expired. Please request a new one.")
      else if attempts >=? 3 then
        conn <- execute (Sql.mark_otp_used otp_id) conn ;;
        commit conn ;;
        ret (Response.failure
               "Too many failed attempts. Please request a new OTP.")
      else
        conn <- execute (Sql.mark_otp_used otp_id) conn ;;
        user_record <- fetch (Sql.select_user_by_email (Py.lower email))
                             conn ;;
        match user_record with
        | None =>
            (* conn.close() without commit *)
            ret (Response.failure "User not found. Please register first.")
        | Some u =>
            let user_id := User.id u in
            let session_token := token_urlsafe env in
            let session_expires := now env + hours SESSION_EXPIRY_HOURS in
            conn <- execute_checked
                      (Sql.insert_session env user_id session_token
                                          session_expires) conn ;;
            conn <- execute (Sql.update_login_stats env user_id) conn ;;
            conn <- _log_audit env conn user_id "LOGIN_SUCCESS"
                               ("Successful OTP login from " ++ email) ;;
            commit conn ;;
            ret (Response.mk true (Some "Login successful!") None None
                   (Some session_token)
                   (Some (UserData.mk user_id email (User.full_name u)
                                      (User.department u)
                                      (User.company_domain u)
                                      session_expires)))
        end
  end.

Definition verify_otp (env : environment) (email otp_code : string)
  : M database Response.t :=
  try_except (verify_otp_body env email otp_code)
    (fun _ => ret (Response.failure "Login failed. Please try again.")).

Definition validate_session_body (env : environment) (session_token : string)
  : M database Response.t :=
  conn <- connect ;;
  session_record <- fetch (Sql.select_session session_token) conn ;;
  match session_record with
  | None => ret (Response.failure "Invalid session. Please login again.")
  | Some (s, u) =>
      let expires_at := Session.expires_at s in
      if now env >? expires_at then
        conn <- execute (Sql.deactivate_session session_token) conn ;;
        commit conn ;;
        ret (Response.failure "Session expired. Please login again.")
      else
        conn <- execute (Sql.touch_session env session_token) conn ;;
        commit conn ;;
        ret (Response.mk true None None None None
               (Some (UserData.mk (Session.user_id s) (User.email u)
                                  (User.full_name u) (User.department u)
                                  (User.company_domain u) expires_at)))
  end.

Definition validate_session (env : environment) (session_token : string)
  : M database Response.t :=
  try_except (validate_session_body env session_token)
    (fun _ => ret (Response.failure
                     "Session validation failed. Please login again.")).

Definition logout_user_body (env : environment) (session_token : string)
  : M database Response.t :=
  conn <- connect ;;
  user_record <- fetch (Sql.select_session session_token) conn ;;
  conn <- execute (Sql.deactivate_session session_token) conn ;;
  conn <- match user_record with
          | Some (s, u) =>
              _log_audit env conn (Session.user_id s) "LOGOUT"
                         ("User logged out: " ++ User.email u)
          | None => ret conn
          end ;;
  commit conn ;;
  ret (Response.mk true (Some "Logged out successfully") None None None None).

Definition logout_user (env : environment) (session_token : string)
  : M database Response.t :=
  try_except (logout_user_body env session_token)
    (fun _ => ret (Response.failure "Logout failed")).

(** A request to the module, and its execution. *)
Inductive request : Type :=
| RegisterUser (email full_name department : string)
| GenerateOtp (email : string)
| VerifyOtp (email otp_code : string)
| ValidateSession (session_token : string)
| LogoutUser (session_token : string).

Definition perform (env : environment) (rq : request)
  : M database Response.t :=
  match rq with
  | RegisterUser e n d => register_user env e n d
  | GenerateOtp e => generate_otp env e
  | VerifyOtp e c => verify_otp env e c
  | ValidateSession t => validate_session env t
  | LogoutUser t => logout_user env t
  end.

(** The body of a request, without its outermost [try]/[except]. *)
Definition body (env : environment) (rq : request) : M database Response.t :=
  match rq with
  | RegisterUser e n d => register_user_body env e n d
  | GenerateOtp e => generate_otp_body env e
  | VerifyOtp e c => verify_otp_body env e c
  | ValidateSession t => validate_session_body env t
  | LogoutUser t => logout_user_body env t
  end.

(** The message of the [except] clause of each public method. *)
Definition error_message (rq : request) : string :=
  match rq with
  | RegisterUser _ _ _ => "Registration failed. Please try again."
  | GenerateOtp _ => "Failed to generate OTP. Please try again."
  | VerifyOtp _ _ => "Login failed. Please try again."
  | ValidateSession _ => "Session validation failed. Please login again."
  | LogoutUser _ => "Logout failed"
  end.

(** A session of use: each step is a request with the environment and the
    fault schedule it meets; the store is handed from call to call. *)
Definition event : Type := (environment * (nat -> bool) * request)%type.

Definition step (db : database) (ev : event) : outcome Response.t * database :=
  let '(env, f, rq) := ev in run (perform env rq) f db.

Fixpoint execute_all (db : database) (evs : list event) : database :=
  match evs with
  | [] => db
  | ev :: evs' => execute_all (snd (step db ev)) evs'
  end.

(** The store right after the constructor ran on a fresh file. *)
Definition initial_database (env : environment) : database :=
  snd (run (__init__ env) reliable empty_database).

End EnterpriseAuth.

(* ===================================================================== *)
(** * [backend/server.py]: the authentication endpoints *)
(* ===================================================================== *)

Module Backend.

Definition COMPANY_DOMAIN : string := "hssmedicine.com".
Definition OTP_EXPIRY_MINUTES : Z := 10.
Definition SESSION_EXPIRY_HOURS : Z := 8.

(** The documents of the three collections. *)
Module UserDoc.
Record t : Type := mk {
  _id : string;
  email : string;
  full_name : string;
  department : string;
  company_domain : string;
  is_active : bool;
  is_admin : bool;
  created_at : Z;
  login_count : Z;
  last_login : option Z
}.
Definition record_login (at_ : Z) (u : t) : t :=
  mk (_id u) (email u) (full_name u) (department u) (company_domain u)
     (is_active u) (is_admin u) (created_at u) (login_count u + 1)
     (Some at_).
End UserDoc.

Module OtpDoc.
Record t : Type := mk {
  _id : string;
  email : string;
  otp_code : string;
  created_at : Z;
  expires_at : Z;
  is_used : bool;
  attempts : Z
}.
Definition set_used (r : t) : t :=
  mk (_id r) (email r) (otp_code r) (created_at r) (expires_at r) true
     (attempts r).
Definition add_attempt (r : t) : t :=
  mk (_id r) (email r) (otp_code r) (created_at r) (expires_at r)
     (is_used r) (attempts r + 1).
End OtpDoc.

Module SessionDoc.
Record t : Type := mk {
  _id : string;
  user_id : string;
  session_token : string;
  created_at : Z;
  expires_at : Z;
  is_active : bool;
  last_activity : Z
}.
Definition set_inactive (s : t) : t :=
  mk (_id s) (user_id s) (session_token s) (created_at s) (expires_at s)
     false (last_activity s).
Definition set_last_activity (at_ : Z) (s : t) : t :=
  mk (_id s) (user_id s) (session_token s) (created_at s) (expires_at s)
     (is_active s) at_.
End SessionDoc.

Record mongo : Type := Mongo {
  users : list UserDoc.t;
  otp_codes : list OtpDoc.t;
  sessions : list SessionDoc.t
}.

Definition empty_mongo : mongo := Mongo [] [] [].

(** ** Collection primitives: every call acts on the store at once *)

Definition find_one {A} (query : mongo -> option A) : M mongo (option A) :=
  attempt DatabaseError ;; db <- get_store ;; ret (query db).

Definition update (stmt : mongo -> mongo) : M mongo unit :=
  attempt DatabaseError ;; db <- get_store ;; put_store (stmt db).

(** [insert_one]; [_id] carries the unique index. *)
Definition insert_one (stmt : mongo -> option mongo) : M mongo unit :=
  attempt DatabaseError ;;
  db <- get_store ;;
  match stmt db with
  | Some db' => put_store db'
  | None => raise IntegrityError
  end.

(** [update_one]: only the first document that matches is changed. *)
Fixpoint update_first {A} (p : A -> bool) (f : A -> A) (l : list A) : list A :=
  match l with
  | [] => []
  | x :: l' => if p x then f x :: l' else x :: update_first p f l'
  end.

Module Q.

Definition user_by_email (email : string) (db : mongo) : option UserDoc.t :=
  find (fun u => String.eqb (UserDoc.email u) email) (users db).

Definition user_by_id (_id : string) (db : mongo) : option UserDoc.t :=
  find (fun u => String.eqb (UserDoc._id u) _id) (users db).

Definition insert_user (doc : UserDoc.t) (db : mongo) : option mongo :=
  if existsb (fun u => String.eqb (UserDoc._id u) (UserDoc._id doc))
             (users db)
  then None
  else Some (Mongo (users db ++ [doc]) (otp_codes db) (sessions db)).

(** [update_many({email, is_used: False}, {$set: {is_used: True}})]. *)
Definition deactivate_doc (email : string) (r : OtpDoc.t) : OtpDoc.t :=
  if String.eqb (OtpDoc.email r) email && negb (OtpDoc.is_used r)
  then OtpDoc.set_used r else r.

Definition deactivate_otps (email : string) (db : mongo) : mongo :=
  Mongo (users db) (map (deactivate_doc email) (otp_codes db))
        (sessions db).

Definition insert_otp (doc : OtpDoc.t) (db : mongo) : option mongo :=
  if existsb (fun r => String.eqb (OtpDoc._id r) (OtpDoc._id doc))
             (otp_codes db)
  then None
  else Some (Mongo (users db) (otp_codes db ++ [doc]) (sessions db)).

(** [find_one({email, otp_code, is_used: False, expires_at: {$gt: now}})].
    BSON keeps a [datetime] in whole milliseconds, the stored one and the
    one of the query alike; the model keeps the instants as computed.  On
    a stored value of whole milliseconds the two comparisons agree
    ([BackendLogin.bson_comparison]). *)
Definition valid_otp (email otp_code : string) (utcnow : Z) (db : mongo)
  : option OtpDoc.t :=
  find (fun r => String.eqb (OtpDoc.email r) email
                 && String.eqb (OtpDoc.otp_code r) otp_code
                 && negb (OtpDoc.is_used r)
                 && (OtpDoc.expires_at r >? utcnow)) (otp_codes db).

(** [update_many({email, is_used: False}, {$inc: {attempts: 1}})]. *)
Definition count_doc (email : string) (r : OtpDoc.t) : OtpDoc.t :=
  if String.eqb (OtpDoc.email r) email && negb (OtpDoc.is_used r)
  then OtpDoc.add_attempt r else r.

Definition increment_attempts (email : string) (db : mongo) : mongo :=
  Mongo (users db) (map (count_doc email) (otp_codes db)) (sessions db).

(** [update_one({_id}, {$set: {is_used: True}})]. *)
Definition mark_otp_used (_id : string) (db : mongo) : mongo :=
  Mongo (users db)
        (update_first (fun r => String.eqb (OtpDoc._id r) _id)
                      OtpDoc.set_used (otp_codes db))
        (sessions db).

Definition insert_session (doc : SessionDoc.t) (db : mongo) : option mongo :=
  if existsb (fun s => String.eqb (SessionDoc._id s) (SessionDoc._id doc))
             (sessions db)
  then None
  else Some (Mongo (users db) (otp_codes db) (sessions db ++ [doc])).

(** [update_one({_id}, {$set: {last_login}, $inc: {login_count: 1}})]. *)
Definition update_login_stats (_id : string) (utcnow : Z) (db : mongo)
  : mongo :=
  Mongo (update_first (fun u => String.eqb (UserDoc._id u) _id)
                      (UserDoc.record_login utcnow) (users db))
        (otp_codes db) (sessions db).

(** [find_one({session_token, is_active: True, expires_at: {$gt: now}})];
    see [valid_otp] for the instants. *)
Definition live_session (token : string) (utcnow : Z) (db : mongo)
  : option SessionDoc.t :=
  find (fun s => String.eqb (SessionDoc.session_token s) token
                 && SessionDoc.is_active s
                 && (SessionDoc.expires_at s >? utcnow)) (sessions db).

(** [update_one({session_token}, {$set: {last_activity}})]. *)
Definition touch_session (token : string) (utcnow : Z) (db : mongo) : mongo :=
  Mongo (users db) (otp_codes db)
        (update_first
           (fun s => String.eqb (SessionDoc.session_token s) token)
           (SessionDoc.set_last_activity utcnow) (sessions db)).

(** [update_many({user_id}, {$set: {is_active: False}})]. *)
Definition deactivate_sessions_of (user_id : string) (db : mongo) : mongo :=
  Mongo (users db) (otp_codes db)
        (map (fun s => if String.eqb (SessionDoc.user_id s) user_id
                       then SessionDoc.set_inactive s else s) (sessions db)).

End Q.

(** The JSON bodies of the answers. *)
Module UserInfo.
Record t : Type := mk {
  user_id : string;
  email : string;
  full_name : string;
  department : string;
  company_domain : option string;
  is_admin : bool;
  session_expires : option Z
}.
End UserInfo.

Module Reply.
Record t : Type := mk {
  success : bool;
  message : string;
  user_id : option string;
  expires_in_minutes : option Z;
  session_token : option string;
  user_data : option UserInfo.t
}.
End Reply.

(** [except HTTPException: raise / except Exception: raise
    HTTPException(500, detail)]. *)
Definition reraise_or_500 {A} (detail : string) (e : exn) : M mongo A :=
  match e with
  | HTTPException _ _ => raise e
  | _ => raise (HTTPException 500 detail)
  end.

Definition generate_otp (env : environment) : string :=
  Py.format_06d (randbelow env + 100000).

Definition generate_session_token (env : environment) : string :=
  token_urlsafe env.

(** The development version of [send_otp_email]: [mkdir], then one
    [open] for writing. *)
Definition send_otp_email (email otp_code : string) : M mongo bool :=
  try_except (attempt OSError ;; attempt OSError ;; ret true)
             (fun _ => ret false).

(** The body of [validate_session]; [token] is [credentials.credentials],
    which the dependency [security] hands on ([Gateway.HTTPBearer]). *)
Definition validate_session (env : environment) (token : string)
  : M mongo UserInfo.t :=
  try_except
    (session <- find_one (Q.live_session token (now env)) ;;
     match session with
     | None => raise (HTTPException 401 "Invalid or expired session")
     | Some s =>
         update (Q.touch_session token (now env)) ;;
         user <- find_one (Q.user_by_id (SessionDoc.user_id s)) ;;
         match user with
         | None => raise (HTTPException 401 "User not found")
         | Some u =>
             ret (UserInfo.mk (UserDoc._id u) (UserDoc.email u)
                              (UserDoc.full_name u) (UserDoc.department u)
                              None (UserDoc.is_admin u) None)
         end
     end)
    (fun _ => raise (HTTPException 401 "Authentication failed")).

(** The bodies of the endpoints; [email] is the field of the request
    model as the endpoint receives it, validated by pydantic
    ([Gateway.EmailStr]). *)
Definition register_user (env : environment)
           (email full_name department : string) : M mongo Reply.t :=
  try_except
    (if negb (Py.endswith email ("@" ++ COMPANY_DOMAIN))
     then raise (HTTPException 400
                   ("Access restricted to " ++ COMPANY_DOMAIN
                    ++ " employees only"))
     else
       existing_user <- find_one (Q.user_by_email (Py.lower email)) ;;
       match existing_user with
       | Some _ => raise (HTTPException 400 "User already registered")
       | None =>
           let user_doc :=
             UserDoc.mk (uuid4 env) (Py.lower email) (Py.strip full_name)
                        (Py.strip department) COMPANY_DOMAIN true false
                        (now env) 0 None in
           insert_one (Q.insert_user user_doc) ;;
           ret (Reply.mk true
                  "Registration successful! Welcome to HSS Medicine."
                  (Some (UserDoc._id user_doc)) None None None)
       end)
    (reraise_or_500 "Registration failed").

Definition generate_otp_endpoint (env : environment) (email : string)
  : M mongo Reply.t :=
  try_except
    (if negb (Py.endswith email ("@" ++ COMPANY_DOMAIN))
     then raise (HTTPException 400
                   ("Access restricted to " ++ COMPANY_DOMAIN
                    ++ " employees only"))
     else
       let otp_code := generate_otp env in
       let expires_at := now env + minutes OTP_EXPIRY_MINUTES in
       update (Q.deactivate_otps (Py.lower email)) ;;
       let otp_doc :=
         OtpDoc.mk (uuid4 env) (Py.lower email) otp_code (now env)
                   expires_at false 0 in
       insert_one (Q.insert_otp otp_doc) ;;
       email_sent <- send_otp_email email otp_code ;;
       if email_sent : bool
       then ret (Reply.mk true
                   ("OTP sent to " ++ email ++ ". Valid for "
                    ++ Py.str_nonneg OTP_EXPIRY_MINUTES ++ " minutes.")
                   None (Some OTP_EXPIRY_MINUTES) None None)
       else raise (HTTPException 500 "Failed to send OTP email"))
    (reraise_or_500 "Failed to generate OTP").

Definition verify_otp_endpoint (env : environment) (email otp_code : string)
  : M mongo Reply.t :=
  try_except
    (otp_record <- find_one (Q.valid_otp (Py.lower email) otp_code (now env)) ;;
     match otp_record with
     | None =>
         update (Q.increment_attempts (Py.lower email)) ;;
         raise (HTTPException 400 "Invalid or expired OTP")
     | Some r =>
         if OtpDoc.attempts r >=? 3 then
           update (Q.mark_otp_used (OtpDoc._id r)) ;;
           raise (HTTPException 400 "Too many failed attempts")
         else
           update (Q.mark_otp_used (OtpDoc._id r)) ;;
           user <- find_one (Q.user_by_email (Py.lower email)) ;;
           match user with
           | None =>
               raise (HTTPException 404
                        "User not found. Please register first.")
           | Some u =>
               let session_token := generate_session_token env in
               let session_expires :=
                 now env + hours SESSION_EXPIRY_HOURS in
               let session_doc :=
                 SessionDoc.mk (uuid4 env) (UserDoc._id u) session_token
                               (now env) session_expires true (now env) in
               insert_one (Q.insert_session session_doc) ;;
               update (Q.update_login_stats (UserDoc._id u) (now env)) ;;
               ret (Reply.mk true "Login successful!" None None
                      (Some session_token)
                      (Some (UserInfo.mk (UserDoc._id u) (UserDoc.email u)
                               (UserDoc.full_name u) (UserDoc.department u)
                               (Some (UserDoc.company_domain u))
                               (UserDoc.is_admin u)
                               (Some session_expires))))
           end
     end)
    (reraise_or_500 "Login failed").

(** [logout] depends on [validate_session] for its [user_data]. *)
Definition logout (env : environment) (token : string) : M mongo Reply.t :=
  user_data <- validate_session env token ;;
  try_except
    (update (Q.deactivate_sessions_of (UserInfo.user_id user_data)) ;;
     ret (Reply.mk true "Logged out successfully" None None None None))
    (fun _ => raise (HTTPException 500 "Logout failed")).

Inductive request : Type :=
| Register (email full_name department : string)
| GenerateOtp (email : string)
| VerifyOtp (email otp_code : string)
| Logout (token : string)
| Authenticated (token : string).

(** What reaches the client: the JSON body, or the status and detail of
    the [HTTPException]. *)
Inductive answer : Type :=
| Body (r : Reply.t)
| Identity (u : UserInfo.t).

Definition perform (env : environment) (rq : request) : M mongo answer :=
  match rq with
  | Register e n d => r <- register_user env e n d ;; ret (Body r)
  | GenerateOtp e => r <- generate_otp_endpoint env e ;; ret (Body r)
  | VerifyOtp e c => r <- verify_otp_endpoint env e c ;; ret (Body r)
  | Logout t => r <- logout env t ;; ret (Body r)
  | Authenticated t => u <- validate_session env t ;; ret (Identity u)
  end.

Definition event : Type := (environment * (nat -> bool) * request)%type.

Definition step (db : mongo) (ev : event) : outcome answer * mongo :=
  let '(env, f, rq) := ev in run (perform env rq) f db.

Fixpoint execute_all (db : mongo) (evs : list event) : mongo :=
  match evs with
  | [] => db
  | ev :: evs' => execute_all (snd (step db ev)) evs'
  end.

End Backend.

(* ===================================================================== *)
(** * [src/utils/merge_audio.py] *)
(* ===================================================================== *)

Module MergeAudio.

(** A WAV file as [wave.open(path, 'rb')] presents it: the three
    parameters of its header, the frame count that the header announces
    ([getnframes()]), and the bytes of sound that the file holds after the
    header.  A complete file holds [nframes * nchannels * sampwidth] bytes;
    a file that was cut short holds fewer.  The reader does not judge the
    frame rate, so the parameters are integers. *)
Record wav : Type := Wav {
  nchannels : Z;
  sampwidth : Z;
  framerate : Z;
  nframes : Z;
  data : list Byte.byte
}.

Definition getnframes (w : wav) : Z := nframes w.

(** [readframes(n)]: at most [n] frames, fewer when the file holds
    fewer. *)
Definition readframes (n : Z) (w : wav) : list Byte.byte :=
  firstn (Z.to_nat (n * (nchannels w * sampwidth w))) (data w).

(** [setnchannels], [setsampwidth] and [setframerate] of the writer raise
    [wave.Error] for a channel count below 1, a sample width outside 1..4
    and a frame rate that is not positive. *)
Definition writer_accepts (channels sample_width sample_rate : Z) : bool :=
  (1 <=? channels) && (1 <=? sample_width) && (sample_width <=? 4)
  && (0 <? sample_rate).

(** The writer packs the header at the first [writeframes] and again when
    it is closed: the block size [channels * sample_width] into 16 bits and
    the byte rate [channels * sample_rate * sample_width] into 32 bits;
    [struct.error] is raised for a number that does not fit. *)
Definition header_fits (channels sample_width sample_rate : Z) : bool :=
  (channels * sample_width <=? 65535)
  && (channels * sample_rate * sample_width <=? 4294967295).


(** The lines that [print] writes while the clips are merged, as far as
    they hold more than fixed ASCII text: the three lines that name a clip,
    and the line of the duration, which starts with a stopwatch sign. *)
Inductive message : Type :=
| Adding (audio_file : string)
| Mismatch (audio_file : string)
| Error_with (audio_file : string)
| Duration.

(** The files and the standard output.  [realpath] gives the file that a
    path names: two spellings of one file (["final_audio.wav"],
    ["./final_audio.wav"], a link) have one [realpath].  [content], by
    [realpath], is [Some w] for a file that [wave.open(path, 'rb')] reads
    and [None] for one that it rejects (no file, or not a WAV file);
    [writable] says whether the file can be opened for writing.  [stdout]
    says whether the encoding of standard output has the characters of a
    line: [print] raises [UnicodeEncodeError] when it has not.  Standard
    output takes ASCII text. *)
Record filesystem : Type := Filesystem {
  realpath : string -> string;
  content : string -> option wav;
  writable : string -> bool;
  stdout : message -> bool
}.

(** [wave.open(path, 'rb')]. *)
Definition open_rb (path : string) (fs : filesystem) : option wav :=
  content fs (realpath fs path).

Definition write (path : string) (w : option wav) (fs : filesystem)
  : filesystem :=
  Filesystem (realpath fs)
             (fun p => if String.eqb p (realpath fs path) then w
                       else content fs p)
             (writable fs)
             (stdout fs).

Definition output_path : string := "final_audio.wav".

(** The body of [for i, audio_file in enumerate(audio_files, 1)]: the
    bytes written so far and [total_frames], which adds up the counts that
    the headers announce.  The handler of the inner [try] prints a line of
    its own before [continue]; when that [print] raises, the exception
    leaves the loop, and [total_frames] is [None]. *)
Fixpoint merge_loop (fs : filesystem) (sample_rate channels sample_width : Z)
         (audio_files : list string) (written : list Byte.byte)
         (total_frames : Z) : list Byte.byte * option Z :=
  match audio_files with
  | [] => (written, Some total_frames)
  | audio_file :: rest =>
      let continue :=
        merge_loop fs sample_rate channels sample_width rest written
                   total_frames in
      (* except Exception as e: print(...); continue *)
      let handler :=
        if stdout fs (Error_with audio_file) then continue
        else (written, None) in
      if negb (stdout fs (Adding audio_file)) then handler
      else
        match open_rb audio_file fs with
        | None => handler
        | Some input_file =>
            if negb (framerate input_file =? sample_rate)
               || negb (nchannels input_file =? channels)
               || negb (sampwidth input_file =? sample_width)
            then
              if stdout fs (Mismatch audio_file) then continue else handler
            else
              let frames := readframes (getnframes input_file) input_file in
              merge_loop fs sample_rate channels sample_width rest
                         (written ++ frames)
                         (total_frames + getnframes input_file)
        end
  end.

(** The file that the writer leaves when it is closed: the header is
    patched to the bytes written. *)
Definition written_file (channels sample_width sample_rate : Z)
           (written : list Byte.byte) : wav :=
  Wav channels sample_width sample_rate
      (Z.of_nat (List.length written) / (channels * sample_width)) written.

(** The result ([None] or the output path) and the files afterwards.
    Every exception outside the loop ends in [except Exception: return
    None].  Opening the output for writing empties it, so while the loop
    runs the output does not hold a readable WAV file; closing it writes
    the header and the bytes.  A writer that refused a parameter, or that
    cannot pack its header, leaves no WAV file in the output.  The line of
    the duration is printed after the output is closed. *)
Definition merge_audio_clips (audio_files : list string) (fs : filesystem)
  : option string * filesystem :=
  match audio_files with
  | [] => (None, fs)
  | first :: _ =>
      match open_rb first fs with
      | None => (None, fs)
      | Some first_file =>
          let sample_rate := framerate first_file in
          let channels := nchannels first_file in
          let sample_width := sampwidth first_file in
          if negb (writable fs (realpath fs output_path)) then (None, fs)
          else
            let opened := write output_path None fs in
            if negb (writer_accepts channels sample_width sample_rate)
            then (None, opened)
            else if negb (header_fits channels sample_width sample_rate)
            then (None, opened)
            else
              let '(written, total_frames) :=
                merge_loop opened sample_rate channels sample_width
                           audio_files [] 0 in
              let closed :=
                write output_path
                      (Some (written_file channels sample_width sample_rate
                                          written))
                      opened in
              match total_frames with
              | None => (None, closed)
              | Some total_frames =>
                  if total_frames =? 0 then (None, closed)
                  else if negb (stdout fs Duration) then (None, closed)
                  else (Some output_path, closed)
              end
      end
  end.








End MergeAudio.

(* ===================================================================== *)
(** * [src/main.py] and its sibling [src/run_full_system.py] *)
(* ===================================================================== *)

Module Pipeline.

Inductive stage : Type :=
| Recording | Merging | Transcribing | Summarizing | Sending.

(** The stage calls of a run, with the argument each one received. *)
Inductive call : Type :=
| record_multiple_clips_call
| merge_audio_clips_call (audio_files : list string)
| transcribe_audio_call (audio_file_path : option string)
| generate_email_call (transcript : string)
| send_email_call (email : string).

Definition stage_of (c : call) : stage :=
  match c with
  | record_multiple_clips_call => Recording
  | merge_audio_clips_call _ => Merging
  | transcribe_audio_call _ => Transcribing
  | generate_email_call _ => Summarizing
  | send_email_call _ => Sending
  end.

(** What the run obtains from the microphone, the speech and language
    services, the disk and the mail client.  A service that raises ends
    the run in the handlers of [main], which only log. *)
Record services : Type := Services {
  record_multiple_clips : outcome (list string);
  transcribe_audio : option string -> outcome (option string);
  write_transcript : string -> outcome unit;
  generate_dream_team_email : string -> outcome (option string);
  save_dream_team_email : string -> outcome string;
  send_email_outlook_draft : string -> outcome bool
}.

(** Python truthiness of an optional string. *)
Definition truthy (s : option string) : option string :=
  match s with
  | Some EmptyString => None
  | other => other
  end.

(** [main()]: the calls made, in order. *)
Definition main (sv : services) (fs : MergeAudio.filesystem) : list call :=
  record_multiple_clips_call ::
  match record_multiple_clips sv with
  | Raised _ => []
  | Returned [] => []
  | Returned audio_files =>
      merge_audio_clips_call audio_files ::
      let (final_audio_path, _) :=
        MergeAudio.merge_audio_clips audio_files fs in
      transcribe_audio_call final_audio_path ::
      match transcribe_audio sv final_audio_path with
      | Raised _ => []
      | Returned transcript =>
          match truthy transcript with
          | None => []
          | Some transcript =>
              match write_transcript sv transcript with
              | Raised _ => []
              | Returned _ =>
                  generate_email_call transcript ::
                  match generate_dream_team_email sv transcript with
                  | Raised _ => []
                  | Returned dream_team_email =>
                      match truthy dream_team_email with
                      | None => []
                      | Some dream_team_email =>
                          match save_dream_team_email sv dream_team_email with
                          | Raised _ => []
                          | Returned _ =>
                              [send_email_call dream_team_email]
                          end
                      end
                  end
              end
          end
      end
  end.

(** The same steps in [run_full_system.py], up to its report stage: there
    the result of the merge is tested before the transcription. *)
Definition run_full_system_prefix (sv : services) (fs : MergeAudio.filesystem)
  : list call :=
  record_multiple_clips_call ::
  match record_multiple_clips sv with
  | Raised _ => []
  | Returned [] => []
  | Returned audio_files =>
      merge_audio_clips_call audio_files ::
      match MergeAudio.merge_audio_clips audio_files fs with
      | (None, _) => []
      | (Some final_audio_path, _) =>
          [transcribe_audio_call (Some final_audio_path)]
      end
  end.

(** Whether a stage reported failure to [main]. *)
Definition recording_failed (sv : services) : bool :=
  match record_multiple_clips sv with
  | Returned (_ :: _) => false
  | _ => true
  end.

Definition merging_failed (sv : services) (fs : MergeAudio.filesystem) : bool :=
  match record_multiple_clips sv with
  | Returned audio_files =>
      match fst (MergeAudio.merge_audio_clips audio_files fs) with
      | Some _ => false
      | None => true
      end
  | Raised _ => true
  end.

Definition canonical_order : list stage :=
  [Recording; Merging; Transcribing; Summarizing; Sending].

Fixpoint prefix (l1 l2 : list stage) : bool :=
  match l1, l2 with
  | [], _ => true
  | x :: l1', y :: l2' =>
      match x, y with
      | Recording, Recording | Merging, Merging
      | Transcribing, Transcribing | Summarizing, Summarizing
      | Sending, Sending => prefix l1' l2'
      | _, _ => false
      end
  | _ :: _, [] => false
  end.

End Pipeline.

(* ===================================================================== *)
(** * What a request of [EnterpriseAuth] can do to the store *)
(* ===================================================================== *)

Module AuthEffects.
Import EnterpriseAuth.

(** [effect env rq db r db']: the request [rq], started on the committed
    store [db], answers [r] and leaves the committed store [db'].  One
    constructor per path of the methods that reaches a [commit], and one
    for every path that does not. *)
Inductive effect (env : environment)
  : request -> database -> Response.t -> database -> Prop :=
| no_commit rq db r :
    Response.success r = false ->
    effect env rq db r db
| registered email full_name department domain company db db1 :
    validate_email_domain email = (true, domain) ->
    Sql.select_company domain db = Some company ->
    Sql.select_user_by_email (Py.lower email) db = None ->
    Sql.insert_user env (Py.lower email) (Py.strip full_name)
                    (Py.strip department) domain db = Some db1 ->
    effect env (RegisterUser email full_name department) db
      (Response.mk true
         (Some ("Registration successful! Welcome to "
                ++ Company.company_name company))
         (Some (Sql.lastrowid_users db1)) None None None)
      (Sql.insert_audit env (Some (Sql.lastrowid_users db1))
         "USER_REGISTERED" ("New user registered: " ++ email) None db1)
| issued email domain db r :
    validate_email_domain email = (true, domain) ->
    effect env (GenerateOtp email) db r
      (Sql.insert_otp env (Py.lower email)
         (Py.format_06d (randbelow env + 100000))
         (now env + minutes OTP_EXPIRY_MINUTES)
         (Sql.deactivate_otps (Py.lower email) db))
| wrong_code email otp_code db :
    Sql.select_otp (Py.lower email) otp_code db = None ->
    effect env (VerifyOtp email otp_code) db
      (Response.failure "Invalid OTP code. Please check and try again.")
      (Sql.increment_attempts (Py.lower email) db)
| expired email otp_code db row :
    Sql.select_otp (Py.lower email) otp_code db = Some row ->
    now env > Otp.expires_at row ->
    effect env (VerifyOtp email otp_code) db
      (Response.failure "OTP has expired. Please request a new one.")
      (Sql.mark_otp_used (Otp.id row) db)
| locked email otp_code db row :
    Sql.select_otp (Py.lower email) otp_code db = Some row ->
    now env <= Otp.expires_at row ->
    Otp.attempts row >= 3 ->
    effect env (VerifyOtp email otp_code) db
      (Response.failure "Too many failed attempts. Please request a new OTP.")
      (Sql.mark_otp_used (Otp.id row) db)
| logged_in email otp_code db row u db2 :
    Sql.select_otp (Py.lower email) otp_code db = Some row ->
    now env <= Otp.expires_at row ->
    Otp.attempts row < 3 ->
    Sql.select_user_by_email (Py.lower email)
      (Sql.mark_otp_used (Otp.id row) db) = Some u ->
    Sql.insert_session env (User.id u) (token_urlsafe env)
      (now env + hours SESSION_EXPIRY_HOURS)
      (Sql.mark_otp_used (Otp.id row) db) = Some db2 ->
    effect env (VerifyOtp email otp_code) db
      (Response.mk true (Some "Login successful!") None None
         (Some (token_urlsafe env))
         (Some (UserData.mk (User.id u) email (User.full_name u)
                  (User.department u) (User.company_domain u)
                  (now env + hours SESSION_EXPIRY_HOURS))))
      (Sql.insert_audit env (Some (User.id u)) "LOGIN_SUCCESS"
         ("Successful OTP login from " ++ email) None
         (Sql.update_login_stats env (User.id u) db2))
| session_expired session_token db s u :
    Sql.select_session session_token db = Some (s, u) ->
    now env > Session.expires_at s ->
    effect env (ValidateSession session_token) db
      (Response.failure "Session expired. Please login again.")
      (Sql.deactivate_session session_token db)
| session_valid session_token db s u :
    Sql.select_session session_token db = Some (s, u) ->
    now env <= Session.expires_at s ->
    effect env (ValidateSession session_token) db
      (Response.mk true None None None None
         (Some (UserData.mk (Session.user_id s) (User.email u)
                  (User.full_name u) (User.department u)
                  (User.company_domain u) (Session.expires_at s))))
      (Sql.touch_session env session_token db)
| logged_out session_token db :
    effect env (LogoutUser session_token) db
      (Response.mk true (Some "Logged out successfully") None None None None)
      (match Sql.select_session session_token db with
       | Some (s, u) =>
           Sql.insert_audit env (Some (Session.user_id s)) "LOGOUT"
             ("User logged out: " ++ User.email u) None
             (Sql.deactivate_session session_token db)
       | None => Sql.deactivate_session session_token db
       end).

End AuthEffects.

(* ===================================================================== *)
(** * Specification vocabulary for the OTP table of [EnterpriseAuth] *)
(* ===================================================================== *)

Module AuthSpec.
Import EnterpriseAuth.

(** The issued-unused OTP rows of an e-mail address. *)
Definition live (email : string) (l : list Otp.t) : list Otp.t :=
  filter (fun r => String.eqb (Otp.email r) email && negb (Otp.is_used r)) l.

Definition unused_for (email : string) (db : database) : list Otp.t :=
  live email (otp_codes db).

(** At most one issued-unused OTP per e-mail address. *)
Definition single_live (db : database) : Prop :=
  forall email, (List.length (unused_for email db) <= 1)%nat.

(** [id] is the primary key of [otp_codes]. *)
Definition unique_otp_ids (db : database) : Prop :=
  NoDup (map Otp.id (otp_codes db)).

(** [session_token] is [UNIQUE], and [id] is the primary key of [users]. *)
Definition unique_session_tokens (db : database) : Prop :=
  NoDup (map Session.session_token (user_sessions db)).

Definition unique_user_ids (db : database) : Prop :=
  NoDup (map User.id (users db)).

(** The same OTP row at two moments: everything that identifies it is
    unchanged (the attempt counter and the used flag may differ). *)
Definition same_otp (before after : Otp.t) : Prop :=
  Otp.id after = Otp.id before
  /\ Otp.email after = Otp.email before
  /\ Otp.otp_code after = Otp.otp_code before
  /\ Otp.created_at after = Otp.created_at before
  /\ Otp.expires_at after = Otp.expires_at before.

(** The occasions on which a request may turn a row from unused to used:
    a fresh OTP for the same address, or a verification of that address
    and code that logs in, finds the code expired, or finds the attempt
    limit exceeded. *)
Definition may_consume (rq : request) (r : Response.t) (row : Otp.t) : Prop :=
  match rq with
  | GenerateOtp email => Otp.email row = Py.lower email
  | VerifyOtp email otp_code =>
      Otp.email row = Py.lower email
      /\ Otp.otp_code row = otp_code
      /\ (Response.success r = true
          \/ r = Response.failure "OTP has expired. Please request a new one."
          \/ r = Response.failure
                   "Too many failed attempts. Please request a new OTP.")
  | _ => False
  end.

(** One row across one request: it stays the same row, a used row stays
    used, and an unused row becomes used only on the occasions above. *)
Definition moved_forward (rq : request) (r : Response.t)
           (before after : Otp.t) : Prop :=
  same_otp before after
  /\ (Otp.is_used before = true -> Otp.is_used after = true)
  /\ (Otp.is_used before = false -> Otp.is_used after = true ->
      may_consume rq r before).

Definition is_generate (rq : request) : bool :=
  match rq with
  | GenerateOtp _ => true
  | _ => false
  end.

(** The OTP table across one request: the old rows move forward, in
    place; new rows are unused and only [generate_otp] adds any. *)
Definition otps_forward (rq : request) (r : Response.t)
           (before after : list Otp.t) : Prop :=
  exists kept issued,
    after = (kept ++ issued)%list
    /\ Forall2 (moved_forward rq r) before kept
    /\ Forall (fun row => Otp.is_used row = false) issued
    /\ (is_generate rq = false -> issued = []).

Definition succeeded (o : outcome Response.t) : bool :=
  match o with
  | Returned r => Response.success r
  | Raised _ => false
  end.

(** Whether an event is a [generate_otp] for the (lowercased) address. *)
Definition generates_for (email : string) (ev : event) : bool :=
  match ev with
  | (_, _, GenerateOtp e) => String.eqb (Py.lower e) (Py.lower email)
  | _ => false
  end.

(** The contract of [secrets.randbelow(900000)]. *)
Definition randbelow_in_range (env : environment) : Prop :=
  0 <= randbelow env < 900000.

(** A six-digit code between 100000 and 999999. *)
Definition six_digit_code (code : string) : Prop :=
  String.length code = 6%nat
  /\ forallb Py.is_digit (Py.chars code) = true
  /\ (exists n, Py.int code = Some n /\ 100000 <= n <= 999999)
  /\ (exists c rest, code = String c rest /\ c <> "0"%char).

(** A row id that is in the table and whose rows are all used. *)
Definition consumed_id (otp_id : Z) (l : list Otp.t) : Prop :=
  In otp_id (map Otp.id l)
  /\ forall r, In r l -> Otp.id r = otp_id -> Otp.is_used r = true.

(** The four things a request can do to the OTP table. *)
Inductive shape (env : environment) (rq : request) (r : Response.t)
          (db : database) : list Otp.t -> Prop :=
| unchanged : shape env rq r db (otp_codes db)
| reissued email :
    rq = GenerateOtp email ->
    shape env rq r db
      (map (Sql.deactivate_row (Py.lower email)) (otp_codes db)
       ++ [Otp.mk (next_id (map Otp.id (otp_codes db))) (Py.lower email)
                  (Py.format_06d (randbelow env + 100000))
                  (current_timestamp env)
                  (now env + minutes OTP_EXPIRY_MINUTES) false 0])%list
| counted email otp_code :
    rq = VerifyOtp email otp_code ->
    Sql.select_otp (Py.lower email) otp_code db = None ->
    Response.success r = false ->
    shape env rq r db (map (Sql.count_row (Py.lower email)) (otp_codes db))
| consumed email otp_code row :
    rq = VerifyOtp email otp_code ->
    Sql.select_otp (Py.lower email) otp_code db = Some row ->
    (Response.success r = true
     \/ r = Response.failure "OTP has expired. Please request a new one."
     \/ r = Response.failure
              "Too many failed attempts. Please request a new OTP.") ->
    shape env rq r db (map (Sql.mark_row (Otp.id row)) (otp_codes db)).

End AuthSpec.

(* ===================================================================== *)
(** * Specification vocabulary for the OTP collection of the backend *)
(* ===================================================================== *)

Module BackendSpec.
Import Backend.

Definition live (email : string) (l : list OtpDoc.t) : list OtpDoc.t :=
  filter (fun r => String.eqb (OtpDoc.email r) email
                   && negb (OtpDoc.is_used r)) l.

Definition single_live (db : mongo) : Prop :=
  forall email, (List.length (live email (otp_codes db)) <= 1)%nat.

Definition unique_otp_ids (db : mongo) : Prop :=
  NoDup (map OtpDoc._id (otp_codes db)).

Definition same_otp (before after : OtpDoc.t) : Prop :=
  OtpDoc._id after = OtpDoc._id before
  /\ OtpDoc.email after = OtpDoc.email before
  /\ OtpDoc.otp_code after = OtpDoc.otp_code before
  /\ OtpDoc.created_at after = OtpDoc.created_at before
  /\ OtpDoc.expires_at after = OtpDoc.expires_at before.

(** The occasions on which an endpoint may turn a document from unused to
    used: a fresh OTP for the same address, or a verification that found
    this document for the address and code. *)
Definition may_consume (rq : request) (row : OtpDoc.t) : Prop :=
  match rq with
  | GenerateOtp email => OtpDoc.email row = Py.lower email
  | VerifyOtp email otp_code =>
      OtpDoc.email row = Py.lower email /\ OtpDoc.otp_code row = otp_code
  | _ => False
  end.

Definition moved_forward (rq : request) (before after : OtpDoc.t) : Prop :=
  same_otp before after
  /\ (OtpDoc.is_used before = true -> OtpDoc.is_used after = true)
  /\ (OtpDoc.is_used before = false -> OtpDoc.is_used after = true ->
      may_consume rq before).

Definition is_generate (rq : request) : bool :=
  match rq with
  | GenerateOtp _ => true
  | _ => false
  end.

Definition otps_forward (rq : request) (before after : list OtpDoc.t) : Prop :=
  exists kept issued,
    after = (kept ++ issued)%list
    /\ Forall2 (moved_forward rq) before kept
    /\ Forall (fun row => OtpDoc.is_used row = false) issued
    /\ (is_generate rq = false -> issued = []).

Definition raised (o : outcome answer) : Prop := exists e, o = Raised e.

(** What an endpoint can do to the OTP collection. *)
Inductive shape (env : environment) (rq : request) (o : outcome answer)
          (db : mongo) : list OtpDoc.t -> Prop :=
| unchanged :
    (forall e c, rq = VerifyOtp e c -> raised o) ->
    shape env rq o db (otp_codes db)
| revoked email :
    rq = GenerateOtp email ->
    shape env rq o db (map (Q.deactivate_doc (Py.lower email)) (otp_codes db))
| reissued email :
    rq = GenerateOtp email ->
    ~ In (uuid4 env) (map OtpDoc._id (otp_codes db)) ->
    shape env rq o db
      (map (Q.deactivate_doc (Py.lower email)) (otp_codes db)
       ++ [OtpDoc.mk (uuid4 env) (Py.lower email) (generate_otp env)
                     (now env) (now env + minutes OTP_EXPIRY_MINUTES)
                     false 0])%list
| counted email otp_code :
    rq = VerifyOtp email otp_code ->
    Q.valid_otp (Py.lower email) otp_code (now env) db = None ->
    raised o ->
    shape env rq o db (map (Q.count_doc (Py.lower email)) (otp_codes db))
| consumed email otp_code row :
    rq = VerifyOtp email otp_code ->
    Q.valid_otp (Py.lower email) otp_code (now env) db = Some row ->
    shape env rq o db
      (update_first (fun r => String.eqb (OtpDoc._id r) (OtpDoc._id row))
                    OtpDoc.set_used (otp_codes db)).

Definition generates_for (email : string) (ev : event) : bool :=
  match ev with
  | (_, _, GenerateOtp e) => String.eqb (Py.lower e) (Py.lower email)
  | _ => false
  end.

Definition logged_in (o : outcome answer) : bool :=
  match o with
  | Returned (Body r) => Reply.success r
  | _ => false
  end.

End BackendSpec.

(* ===================================================================== *)
(** * Histories of requests *)
(* ===================================================================== *)

Module History.
Import EnterpriseAuth AuthSpec.





End History.

(* ===================================================================== *)
(** * A worked session, used to exercise the statements *)
(* ===================================================================== *)

Module Demo.
Import EnterpriseAuth.

Definition morning : environment :=
  Environment 1000 1000 23456 "token-1" "uuid-1".
(** Twenty minutes later, with the same draw from [secrets.randbelow]. *)
Definition later : environment :=
  Environment 1200001000 1200001000 23456 "token-2" "uuid-2".
(** Exactly eight hours after [morning]: the instant at which a session
    created then expires. *)
Definition closing : environment :=
  Environment 28800001000 28800001000 5 "token-3" "uuid-3".

Definition bob : string := "bob@hhamedicine.com".
Definition eve : string := "eve@example.org".

Definition fresh : database := initial_database morning.

Definition register_bob : event :=
  (morning, reliable, RegisterUser bob "Bob" "Cardiology").
Definition issue_bob : event := (morning, reliable, GenerateOtp bob).
Definition verify_bob : event := (morning, reliable, VerifyOtp bob "123456").
Definition reissue_bob : event := (later, reliable, GenerateOtp bob).
Definition verify_bob_again : event :=
  (later, reliable, VerifyOtp bob "123456").

(** Bob registered and holding an unused code. *)
Definition issued : database := execute_all fresh [register_bob; issue_bob].
(** Bob logged in. *)
Definition logged_in : database :=
  execute_all fresh [register_bob; issue_bob; verify_bob].
(** An unused code for an address that never registered. *)
Definition issued_unregistered : database := execute_all fresh [issue_bob].


(** The same code drawn again for the same address. *)
Definition same_code_reissued : list event :=
  [register_bob; issue_bob; verify_bob; reissue_bob; verify_bob_again].

Definition wrong_code : event := (morning, reliable, VerifyOtp bob "000000").



End Demo.

(* ===================================================================== *)
(** * Vocabulary for the domain check *)
(* ===================================================================== *)

Module DomainSpec.

(** The domain part that [validate_email_domain] compares: the text
    between the first ['@'] and the next one (or the end), lowercased. *)
Definition domain_part (email : string) : string :=
  Py.lower (nth 1 (Py.split "@" email) "").

Definition access_restricted : string :=
  "Access restricted to hhamedicine.com and hssmedicine.com employees only".

(** The words of the specification: the text after the ['@'] of an
    address; after the first one, when the string has several. *)
Fixpoint text_after_at (email : string) : string :=
  match email with
  | EmptyString => EmptyString
  | String c rest => if Ascii.eqb c "@" then rest else text_after_at rest
  end.

(** The text after the last ['@']: the domain to which mail for the
    address is routed. *)
Fixpoint text_after_last_at (email : string) : string :=
  match email with
  | EmptyString => EmptyString
  | String c rest =>
      if Py.contains "@" rest then text_after_last_at rest
      else if Ascii.eqb c "@" then rest else EmptyString
  end.

(** The number of ['@'] in a string. *)
Fixpoint count_at (email : string) : nat :=
  match email with
  | EmptyString => 0
  | String c rest => (if Ascii.eqb c "@" then 1 else 0) + count_at rest
  end.

(** An address with a second ['@']: its second field is a company
    domain, its mail domain is not. *)
Definition mallory : string := "mallory@hhamedicine.com@evil.org".

End DomainSpec.

(* ===================================================================== *)
(** * Vocabulary for sessions *)
(* ===================================================================== *)

Module SessionSpec.

(** A stored session with this token that is active and whose [user_id]
    joins to an existing user. *)
Definition matches (session_token : string) (db : database)
           (s : Session.t) (u : User.t) : Prop :=
  In s (user_sessions db)
  /\ Session.session_token s = session_token
  /\ Session.is_active s = true
  /\ In u (users db)
  /\ User.id u = Session.user_id s.

Definition user_data_of (s : Session.t) (u : User.t) : UserData.t :=
  UserData.mk (Session.user_id s) (User.email u) (User.full_name u)
              (User.department u) (User.company_domain u)
              (Session.expires_at s).

Definition accepted (s : Session.t) (u : User.t) : Response.t :=
  Response.mk true None None None None (Some (user_data_of s u)).

End SessionSpec.

(* ===================================================================== *)
(** * Vocabulary for the format of stored codes *)
(* ===================================================================== *)

Module OtpFormatSpec.

Definition well_coded (r : Otp.t) : Prop :=
  AuthSpec.six_digit_code (Otp.otp_code r).

Definition well_coded_doc (r : Backend.OtpDoc.t) : Prop :=
  AuthSpec.six_digit_code (Backend.OtpDoc.otp_code r).

End OtpFormatSpec.

(* ===================================================================== *)
(** * Worked inputs for the audio merge and the run of [main] *)
(* ===================================================================== *)

Module Studio.
Import MergeAudio.

(** One frame of mono 16-bit sound. *)
Definition tone : list Byte.byte := [Byte.x01; Byte.x00].
Definition hiss : list Byte.byte := [Byte.x02; Byte.x00].

Definition clip_1 : string := "audio_clips/clip_1.wav".
Definition clip_2 : string := "audio_clips/clip_2.wav".
Definition silent : string := "audio_clips/silent.wav".
Definition cut_short : string := "audio_clips/cut_short.wav".
Definition still : string := "audio_clips/still.wav".
Definition crowded : string := "audio_clips/crowded.wav".
Definition dotted_output : string := "./final_audio.wav".

Definition files (p : string) : option wav :=
  if String.eqb p clip_1 then Some (Wav 1 2 44100 2 (tone ++ tone))
  else if String.eqb p clip_2 then Some (Wav 1 2 44100 1 hiss)
  else if String.eqb p silent then Some (Wav 1 2 44100 0 [])
  else if String.eqb p cut_short then Some (Wav 1 2 44100 2 [])
  else if String.eqb p still then Some (Wav 1 2 0 1 tone)
  else if String.eqb p crowded then Some (Wav 20000 4 8000 1 (repeat Byte.x00 (Z.to_nat 80000)))
  else if String.eqb p output_path then Some (Wav 1 2 44100 2 (hiss ++ hiss))
  else None.

(** Two recorded clips; a clip without frames; a clip whose header
    announces two frames and which holds none; a clip with frame rate 0;
    one frame of 20000 channels of 32 bits; and an output left by an earlier
    run, which ["./final_audio.wav"] names as well.  The others are mono
    and 16 bit at 44.1 kHz.  Every file can be written, and standard output
    is in UTF-8, which has every character. *)
Definition disk : filesystem :=
  Filesystem
    (fun p => if String.eqb p dotted_output then output_path else p)
    files
    (fun _ => true)
    (fun _ => true).


(** A recording session that yields only the clip without frames; the
    services after the merge would all succeed. *)
Definition silent_session : Pipeline.services :=
  Pipeline.Services
    (Returned [silent])
    (fun path => match path with
                 | Some _ => Returned (Some "weekly update")
                 | None => Returned None
                 end)
    (fun _ => Returned tt)
    (fun _ => Returned (Some "Dear team"))
    (fun _ => Returned "dream_team_email.txt")
    (fun _ => Returned true).

Definition good_session : Pipeline.services :=
  Pipeline.Services
    (Returned [clip_1; clip_2])
    (fun path => match path with
                 | Some _ => Returned (Some "weekly update")
                 | None => Returned None
                 end)
    (fun _ => Returned tt)
    (fun _ => Returned (Some "Dear team"))
    (fun _ => Returned "dream_team_email.txt")
    (fun _ => Returned true).

End Studio.

(* ===================================================================== *)
(** * Vocabulary for the stores that requests can reach *)
(* ===================================================================== *)

Module StoreSpec.
Import EnterpriseAuth.

(** [users.email] is [UNIQUE]. *)
Definition unique_user_emails (db : database) : Prop :=
  NoDup (map User.email (users db)).

Definition unique_session_ids (db : database) : Prop :=
  NoDup (map Session.id (user_sessions db)).

(** Every key the schema declares is a key of the store. *)
Definition keys_unique (db : database) : Prop :=
  AuthSpec.unique_user_ids db
  /\ unique_user_emails db
  /\ AuthSpec.unique_session_tokens db
  /\ unique_session_ids db
  /\ AuthSpec.unique_otp_ids db.

(** Both company rows of [_setup_default_companies] are there and active. *)
Definition companies_installed (db : database) : Prop :=
  forall domain, In domain ALLOWED_DOMAINS ->
                 exists company, Sql.select_company domain db = Some company.

(** A token that is stored and has no active session. *)
Definition revoked (session_token : string) (db : database) : Prop :=
  In session_token (map Session.session_token (user_sessions db))
  /\ forall s, In s (user_sessions db) ->
               Session.session_token s = session_token ->
               Session.is_active s = false.

(** The user row that [register_user] inserts. *)
Definition registered_row (env : environment) (db : database)
           (email full_name department domain : string) : User.t :=
  User.mk (next_id (map User.id (users db))) (Py.lower email)
          (Py.strip full_name) (Py.strip department) domain true false
          (current_timestamp env) None 0.

(** The OTP row that [generate_otp] inserts. *)
Definition issued_row (env : environment) (db : database) (email : string)
  : Otp.t :=
  Otp.mk (next_id (map Otp.id (otp_codes db))) (Py.lower email)
         (Py.format_06d (randbelow env + 100000)) (current_timestamp env)
         (now env + minutes OTP_EXPIRY_MINUTES) false 0.

(** The store once [generate_otp] has committed. *)
Definition after_issue (env : environment) (db : database) (email : string)
  : database :=
  Sql.insert_otp env (Py.lower email) (Py.format_06d (randbelow env + 100000))
                 (now env + minutes OTP_EXPIRY_MINUTES)
                 (Sql.deactivate_otps (Py.lower email) db).

End StoreSpec.

(* ===================================================================== *)
(** * Worked inputs for registration, issuance and login *)
(* ===================================================================== *)

Module Clinic.
Import EnterpriseAuth.

Definition carol : string := "Carol@hssmedicine.com".
Definition carol_again : string := "CAROL@hssmedicine.com".
(** An allowed domain typed with capitals. *)
Definition dave : string := "dave@HSSMedicine.com".

Definition register_carol : event :=
  (Demo.morning, reliable, RegisterUser carol " Carol " "Radiology").

(** Carol registered, beside Bob with his unused code. *)
Definition with_carol : database := execute_all Demo.issued [register_carol].

(** The day after [Demo.morning]. *)
Definition next_day : environment :=
  Environment 86400001000 86400001000 42 "token-9" "uuid-9".

(** Bob logged in twice, with ["token-1"] and then with ["token-2"]. *)
Definition two_sessions : database :=
  execute_all Demo.fresh Demo.same_code_reissued.

(** Codes that are not Bob's, each tried at its own time. *)
Definition guesses : list (environment * string) :=
  [(Demo.morning, "111111"); (Demo.morning, "222222"); (Demo.morning, "333333")].

End Clinic.

Module AttemptSpec.
Import EnterpriseAuth.

(** Verifications of one address with the given codes, all database calls
    succeeding. *)
Definition tries (email : string) (guesses : list (environment * string))
  : list event :=
  map (fun g => (fst g, reliable, VerifyOtp email (snd g))) guesses.

(** The rows of the other addresses. *)
Definition rows_of_others (email : string) (l : list Otp.t) : list Otp.t :=
  filter (fun r => negb (String.eqb (Otp.email r) email)) l.

(** The address a request issues or verifies an OTP for. *)
Definition otp_address (rq : request) : option string :=
  match rq with
  | GenerateOtp email => Some (Py.lower email)
  | VerifyOtp email _ => Some (Py.lower email)
  | _ => None
  end.

End AttemptSpec.

(* ===================================================================== *)
(** * Vocabulary for opening an existing database *)
(* ===================================================================== *)

Module ReopenSpec.
Import EnterpriseAuth.

(** The store after both [INSERT OR IGNORE] statements of
    [_setup_default_companies]. *)
Definition with_default_companies (env : environment) (db : database)
  : database :=
  Sql.insert_or_ignore_company env "hssmedicine.com" "HSS Medicine"
    "admin@hssmedicine.com"
    (Sql.insert_or_ignore_company env "hhamedicine.com" "HHA Medicine"
       "admin@hhamedicine.com" db).

(** Nothing but company rows was added. *)
Definition only_companies_added (db db' : database) : Prop :=
  users db' = users db
  /\ otp_codes db' = otp_codes db
  /\ user_sessions db' = user_sessions db
  /\ audit_log db' = audit_log db
  /\ exists added,
       company_settings db' = (company_settings db ++ added)%list.

End ReopenSpec.

(* ===================================================================== *)
(** * Vocabulary for the answers of the backend *)
(* ===================================================================== *)

Module HttpSpec.
Import Backend.

Definition restricted : exn :=
  HTTPException 400 "Access restricted to hssmedicine.com employees only".

Definition authentication_failed : exn :=
  HTTPException 401 "Authentication failed".


(** The sessions of one user. *)
Definition sessions_of (user_id : string) (db : mongo) : list SessionDoc.t :=
  filter (fun s => String.eqb (SessionDoc.user_id s) user_id) (sessions db).

(** Every stored session that carries the token belongs to the user. *)
Definition token_of_user (token user_id : string) (db : mongo) : Prop :=
  forall s, In s (sessions db) -> SessionDoc.session_token s = token ->
            SessionDoc.user_id s = user_id.

(** A stored document that matches the address and the code and is unused,
    whatever its expiry. *)
Definition unused_match (email otp_code : string) (r : OtpDoc.t) : Prop :=
  OtpDoc.email r = email /\ OtpDoc.otp_code r = otp_code
  /\ OtpDoc.is_used r = false.

End HttpSpec.

(* ===================================================================== *)
(** * Worked inputs for the backend *)
(* ===================================================================== *)

Module Ward.
Import Backend.

Definition ann : string := "ann@hssmedicine.com".

Definition register_ann : event :=
  (Demo.morning, reliable, Register ann " Ann " "Surgery").
Definition issue_ann : event := (Demo.morning, reliable, GenerateOtp ann).
Definition verify_ann : event :=
  (Demo.morning, reliable, VerifyOtp ann "123456").

(** Ann holding an unused code without being registered. *)
Definition issued_unregistered : mongo := execute_all empty_mongo [issue_ann].
(** Ann registered and holding an unused code. *)
Definition issued : mongo := execute_all empty_mongo [register_ann; issue_ann].
(** Ann logged in with the token of [Demo.morning]. *)
Definition logged_in : mongo :=
  execute_all empty_mongo [register_ann; issue_ann; verify_ann].

End Ward.

(* ===================================================================== *)
(** * [backend/server.py]: automation requests and their chat *)
(* ===================================================================== *)

Module Portal.
Import Backend.

(** The documents of [automation_requests] and [chat_messages]. *)
Module RequestDoc.
Record t : Type := mk {
  _id : string;
  title : string;
  description : string;
  priority : string;
  status : string;
  user_id : string;
  user_name : string;
  user_email : string;
  user_department : string;
  created_at : Z;
  updated_at : Z;
  admin_notes : option string
}.
End RequestDoc.

Module MessageDoc.
Record t : Type := mk {
  _id : string;
  request_id : string;
  message : string;
  sender_type : string;
  sender_name : string;
  sender_email : string;
  created_at : Z
}.
End MessageDoc.

(** The database [laude_agent]: the three collections of the
    authentication part, and the two of this part. *)
Record collections : Type := Collections {
  auth : mongo;
  automation_requests : list RequestDoc.t;
  chat_messages : list MessageDoc.t
}.

Definition empty_collections : collections :=
  Collections empty_mongo [] [].

(** A call of the authentication part, run on its collections: as the
    dependency [Depends(validate_session)] of an endpoint, or as one of the
    authentication endpoints themselves.  A request carries a bearer token;
    the dependency runs before the body of the endpoint, outside its
    [try]. *)
Definition depends {A} (m : M mongo A) : M collections A :=
  fun w =>
    let (o, w') := m (World (auth (store w)) (faulty w) (calls w)) in
    (o, World (Collections (store w') (automation_requests (store w))
                           (chat_messages (store w)))
              (faulty w') (calls w')).

(** ** Collection primitives *)

Definition find_one {A} (query : collections -> option A)
  : M collections (option A) :=
  attempt DatabaseError ;; db <- get_store ;; ret (query db).

(** [find(...).sort(...).to_list(n)]. *)
Definition to_list {A} (query : collections -> list A)
  : M collections (list A) :=
  attempt DatabaseError ;; db <- get_store ;; ret (query db).

Definition update_one (stmt : collections -> collections)
  : M collections unit :=
  attempt DatabaseError ;; db <- get_store ;; put_store (stmt db).

Definition insert_one (stmt : collections -> option collections)
  : M collections unit :=
  attempt DatabaseError ;;
  db <- get_store ;;
  match stmt db with
  | Some db' => put_store db'
  | None => raise IntegrityError
  end.

(** [sort("created_at", -1)] and [sort("created_at", 1)], as a stable
    insertion sort: documents with equal [created_at] keep the order of
    the collection. *)
Fixpoint insert_desc {A} (key : A -> Z) (x : A) (l : list A) : list A :=
  match l with
  | [] => [x]
  | y :: l' => if key y >? key x then y :: insert_desc key x l'
               else x :: y :: l'
  end.

Definition sort_desc {A} (key : A -> Z) (l : list A) : list A :=
  fold_right (insert_desc key) [] l.

Fixpoint insert_asc {A} (key : A -> Z) (x : A) (l : list A) : list A :=
  match l with
  | [] => [x]
  | y :: l' => if key y <? key x then y :: insert_asc key x l'
               else x :: y :: l'
  end.

Definition sort_asc {A} (key : A -> Z) (l : list A) : list A :=
  fold_right (insert_asc key) [] l.

(** The body of [PUT /api/automation/requests/{request_id}]: the keys
    [title], [description] and [priority] when present (with string
    values); other keys are ignored. *)
Module UpdateData.
Record t : Type := mk {
  title : option string;
  description : option string;
  priority : option string
}.
End UpdateData.

Module PQ.

(** [find_one({"_id": request_id, "user_id": user_id})]. *)
Definition request_of_user (request_id user_id : string) (db : collections)
  : option RequestDoc.t :=
  find (fun r => String.eqb (RequestDoc._id r) request_id
                 && String.eqb (RequestDoc.user_id r) user_id)
       (automation_requests db).

(** [find_one({"_id": request_id})]. *)
Definition request_by_id (request_id : string) (db : collections)
  : option RequestDoc.t :=
  find (fun r => String.eqb (RequestDoc._id r) request_id)
       (automation_requests db).

(** [find({"user_id": user_id}).sort("created_at", -1).to_list(100)]. *)
Definition requests_of (user_id : string) (db : collections)
  : list RequestDoc.t :=
  firstn 100
    (sort_desc RequestDoc.created_at
       (filter (fun r => String.eqb (RequestDoc.user_id r) user_id)
               (automation_requests db))).

(** [find({}).sort("created_at", -1).to_list(1000)]. *)
Definition all_requests (db : collections) : list RequestDoc.t :=
  firstn 1000 (sort_desc RequestDoc.created_at (automation_requests db)).

(** [find({"request_id": request_id}).sort("created_at", 1)
     .to_list(1000)]. *)
Definition messages_of (request_id : string) (db : collections)
  : list MessageDoc.t :=
  firstn 1000
    (sort_asc MessageDoc.created_at
       (filter (fun m => String.eqb (MessageDoc.request_id m) request_id)
               (chat_messages db))).

Definition insert_request (doc : RequestDoc.t) (db : collections)
  : option collections :=
  if existsb (fun r => String.eqb (RequestDoc._id r) (RequestDoc._id doc))
             (automation_requests db)
  then None
  else Some (Collections (auth db) (automation_requests db ++ [doc])
                         (chat_messages db)).

Definition insert_message (doc : MessageDoc.t) (db : collections)
  : option collections :=
  if existsb (fun m => String.eqb (MessageDoc._id m) (MessageDoc._id doc))
             (chat_messages db)
  then None
  else Some (Collections (auth db) (automation_requests db)
                         (chat_messages db ++ [doc])).

(** [update_one({"_id": request_id}, {"$set": fields})]. *)
Definition set_fields (request_id : string)
           (fields : RequestDoc.t -> RequestDoc.t) (db : collections)
  : collections :=
  Collections (auth db)
    (update_first (fun r => String.eqb (RequestDoc._id r) request_id)
                  fields (automation_requests db))
    (chat_messages db).

(** The [update_fields] of [update_automation_request]. *)
Definition user_fields (update_data : UpdateData.t) (utcnow : Z)
           (r : RequestDoc.t) : RequestDoc.t :=
  RequestDoc.mk (RequestDoc._id r)
    (match UpdateData.title update_data with
     | Some title => Py.strip title
     | None => RequestDoc.title r
     end)
    (match UpdateData.description update_data with
     | Some description => Py.strip description
     | None => RequestDoc.description r
     end)
    (match UpdateData.priority update_data with
     | Some priority => priority
     | None => RequestDoc.priority r
     end)
    (RequestDoc.status r) (RequestDoc.user_id r) (RequestDoc.user_name r)
    (RequestDoc.user_email r) (RequestDoc.user_department r)
    (RequestDoc.created_at r) utcnow (RequestDoc.admin_notes r).

(** [{"updated_at": utcnow}]. *)
Definition touched (utcnow : Z) (r : RequestDoc.t) : RequestDoc.t :=
  RequestDoc.mk (RequestDoc._id r) (RequestDoc.title r)
    (RequestDoc.description r) (RequestDoc.priority r) (RequestDoc.status r)
    (RequestDoc.user_id r) (RequestDoc.user_name r) (RequestDoc.user_email r)
    (RequestDoc.user_department r) (RequestDoc.created_at r) utcnow
    (RequestDoc.admin_notes r).

(** Python truthiness of [Optional[str]]. *)
Definition truthy (s : option string) : option string :=
  match s with
  | Some EmptyString => None
  | other => other
  end.

(** The [update_fields] of [update_request_status]. *)
Definition admin_fields (status : string) (admin_notes : option string)
           (utcnow : Z) (r : RequestDoc.t) : RequestDoc.t :=
  RequestDoc.mk (RequestDoc._id r) (RequestDoc.title r)
    (RequestDoc.description r) (RequestDoc.priority r) status
    (RequestDoc.user_id r) (RequestDoc.user_name r) (RequestDoc.user_email r)
    (RequestDoc.user_department r) (RequestDoc.created_at r) utcnow
    (match truthy admin_notes with
     | Some notes => Some (Py.strip notes)
     | None => RequestDoc.admin_notes r
     end).

End PQ.

(** The JSON bodies of the answers of this part. *)
Inductive reply : Type :=
| Created (message request_id : string) (request : RequestDoc.t)
| RequestList (requests : list RequestDoc.t)
| Done (message : string)
| MessageAdded (message message_id : string)
| MessageList (messages : list MessageDoc.t).

(** [except Exception as e: raise HTTPException(500, detail)]: these
    endpoints have no [except HTTPException: raise] before it. *)
Definition raise_500 {A} (detail : string) (e : exn) : M collections A :=
  raise (HTTPException 500 detail).

(** The field [user_id] of the body [AutomationRequest] is not read;
    [priority] is the field of the body, ["medium"] when the client left it
    out. *)
Definition create_automation_request (env : environment)
           (token title description priority body_user_id : string)
  : M collections reply :=
  user_data <- depends (validate_session env token) ;;
  try_except
    (let request_id := uuid4 env in
     let request_doc :=
       RequestDoc.mk request_id (Py.strip title) (Py.strip description)
         priority "pending" (UserInfo.user_id user_data)
         (UserInfo.full_name user_data) (UserInfo.email user_data)
         (UserInfo.department user_data) (now env) (now env) None in
     insert_one (PQ.insert_request request_doc) ;;
     ret (Created "Automation request created successfully" request_id
                  request_doc))
    (raise_500 "Failed to create automation request").

Definition get_user_automation_requests (env : environment) (token : string)
  : M collections reply :=
  user_data <- depends (validate_session env token) ;;
  try_except
    (requests <- to_list (PQ.requests_of (UserInfo.user_id user_data)) ;;
     ret (RequestList requests))
    (raise_500 "Failed to fetch automation requests").

Definition update_automation_request (env : environment)
           (token request_id : string) (update_data : UpdateData.t)
  : M collections reply :=
  user_data <- depends (validate_session env token) ;;
  try_except
    (request <- find_one (PQ.request_of_user request_id
                            (UserInfo.user_id user_data)) ;;
     match request with
     | None => raise (HTTPException 404 "Request not found")
     | Some _ =>
         update_one (PQ.set_fields request_id
                       (PQ.user_fields update_data (now env))) ;;
         ret (Done "Request updated successfully")
     end)
    (raise_500 "Failed to update automation request").

(** The fields [request_id] and [user_id] of the body [ChatMessage] are
    not read; [sender_type] is stored as sent. *)
Definition add_message_to_request (env : environment)
           (token request_id message sender_type : string)
  : M collections reply :=
  user_data <- depends (validate_session env token) ;;
  try_except
    (request <- find_one (PQ.request_by_id request_id) ;;
     match request with
     | None => raise (HTTPException 404 "Request not found")
     | Some r =>
         if negb (String.eqb (RequestDoc.user_id r)
                             (UserInfo.user_id user_data))
            && negb (UserInfo.is_admin user_data)
         then raise (HTTPException 403 "Access denied")
         else
           let message_id := uuid4 env in
           let message_doc :=
             MessageDoc.mk message_id request_id (Py.strip message)
               sender_type (UserInfo.full_name user_data)
               (UserInfo.email user_data) (now env) in
           insert_one (PQ.insert_message message_doc) ;;
           update_one (PQ.set_fields request_id (PQ.touched (now env))) ;;
           ret (MessageAdded "Message added successfully" message_id)
     end)
    (raise_500 "Failed to add message").

Definition get_request_messages (env : environment)
           (token request_id : string) : M collections reply :=
  user_data <- depends (validate_session env token) ;;
  try_except
    (request <- find_one (PQ.request_by_id request_id) ;;
     match request with
     | None => raise (HTTPException 404 "Request not found")
     | Some r =>
         if negb (String.eqb (RequestDoc.user_id r)
                             (UserInfo.user_id user_data))
            && negb (UserInfo.is_admin user_data)
         then raise (HTTPException 403 "Access denied")
         else
           messages <- to_list (PQ.messages_of request_id) ;;
           ret (MessageList messages)
     end)
    (raise_500 "Failed to fetch messages").

Definition get_all_automation_requests (env : environment) (token : string)
  : M collections reply :=
  user_data <- depends (validate_session env token) ;;
  try_except
    (if negb (UserInfo.is_admin user_data)
     then raise (HTTPException 403 "Admin access required")
     else
       requests <- to_list PQ.all_requests ;;
       ret (RequestList requests))
    (raise_500 "Failed to fetch requests").

(** The field [request_id] of the body [AdminUpdate] is not read. *)
Definition update_request_status (env : environment)
           (token request_id status : string) (admin_notes : option string)
  : M collections reply :=
  user_data <- depends (validate_session env token) ;;
  try_except
    (if negb (UserInfo.is_admin user_data)
     then raise (HTTPException 403 "Admin access required")
     else
       request <- find_one (PQ.request_by_id request_id) ;;
       match request with
       | None => raise (HTTPException 404 "Request not found")
       | Some _ =>
           update_one (PQ.set_fields request_id
                         (PQ.admin_fields status admin_notes (now env))) ;;
           match PQ.truthy admin_notes with
           | Some notes =>
               let message_doc :=
                 MessageDoc.mk (uuid4 env) request_id
                   ("Status updated to '" ++ status ++ "': " ++ notes)
                   "admin" (UserInfo.full_name user_data)
                   (UserInfo.email user_data) (now env) in
               insert_one (PQ.insert_message message_doc)
           | None => ret tt
           end ;;
           ret (Done "Request status updated successfully")
       end)
    (raise_500 "Failed to update request status").

Inductive request : Type :=
| Auth (rq : Backend.request)
| CreateRequest (token title description priority body_user_id : string)
| MyRequests (token : string)
| UpdateRequest (token request_id : string) (update_data : UpdateData.t)
| AddMessage (token request_id message sender_type : string)
| GetMessages (token request_id : string)
| AllRequests (token : string)
| UpdateStatus (token request_id status : string)
               (admin_notes : option string).

Inductive answer : Type :=
| AuthAnswer (a : Backend.answer)
| Json (r : reply).

Definition perform (env : environment) (rq : request)
  : M collections answer :=
  match rq with
  | Auth rq' => a <- depends (Backend.perform env rq') ;; ret (AuthAnswer a)
  | CreateRequest t title description priority uid =>
      r <- create_automation_request env t title description priority uid ;;
      ret (Json r)
  | MyRequests t => r <- get_user_automation_requests env t ;; ret (Json r)
  | UpdateRequest t id u =>
      r <- update_automation_request env t id u ;; ret (Json r)
  | AddMessage t id m st =>
      r <- add_message_to_request env t id m st ;; ret (Json r)
  | GetMessages t id => r <- get_request_messages env t id ;; ret (Json r)
  | AllRequests t => r <- get_all_automation_requests env t ;; ret (Json r)
  | UpdateStatus t id st notes =>
      r <- update_request_status env t id st notes ;; ret (Json r)
  end.

Definition event : Type := (environment * (nat -> bool) * request)%type.

Definition step (db : collections) (ev : event)
  : outcome answer * collections :=
  let '(env, f, rq) := ev in run (perform env rq) f db.

Fixpoint execute_all (db : collections) (evs : list event) : collections :=
  match evs with
  | [] => db
  | ev :: evs' => execute_all (snd (step db ev)) evs'
  end.

End Portal.

(* ===================================================================== *)
(** * Vocabulary for the automation requests *)
(* ===================================================================== *)

Module PortalSpec.
Import Backend Portal.



(** The user whose session the token names at the time of the call: the
    first active, unexpired session with the token, and the first user
    with its [user_id]. *)
Definition caller (token : string) (utcnow : Z) (db : collections)
  : option UserDoc.t :=
  match Q.live_session token utcnow (auth db) with
  | Some s => Q.user_by_id (SessionDoc.user_id s) (auth db)
  | None => None
  end.

(** Who may read and extend the chat of a request. *)
Definition may_chat (u : UserDoc.t) (r : RequestDoc.t) : Prop :=
  RequestDoc.user_id r = UserDoc._id u \/ UserDoc.is_admin u = true.


(** No user is an administrator, and no request has left the state in
    which it was created. *)
Definition nobody_is_admin (db : collections) : Prop :=
  Forall (fun u => UserDoc.is_admin u = false) (users (auth db)).

Definition all_pending (db : collections) : Prop :=
  Forall (fun r => RequestDoc.status r = "pending"
                   /\ RequestDoc.admin_notes r = None)
         (automation_requests db).

Definition returned {A} (o : outcome A) : bool :=
  match o with
  | Returned _ => true
  | Raised _ => false
  end.

End PortalSpec.

(* ===================================================================== *)
(** * Worked inputs for the automation requests *)
(* ===================================================================== *)

Module Office.
Import Backend Portal.






End Office.

(* ===================================================================== *)
(** * Vocabulary for creating an automation request *)
(* ===================================================================== *)

Module RequestSpec.
Import Backend Portal.



End RequestSpec.

(* ===================================================================== *)
(** * Vocabulary for administrators *)
(* ===================================================================== *)

Module AdminSpec.
Import Backend Portal.

(** A user who is not an administrator. *)
Definition plain (u : UserDoc.t) : Prop := UserDoc.is_admin u = false.

(** A request as [create_automation_request] stores it: pending, without
    administrator's notes. *)
Definition pending (r : RequestDoc.t) : Prop :=
  RequestDoc.status r = "pending" /\ RequestDoc.admin_notes r = None.

End AdminSpec.

(* ===================================================================== *)
(** * [src/run_full_system.py] *)
(* ===================================================================== *)

Module FullSystem.

Definition nl : string := String (ascii_of_nat 10) EmptyString.

(** [needle in s] for strings. *)
Fixpoint isin (needle s : string) : bool :=
  String.prefix needle s
  || match s with
     | EmptyString => false
     | String _ s' => isin needle s'
     end.

Definition keywords : list string :=
  ["completed"; "implemented"; "developed"; "finished"; "achieved";
   "working on"; "next week"; "plan to"; "metrics"; "results"].

(** The body of [for sentence in sentences] in [extract_key_points]. *)
Fixpoint key_points (sentences : list string) : list string :=
  match sentences with
  | [] => []
  | sentence :: rest =>
      let sentence := Py.strip sentence in
      if (10 <? String.length sentence)%nat
         && existsb (fun keyword => isin keyword (Py.lower sentence)) keywords
      then (if negb (String.eqb sentence "")
               && negb (Py.endswith sentence ".")
            then sentence ++ "."
            else sentence) :: key_points rest
      else key_points rest
  end.

(** [for i, point in enumerate(points, i): formatted_points +=
    f"{i}. {point}\n"]. *)
Fixpoint formatted_points (i : Z) (points : list string) : string :=
  match points with
  | [] => ""
  | point :: rest =>
      Py.str_nonneg i ++ ". " ++ point ++ nl ++ formatted_points (i + 1) rest
  end.

Definition default_points : string :=
  "1. Weekly technology updates completed" ++ nl
  ++ "2. System maintenance and improvements ongoing" ++ nl
  ++ "3. Planning next week's development priorities".

Definition extract_key_points (transcript : string) : string :=
  let sentences := Py.split "." transcript in
  let formatted := formatted_points 1 (firstn 6 (key_points sentences)) in
  if String.eqb formatted "" then default_points else formatted.

(** [generated_on] is [datetime.now().strftime('%B %d, %Y at %I:%M %p')];
    [report_html] is not read. *)
Definition create_bullet_point_email (report_html transcript : string)
           (generated_on : string) : string :=
  "Dream Team," ++ nl ++ nl
  ++ "Here is my weekly update:" ++ nl ++ nl
  ++ extract_key_points transcript ++ nl ++ nl
  ++ "Please find the detailed report attached/below for your review."
  ++ nl ++ nl
  ++ "Best regards," ++ nl
  ++ "Akhil Reddy" ++ nl
  ++ "HHA Medicine Technology Team" ++ nl ++ nl
  ++ "---" ++ nl
  ++ "Generated on " ++ generated_on ++ nl.

(** A path as [Path(directory) / name]. *)
Definition path : Type := (string * string)%type.

(** The calls that a run makes to the world outside, with their
    arguments. *)
Inductive call : Type :=
| record_multiple_clips_call
| merge_audio_clips_call (audio_files : list string)
| transcribe_audio_call (audio_file_path : string)
| write_call (file : path) (content : string)
| generate_report_call (transcript : string)
| start_call (file : path)
| send_email_outlook_draft_call (content subject : string).

(** What a run obtains from the microphone, the speech and language
    services, the disk, the clock and the mail client.  A call that raises
    ends the run in the handlers of [main], which only log. *)
Record services : Type := Services {
  record_multiple_clips : outcome (list string);
  transcribe_audio : string -> outcome (option string);
  generate_report : string -> outcome (option string);
  write : path -> string -> outcome unit;
  strftime : string -> string;
  send_email_outlook_draft : string -> string -> outcome bool
}.

(** [main()]: the calls made, in order.  [os.system("start ...")] sits in
    its own [try] with a bare [except]. *)
Definition main (sv : services) (fs : MergeAudio.filesystem) : list call :=
  record_multiple_clips_call ::
  match record_multiple_clips sv with
  | Raised _ => []
  | Returned [] => []
  | Returned audio_files =>
      merge_audio_clips_call audio_files ::
      match Pipeline.truthy
              (fst (MergeAudio.merge_audio_clips audio_files fs)) with
      | None => []
      | Some final_audio_path =>
          transcribe_audio_call final_audio_path ::
          match transcribe_audio sv final_audio_path with
          | Raised _ => []
          | Returned transcript =>
              match Pipeline.truthy transcript with
              | None => []
              | Some transcript =>
                  let timestamp := strftime sv "%Y%m%d_%H%M%S" in
                  let transcript_path :=
                    ("transcripts",
                     "voice_transcript_" ++ timestamp ++ ".txt") in
                  write_call transcript_path transcript ::
                  match write sv transcript_path transcript with
                  | Raised _ => []
                  | Returned _ =>
                      generate_report_call transcript ::
                      match generate_report sv transcript with
                      | Raised _ => []
                      | Returned report_html =>
                          match Pipeline.truthy report_html with
                          | None => []
                          | Some report_html =>
                              let report_path :=
                                ("reports",
                                 "voice_report_" ++ timestamp ++ ".html") in
                              let preview_path :=
                                ("", "VOICE_REPORT_PREVIEW.html") in
                              write_call report_path report_html ::
                              match write sv report_path report_html with
                              | Raised _ => []
                              | Returned _ =>
                                  write_call preview_path report_html ::
                                  match write sv preview_path report_html with
                                  | Raised _ => []
                                  | Returned _ =>
                                      let bullet_email :=
                                        create_bullet_point_email
                                          report_html transcript
                                          (strftime sv
                                             "%B %d, %Y at %I:%M %p") in
                                      let combined_content :=
                                        bullet_email ++ nl ++ nl
                                        ++ "--- DETAILED REPORT ---" ++ nl
                                        ++ report_html in
                                      let subject :=
                                        "Weekly Update - HHA Medicine Technology - "
                                        ++ strftime sv "%B %d, %Y" in
                                      [start_call preview_path;
                                       send_email_outlook_draft_call
                                         combined_content subject]
                                  end
                              end
                          end
                      end
                  end
              end
          end
      end
  end.

End FullSystem.

(* ===================================================================== *)
(** * Vocabulary for the key points and the full run *)
(* ===================================================================== *)

Module KeyPointSpec.
Import FullSystem.

(** A stripped sentence that the loop of [extract_key_points] keeps: more
    than ten characters and one of the keywords in its lowercase form. *)
Definition is_key_sentence (sentence : string) : bool :=
  (10 <? String.length sentence)%nat
  && existsb (fun keyword => isin keyword (Py.lower sentence)) keywords.

(** The stripped keyword sentences of a transcript, in order. *)
Definition chosen (transcript : string) : list string :=
  filter is_key_sentence (map Py.strip (Py.split "." transcript)).





End KeyPointSpec.

(* ===================================================================== *)
(** * [src/utils/merge_audio.py]: [cleanup_temp_files] *)
(* ===================================================================== *)

Module Cleanup.

(** The paths that exist ([os.path.exists]). *)
Definition files : Type := string -> bool.




End Cleanup.

(* ===================================================================== *)
(** * Worked inputs for the full run and the clean-up *)
(* ===================================================================== *)

Module Desk.
Import FullSystem.

Definition transcript : string :=
  "This week I completed the intake dashboard. Lunch was fine. Next week we plan to ship the scheduler".



End Desk.

(* ===================================================================== *)
(** * Vocabulary for the audit log *)
(* ===================================================================== *)

Module AuditSpec.
Import EnterpriseAuth.

(** The action that a request writes to [audit_log] when it writes one. *)
Definition action_of (rq : request) : option string :=
  match rq with
  | RegisterUser _ _ _ => Some "USER_REGISTERED"
  | VerifyOtp _ _ => Some "LOGIN_SUCCESS"
  | LogoutUser _ => Some "LOGOUT"
  | _ => None
  end.

(** Requests whose success is always recorded. *)
Definition always_audited (rq : request) : bool :=
  match rq with
  | RegisterUser _ _ _ | VerifyOtp _ _ => true
  | _ => false
  end.

(** The rows that record a login of the user. *)
Definition is_login_of (user_id : Z) (row : Audit.t) : bool :=
  String.eqb (Audit.action row) "LOGIN_SUCCESS"
  && match Audit.user_id row with
     | Some i => i =? user_id
     | None => false
     end.

Definition logins_of (user_id : Z) (rows : list Audit.t) : Z :=
  Z.of_nat (List.length (filter (is_login_of user_id) rows)).

(** Every row that names a user names a stored one. *)
Definition audit_names_users (db : database) : Prop :=
  forall row i, In row (audit_log db) -> Audit.user_id row = Some i ->
                In i (map User.id (users db)).

(** The login counter of every user is the number of its login rows. *)
Definition logins_counted (db : database) : Prop :=
  Forall (fun u => User.login_count u
                   = logins_of (User.id u) (audit_log db)) (users db).

End AuditSpec.

(* ===================================================================== *)
(** * Vocabulary for the faults of a call *)
(* ===================================================================== *)

Module FaultSpec.
Import EnterpriseAuth.





End FaultSpec.

(* ===================================================================== *)
(** * Vocabulary for the sessions of the backend *)
(* ===================================================================== *)

Module BackendSessionSpec.
Import Backend.

(** No two session documents carry the same token
    ([secrets.token_urlsafe(32)] does not repeat), and no two user
    documents the same [_id]. *)
Definition unique_tokens (db : mongo) : Prop :=
  NoDup (map SessionDoc.session_token (sessions db)).

Definition unique_ids (db : mongo) : Prop :=
  NoDup (map UserDoc._id (users db)).

(** A stored session with this token that is active and whose [user_id]
    is the [_id] of a stored user. *)
Definition matches (token : string) (db : mongo)
           (s : SessionDoc.t) (u : UserDoc.t) : Prop :=
  In s (sessions db)
  /\ SessionDoc.session_token s = token
  /\ SessionDoc.is_active s = true
  /\ In u (users db)
  /\ UserDoc._id u = SessionDoc.user_id s.

(** The dictionary that [validate_session] returns for a user. *)
Definition identity_of (u : UserDoc.t) : UserInfo.t :=
  UserInfo.mk (UserDoc._id u) (UserDoc.email u) (UserDoc.full_name u)
              (UserDoc.department u) None (UserDoc.is_admin u) None.

(** The collections after a validation: nothing has changed but
    [last_activity] of the session with the token, which holds the
    instant of the call as the database keeps it. *)
Definition touched (token : string) (last_activity : Z) (db : mongo) : mongo :=
  Mongo (users db) (otp_codes db)
        (map (fun x => if String.eqb (SessionDoc.session_token x) token
                       then SessionDoc.set_last_activity last_activity x
                       else x) (sessions db)).

Definition identified (o : outcome answer) : bool :=
  match o with
  | Returned (Identity _) => true
  | _ => false
  end.

(** What BSON keeps of a [datetime]: whole milliseconds. *)
Definition bson_datetime (t : Z) : Z := 1000 * (t / 1000).

(** Well after the session of [Demo.morning] has expired. *)
Definition after_hours : environment :=
  Environment 30000000000 30000000000 5 "token-4" "uuid-4".

End BackendSessionSpec.

(* ===================================================================== *)
(** * [backend/server.py]: a request before it reaches its endpoint *)
(* ===================================================================== *)

Module Gateway.
Import Backend Portal.












End Gateway.

(* ===================================================================== *)
(** * Properties *)
(* ===================================================================== *)

(** ** Evaluating a method of [EnterpriseAuth] path by path *)

Module AuthFacts.
Import EnterpriseAuth AuthEffects AuthSpec.

Ltac run_method :=
  cbv beta iota zeta delta
    [perform body register_user register_user_body generate_otp
     generate_otp_body verify_otp verify_otp_body validate_session
     validate_session_body logout_user logout_user_body get_company_info
     send_otp_email _save_email_to_file _log_audit init_database
     init_database_body __init__ try_except bind connect
     fetch execute execute_checked commit attempt get_store put_store
     ret raise store faulty calls run step fst snd].

(** The term whose value decides which branch the goal takes next. *)
Ltac head_scrutinee t :=
  lazymatch t with
  | match ?x with _ => _ end => head_scrutinee x
  | (match ?x with _ => _ end) _ => head_scrutinee x
  | _ => t
  end.

Ltac split_path :=
  lazymatch goal with
  | |- ?G => let s := head_scrutinee G in destruct s eqn:?
  end; run_method.

Ltac to_Z_facts :=
  repeat match goal with
    | H : negb ?b = _ |- _ => destruct b; cbn in H; try discriminate; clear H
    | H : (_ >? _) = true |- _ => apply Z.gtb_lt in H
    | H : (_ >? _) = false |- _ =>
        rewrite Z.gtb_ltb in H; apply Z.ltb_ge in H
    | H : (_ >=? _) = true |- _ => apply Z.geb_le in H
    | H : (_ >=? _) = false |- _ =>
        rewrite Z.geb_leb in H; apply Z.leb_gt in H
    end.

Ltac settle :=
  to_Z_facts;
  first
    [ constructor; reflexivity
    | econstructor; solve [eauto | lia]
    | match goal with
      | H : Sql.select_session ?t ?db = _
        |- effect ?env (LogoutUser ?t) ?db _ _ =>
          let L := fresh in
          pose proof (logged_out env t db) as L; rewrite H in L; exact L
      end ].

(** Every request returns a dictionary, and its committed effect is one
    of those listed by [effect], whatever the fault schedule. *)
Lemma perform_effect env rq db f n :
  match perform env rq (World db f n) with
  | (Returned r, w') => effect env rq db r (store w')
  | (Raised _, _) => False
  end.
Proof.
  destruct rq; run_method; repeat split_path; settle.
Qed.

Lemma step_effect db env f rq :
  exists r,
    step db (env, f, rq) = (Returned r, snd (step db (env, f, rq)))
    /\ effect env rq db r (snd (step db (env, f, rq))).
Proof.
  pose proof (perform_effect env rq db f 0) as H.
  unfold step, run.
  destruct (perform env rq (World db f 0)) as [[r | e] w']; [| contradiction].
  exists r. split; [reflexivity | exact H].
Qed.

(** ** Tables that a statement leaves alone *)

Lemma insert_user_otps env e n d dom db db1 :
  Sql.insert_user env e n d dom db = Some db1 ->
  otp_codes db1 = otp_codes db /\ user_sessions db1 = user_sessions db.
Proof.
  unfold Sql.insert_user. destruct (existsb _ _); [discriminate |].
  intros H; inversion H; subst; split; reflexivity.
Qed.

Lemma insert_session_otps env uid tok exp db db2 :
  Sql.insert_session env uid tok exp db = Some db2 ->
  otp_codes db2 = otp_codes db /\ users db2 = users db.
Proof.
  unfold Sql.insert_session. destruct (existsb _ _); [discriminate |].
  intros H; inversion H; subst; split; reflexivity.
Qed.

(** ** The selected OTP row *)

Lemma newest_In rows row : Sql.newest rows = Some row -> In row rows.
Proof.
  revert row. induction rows as [| r rest IH]; intros row; cbn; [discriminate |].
  destruct (Sql.newest rest) as [r' |].
  - destruct (Otp.created_at r' >? Otp.created_at r);
      intros H; inversion H; subst; auto.
  - intros H; inversion H; auto.
Qed.

Lemma newest_None rows : Sql.newest rows = None -> rows = [].
Proof.
  destruct rows as [| r rest]; [reflexivity |]. cbn.
  destruct (Sql.newest rest) as [r' |]; [| discriminate].
  destruct (_ >? _); discriminate.
Qed.

Lemma select_otp_Some email otp_code db row :
  Sql.select_otp email otp_code db = Some row ->
  In row (otp_codes db)
  /\ Otp.email row = email /\ Otp.otp_code row = otp_code
  /\ Otp.is_used row = false.
Proof.
  unfold Sql.select_otp. intros H. apply newest_In in H.
  apply filter_In in H. destruct H as [Hin Hb].
  apply andb_prop in Hb. destruct Hb as [Hb Hu].
  apply andb_prop in Hb. destruct Hb as [He Hc].
  apply String.eqb_eq in He. apply String.eqb_eq in Hc.
  apply negb_true_iff in Hu. auto.
Qed.

Lemma select_otp_unused email otp_code db row :
  Sql.select_otp email otp_code db = Some row ->
  In row (unused_for email db).
Proof.
  intros H. apply select_otp_Some in H. destruct H as (Hin & He & _ & Hu).
  unfold unused_for. apply filter_In. split; [exact Hin |].
  rewrite Hu. apply String.eqb_eq in He. rewrite He. reflexivity.
Qed.

Lemma unique_id_row db r1 r2 :
  unique_otp_ids db ->
  In r1 (otp_codes db) -> In r2 (otp_codes db) ->
  Otp.id r1 = Otp.id r2 -> r1 = r2.
Proof.
  unfold unique_otp_ids. induction (otp_codes db) as [| x l IH]; cbn.
  - intros _ [].
  - intros Hnd [-> | H1] [-> | H2] Hid;
      inversion Hnd as [| ? ? Hfresh Hnd']; subst; auto.
    + exfalso. apply Hfresh. rewrite Hid. apply in_map. exact H2.
    + exfalso. apply Hfresh. rewrite <- Hid. apply in_map. exact H1.
Qed.

End AuthFacts.

(** ** The OTP table across one request *)

Module OtpTable.
Import EnterpriseAuth AuthEffects AuthSpec AuthFacts.

Lemma map_id_deactivate email l :
  map Otp.id (map (Sql.deactivate_row email) l) = map Otp.id l.
Proof.
  rewrite map_map. apply map_ext. intros r. unfold Sql.deactivate_row.
  destruct (_ && _); reflexivity.
Qed.

Lemma effect_shape env rq db r db' :
  effect env rq db r db' ->
  shape env rq r db (otp_codes db')
  /\ (Response.success r = true -> is_generate rq = false ->
      forall email otp_code, rq = VerifyOtp email otp_code ->
      exists row, Sql.select_otp (Py.lower email) otp_code db = Some row
                  /\ otp_codes db' = map (Sql.mark_row (Otp.id row)) (otp_codes db)).
Proof.
  intros H. destruct H.
  - split; [apply unchanged |]. congruence.
  - match goal with
    | H : Sql.insert_user _ _ _ _ _ _ = Some _ |- _ =>
        apply insert_user_otps in H; destruct H as [Ho _]
    end.
    cbn. rewrite Ho. split; [apply unchanged |]. discriminate.
  - split; [| discriminate].
    cbn. rewrite map_id_deactivate. eapply reissued. reflexivity.
  - split; [| discriminate].
    eapply counted; eauto.
  - split; [| discriminate].
    eapply consumed; eauto.
  - split; [| discriminate].
    eapply consumed; eauto.
  - match goal with
    | H : Sql.insert_session _ _ _ _ _ = Some _ |- _ =>
        apply insert_session_otps in H; destruct H as [Ho _]
    end.
    cbn. rewrite Ho. cbn. split.
    + eapply consumed; eauto.
    + intros _ _ e c Heq. inversion Heq; subst. eauto.
  - split; [cbn; apply unchanged |]. discriminate.
  - split; [cbn; apply unchanged |]. discriminate.
  - split; [| discriminate].
    destruct (Sql.select_session session_token db) as [[s u] |];
      cbn; apply unchanged.
Qed.

(** ** Rows only move forward *)

Lemma same_otp_refl r : same_otp r r.
Proof. repeat split. Qed.




End OtpTable.

(** ** Invariants of the OTP table *)

Module OtpInvariants.
Import EnterpriseAuth AuthEffects AuthSpec AuthFacts OtpTable.

Lemma fold_max_ge ids x : In x ids -> x <= fold_right Z.max 0 ids.
Proof.
  induction ids as [| y ids IH]; cbn; [intros [] |].
  intros [-> | H]; [lia | specialize (IH H); lia].
Qed.

Lemma next_id_fresh ids : ~ In (next_id ids) ids.
Proof.
  intros H. apply fold_max_ge in H. unfold next_id in H. lia.
Qed.

Lemma map_id_count email l :
  map Otp.id (map (Sql.count_row email) l) = map Otp.id l.
Proof.
  rewrite map_map. apply map_ext. intros r. unfold Sql.count_row.
  destruct (_ && _); reflexivity.
Qed.

Lemma map_id_mark otp_id l :
  map Otp.id (map (Sql.mark_row otp_id) l) = map Otp.id l.
Proof.
  rewrite map_map. apply map_ext. intros r. unfold Sql.mark_row.
  destruct (_ =? _); reflexivity.
Qed.

Lemma NoDup_snoc {A} (l : list A) (x : A) :
  NoDup l -> ~ In x l -> NoDup (l ++ [x]).
Proof.
  intros Hl Hx. induction Hl as [| y l Hy Hl IH]; cbn.
  - constructor; [intros [] | constructor].
  - constructor.
    + rewrite in_app_iff. intros [H | [H | []]]; [auto |].
      subst. apply Hx. left. reflexivity.
    + apply IH. intros H. apply Hx. right. exact H.
Qed.

Lemma shape_unique_ids env rq r db l' :
  unique_otp_ids db -> shape env rq r db l' -> NoDup (map Otp.id l').
Proof.
  unfold unique_otp_ids. intros Hu H. destruct H.
  - exact Hu.
  - rewrite map_app, map_id_deactivate. cbn.
    apply NoDup_snoc; [exact Hu | apply next_id_fresh].
  - rewrite map_id_count. exact Hu.
  - rewrite map_id_mark. exact Hu.
Qed.

Lemma live_app email l1 l2 :
  live email (l1 ++ l2) = (live email l1 ++ live email l2)%list.
Proof. apply filter_app. Qed.

Lemma live_map_le email (f : Otp.t -> Otp.t) l :
  (forall x, Otp.email (f x) = Otp.email x
             /\ (Otp.is_used x = true -> Otp.is_used (f x) = true)) ->
  (List.length (live email (map f l)) <= List.length (live email l))%nat.
Proof.
  intros Hf. unfold live. induction l as [| x l IH]; cbn; [lia |].
  destruct (Hf x) as [He Hu]. rewrite He.
  destruct (String.eqb (Otp.email x) email); cbn; [| exact IH].
  destruct (Otp.is_used x) eqn:Hx; cbn.
  - rewrite (Hu eq_refl). cbn. exact IH.
  - destruct (Otp.is_used (f x)); cbn; lia.
Qed.

Lemma deactivate_row_forward email x :
  Otp.email (Sql.deactivate_row email x) = Otp.email x
  /\ (Otp.is_used x = true -> Otp.is_used (Sql.deactivate_row email x) = true).
Proof.
  unfold Sql.deactivate_row. destruct (_ && _); cbn; auto.
Qed.

Lemma count_row_forward email x :
  Otp.email (Sql.count_row email x) = Otp.email x
  /\ (Otp.is_used x = true -> Otp.is_used (Sql.count_row email x) = true).
Proof.
  unfold Sql.count_row. destruct (_ && _); cbn; auto.
Qed.

Lemma mark_row_forward otp_id x :
  Otp.email (Sql.mark_row otp_id x) = Otp.email x
  /\ (Otp.is_used x = true -> Otp.is_used (Sql.mark_row otp_id x) = true).
Proof.
  unfold Sql.mark_row. destruct (_ =? _); cbn; auto.
Qed.

Lemma live_deactivate email l :
  live email (map (Sql.deactivate_row email) l) = [].
Proof.
  induction l as [| x l IH]; cbn; [reflexivity |].
  unfold Sql.deactivate_row at 1 2.
  destruct (String.eqb (Otp.email x) email) eqn:He;
    destruct (Otp.is_used x) eqn:Hu; cbn; rewrite ?He, ?Hu; cbn; exact IH.
Qed.

Lemma shape_single_live env rq r db l' email :
  single_live db -> shape env rq r db l' ->
  (List.length (live email l') <= 1)%nat.
Proof.
  intros Hs H. specialize (Hs email) as Hse. unfold unused_for in Hse.
  destruct H.
  - exact Hse.
  - rewrite live_app, length_app. cbn.
    destruct (String.eqb_spec (Py.lower email0) email) as [-> | Hne]; cbn.
    + rewrite live_deactivate. cbn. lia.
    + pose proof (live_map_le email (Sql.deactivate_row (Py.lower email0))
                    (otp_codes db) (deactivate_row_forward _)). lia.
  - pose proof (live_map_le email (Sql.count_row (Py.lower email0))
                  (otp_codes db) (count_row_forward _)). lia.
  - pose proof (live_map_le email (Sql.mark_row (Otp.id row))
                  (otp_codes db) (mark_row_forward _)). lia.
Qed.

Lemma at_most_one {A} (l : list A) a b :
  (List.length l <= 1)%nat -> In a l -> In b l -> a = b.
Proof.
  destruct l as [| x [| y l]]; cbn; intros Hl Ha Hb;
    [contradiction | | lia].
  destruct Ha as [-> | []], Hb as [-> | []]. reflexivity.
Qed.

(** Once the selected row is marked, its address has no unused row. *)
Lemma live_after_mark db email otp_code row :
  single_live db ->
  Sql.select_otp email otp_code db = Some row ->
  live email (map (Sql.mark_row (Otp.id row)) (otp_codes db)) = [].
Proof.
  intros Hs Hsel. apply select_otp_unused in Hsel.
  specialize (Hs email). unfold unused_for in *.
  destruct (live email (map (Sql.mark_row (Otp.id row)) (otp_codes db)))
    as [| y rest] eqn:E; [reflexivity | exfalso].
  assert (Hy : In y (live email (map (Sql.mark_row (Otp.id row))
                                     (otp_codes db))))
    by (rewrite E; left; reflexivity).
  unfold live in Hy. apply filter_In in Hy. destruct Hy as [Hin Hb].
  apply in_map_iff in Hin. destruct Hin as (x & Hx & Hxin). subst y.
  unfold Sql.mark_row in Hb.
  destruct (Z.eqb_spec (Otp.id x) (Otp.id row)) as [Hid | Hid].
  - cbn in Hb. rewrite andb_false_r in Hb. discriminate.
  - assert (x = row).
    { eapply at_most_one; [exact Hs | | exact Hsel].
      unfold live. apply filter_In. auto. }
    subst x. apply Hid. reflexivity.
Qed.



End OtpInvariants.

(** ** Evaluating an endpoint of the backend path by path *)

Module BackendFacts.
Import Backend BackendSpec.

Ltac run_endpoint :=
  cbv beta iota zeta delta
    [perform register_user generate_otp_endpoint verify_otp_endpoint
     validate_session logout send_otp_email reraise_or_500 find_one update
     insert_one try_except bind attempt get_store put_store ret raise
     store faulty calls run step fst snd].

Ltac split_endpoint :=
  lazymatch goal with
  | |- ?G => let s := AuthFacts.head_scrutinee G in destruct s eqn:?
  end; run_endpoint.

Lemma backend_insert_user_otps doc db db' :
  Q.insert_user doc db = Some db' -> otp_codes db' = otp_codes db.
Proof.
  unfold Q.insert_user. destruct (existsb _ _); [discriminate |].
  intros H; inversion H; reflexivity.
Qed.

Lemma backend_insert_session_otps doc db db' :
  Q.insert_session doc db = Some db' -> otp_codes db' = otp_codes db.
Proof.
  unfold Q.insert_session. destruct (existsb _ _); [discriminate |].
  intros H; inversion H; reflexivity.
Qed.

Lemma insert_otp_otps doc db db' :
  Q.insert_otp doc db = Some db' ->
  otp_codes db' = (otp_codes db ++ [doc])%list
  /\ ~ In (OtpDoc._id doc) (map OtpDoc._id (otp_codes db)).
Proof.
  unfold Q.insert_otp.
  destruct (existsb _ _) eqn:E; [discriminate |].
  intros H; inversion H; subst; cbn. split; [reflexivity |].
  intros Hin. apply in_map_iff in Hin. destruct Hin as (r & Hr & Hin).
  assert (existsb (fun r0 => String.eqb (OtpDoc._id r0) (OtpDoc._id doc))
                  (otp_codes db) = true) as E'.
  { apply existsb_exists. exists r. split; [exact Hin |].
    apply String.eqb_eq. exact Hr. }
  congruence.
Qed.

Lemma backend_map_id_deactivate email l :
  map OtpDoc._id (map (Q.deactivate_doc email) l) = map OtpDoc._id l.
Proof.
  rewrite map_map. apply map_ext. intros r. unfold Q.deactivate_doc.
  destruct (_ && _); reflexivity.
Qed.

Ltac use_inserts :=
  repeat match goal with
    | H : Q.insert_user _ _ = Some _ |- _ =>
        apply backend_insert_user_otps in H; cbn in H
    | H : Q.insert_session _ _ = Some _ |- _ =>
        apply backend_insert_session_otps in H; cbn in H
    | H : Q.insert_otp _ _ = Some _ |- _ =>
        apply insert_otp_otps in H; cbn in H;
        rewrite backend_map_id_deactivate in H;
        let H1 := fresh in let H2 := fresh in destruct H as [H1 H2]
    end.

Ltac settle_shape :=
  use_inserts; cbn;
  repeat match goal with H : otp_codes _ = _ |- _ => rewrite H end;
  first
    [ apply unchanged; intros; first [discriminate | eexists; reflexivity]
    | eapply reissued; solve [eauto]
    | eapply revoked; solve [eauto]
    | eapply counted; solve [eauto | eexists; reflexivity]
    | eapply consumed; solve [eauto] ].

(** The OTP collection after any request is one of the listed shapes,
    whatever the fault schedule. *)
Lemma perform_shape env rq db f n :
  match perform env rq (World db f n) with
  | (o, w') => shape env rq o db (otp_codes (store w'))
  end.
Proof.
  destruct rq; run_endpoint; repeat split_endpoint; settle_shape.
Qed.

Lemma backend_step_shape db env f rq :
  shape env rq (fst (step db (env, f, rq))) db
        (otp_codes (snd (step db (env, f, rq)))).
Proof.
  pose proof (perform_shape env rq db f 0) as H.
  unfold step, run. destruct (perform env rq (World db f 0)) as [o w'].
  exact H.
Qed.

(** ** Invariants of the OTP collection *)

Lemma backend_map_id_count email l :
  map OtpDoc._id (map (Q.count_doc email) l) = map OtpDoc._id l.
Proof.
  rewrite map_map. apply map_ext. intros r. unfold Q.count_doc.
  destruct (_ && _); reflexivity.
Qed.

Lemma map_id_update_first p l :
  map OtpDoc._id (update_first p OtpDoc.set_used l) = map OtpDoc._id l.
Proof.
  induction l as [| x l IH]; cbn; [reflexivity |].
  destruct (p x); cbn; [reflexivity | rewrite IH; reflexivity].
Qed.

Lemma backend_shape_unique_ids env rq o db l' :
  unique_otp_ids db -> shape env rq o db l' -> NoDup (map OtpDoc._id l').
Proof.
  unfold unique_otp_ids. intros Hu H. destruct H.
  - exact Hu.
  - rewrite backend_map_id_deactivate. exact Hu.
  - rewrite map_app, backend_map_id_deactivate. cbn.
    apply OtpInvariants.NoDup_snoc; assumption.
  - rewrite backend_map_id_count. exact Hu.
  - rewrite map_id_update_first. exact Hu.
Qed.

Lemma backend_live_app email l1 l2 :
  live email (l1 ++ l2) = (live email l1 ++ live email l2)%list.
Proof. apply filter_app. Qed.

Lemma backend_live_map_le email (g : OtpDoc.t -> OtpDoc.t) l :
  (forall x, OtpDoc.email (g x) = OtpDoc.email x
             /\ (OtpDoc.is_used x = true -> OtpDoc.is_used (g x) = true)) ->
  (List.length (live email (map g l)) <= List.length (live email l))%nat.
Proof.
  intros Hg. unfold live. induction l as [| x l IH]; cbn; [lia |].
  destruct (Hg x) as [He Hu]. rewrite He.
  destruct (String.eqb (OtpDoc.email x) email); cbn; [| exact IH].
  destruct (OtpDoc.is_used x) eqn:Hx; cbn.
  - rewrite (Hu eq_refl). cbn. exact IH.
  - destruct (OtpDoc.is_used (g x)); cbn; lia.
Qed.

Lemma live_update_first_le email p l :
  (List.length (live email (update_first p OtpDoc.set_used l))
   <= List.length (live email l))%nat.
Proof.
  unfold live. induction l as [| x l IH]; cbn; [lia |].
  destruct (p x); cbn.
  - rewrite andb_false_r.
    destruct (String.eqb (OtpDoc.email x) email && negb (OtpDoc.is_used x));
      cbn; lia.
  - destruct (String.eqb (OtpDoc.email x) email && negb (OtpDoc.is_used x));
      cbn; lia.
Qed.

Lemma deactivate_doc_forward email x :
  OtpDoc.email (Q.deactivate_doc email x) = OtpDoc.email x
  /\ (OtpDoc.is_used x = true ->
      OtpDoc.is_used (Q.deactivate_doc email x) = true).
Proof. unfold Q.deactivate_doc. destruct (_ && _); cbn; auto. Qed.

Lemma count_doc_forward email x :
  OtpDoc.email (Q.count_doc email x) = OtpDoc.email x
  /\ (OtpDoc.is_used x = true -> OtpDoc.is_used (Q.count_doc email x) = true).
Proof. unfold Q.count_doc. destruct (_ && _); cbn; auto. Qed.

Lemma backend_live_deactivate email l :
  live email (map (Q.deactivate_doc email) l) = [].
Proof.
  induction l as [| x l IH]; cbn; [reflexivity |].
  unfold Q.deactivate_doc at 1 2.
  destruct (String.eqb (OtpDoc.email x) email) eqn:He;
    destruct (OtpDoc.is_used x) eqn:Hu; cbn; rewrite ?He, ?Hu; cbn; exact IH.
Qed.

Lemma backend_shape_single_live env rq o db l' email :
  single_live db -> shape env rq o db l' ->
  (List.length (live email l') <= 1)%nat.
Proof.
  intros Hs H. specialize (Hs email) as Hse. destruct H.
  - exact Hse.
  - pose proof (backend_live_map_le email (Q.deactivate_doc (Py.lower email0))
                  (otp_codes db) (deactivate_doc_forward _)). lia.
  - rewrite backend_live_app, length_app. cbn.
    destruct (String.eqb_spec (Py.lower email0) email) as [-> | Hne]; cbn.
    + rewrite backend_live_deactivate. cbn. lia.
    + pose proof (backend_live_map_le email (Q.deactivate_doc (Py.lower email0))
                    (otp_codes db) (deactivate_doc_forward _)). lia.
  - pose proof (backend_live_map_le email (Q.count_doc (Py.lower email0))
                  (otp_codes db) (count_doc_forward _)). lia.
  - pose proof (live_update_first_le email
                  (fun r => String.eqb (OtpDoc._id r) (OtpDoc._id row))
                  (otp_codes db)). lia.
Qed.

(** ** Documents only move forward *)

Lemma valid_otp_Some email otp_code utcnow db row :
  Q.valid_otp email otp_code utcnow db = Some row ->
  In row (otp_codes db)
  /\ OtpDoc.email row = email /\ OtpDoc.otp_code row = otp_code
  /\ OtpDoc.is_used row = false.
Proof.
  unfold Q.valid_otp. intros H. apply find_some in H.
  destruct H as [Hin Hb].
  apply andb_prop in Hb. destruct Hb as [Hb _].
  apply andb_prop in Hb. destruct Hb as [Hb Hu].
  apply andb_prop in Hb. destruct Hb as [He Hc].
  apply String.eqb_eq in He. apply String.eqb_eq in Hc.
  apply negb_true_iff in Hu. auto.
Qed.






End BackendFacts.

(** ** Histories: what holds in every reachable store *)

Module Reachable.
Import EnterpriseAuth AuthEffects AuthSpec AuthFacts OtpTable OtpInvariants
       History.

Lemma step_shape db env f rq :
  exists r,
    fst (step db (env, f, rq)) = Returned r
    /\ shape env rq r db (otp_codes (snd (step db (env, f, rq))))
    /\ (Response.success r = true ->
        forall email otp_code, rq = VerifyOtp email otp_code ->
        exists row,
          Sql.select_otp (Py.lower email) otp_code db = Some row
          /\ otp_codes (snd (step db (env, f, rq)))
             = map (Sql.mark_row (Otp.id row)) (otp_codes db)).
Proof.
  destruct (step_effect db env f rq) as (r & Hstep & Heff).
  exists r. split; [rewrite Hstep; reflexivity |].
  apply effect_shape in Heff. destruct Heff as [Hshape Hlogin].
  split; [exact Hshape |].
  intros Hs email otp_code Hrq. apply Hlogin; auto. subst rq. reflexivity.
Qed.

Lemma step_single_live db ev : single_live db -> single_live (snd (step db ev)).
Proof.
  destruct ev as [[env f] rq]. intros Hs email.
  destruct (step_shape db env f rq) as (r & _ & Hshape & _).
  unfold unused_for. eapply shape_single_live; eauto.
Qed.

Lemma step_unique_ids db ev :
  unique_otp_ids db -> unique_otp_ids (snd (step db ev)).
Proof.
  destruct ev as [[env f] rq]. intros Hu.
  destruct (step_shape db env f rq) as (r & _ & Hshape & _).
  unfold unique_otp_ids. eapply shape_unique_ids; eauto.
Qed.

Lemma execute_all_single_live evs :
  forall db, single_live db -> single_live (execute_all db evs).
Proof.
  induction evs as [| ev evs IH]; cbn; intros db H; [exact H |].
  apply IH. apply step_single_live. exact H.
Qed.

Lemma execute_all_unique_ids evs :
  forall db, unique_otp_ids db -> unique_otp_ids (execute_all db evs).
Proof.
  induction evs as [| ev evs IH]; cbn; intros db H; [exact H |].
  apply IH. apply step_unique_ids. exact H.
Qed.

Lemma initial_no_otps env0 : otp_codes (initial_database env0) = [].
Proof. reflexivity. Qed.

Lemma initial_single_live env0 : single_live (initial_database env0).
Proof. intros email. unfold unused_for. rewrite initial_no_otps. cbn. lia. Qed.

Lemma initial_unique_ids env0 : unique_otp_ids (initial_database env0).
Proof. unfold unique_otp_ids. rewrite initial_no_otps. constructor. Qed.





End Reachable.

Module BackendReachable.
Import Backend BackendSpec BackendFacts.

Lemma backend_step_single_live db ev : single_live db -> single_live (snd (step db ev)).
Proof.
  destruct ev as [[env f] rq]. intros Hs email.
  eapply backend_shape_single_live; [exact Hs | apply backend_step_shape].
Qed.

Lemma backend_step_unique_ids db ev :
  unique_otp_ids db -> unique_otp_ids (snd (step db ev)).
Proof.
  destruct ev as [[env f] rq]. intros Hu.
  unfold unique_otp_ids. eapply backend_shape_unique_ids; [exact Hu | apply backend_step_shape].
Qed.

Lemma backend_execute_all_single_live evs :
  forall db, single_live db -> single_live (execute_all db evs).
Proof.
  induction evs as [| ev evs IH]; cbn; intros db H; [exact H |].
  apply IH. apply backend_step_single_live. exact H.
Qed.

Lemma backend_execute_all_unique_ids evs :
  forall db, unique_otp_ids db -> unique_otp_ids (execute_all db evs).
Proof.
  induction evs as [| ev evs IH]; cbn; intros db H; [exact H |].
  apply IH. apply backend_step_unique_ids. exact H.
Qed.

Lemma empty_single_live : single_live empty_mongo.
Proof. intros email. cbn. lia. Qed.

Lemma empty_unique_ids : unique_otp_ids empty_mongo.
Proof. constructor. Qed.

End BackendReachable.

(* ===================================================================== *)
(** * The OTP life cycle (claims C1 and C9) *)
(* ===================================================================== *)

Module OtpLifecycle.
Import AuthSpec History.




(** C9: for every e-mail address at most one OTP record with
    [is_used = 0] exists at any time, in [EnterpriseAuth] (from the store
    the constructor leaves) and in the backend (from the empty
    collections).  [generate_otp] either commits nothing or marks the
    unused OTPs of the address used and then appends the new record; every
    other request leaves the list of record ids as it is. *)
Theorem single_live_otp_invariant :
  forall (env0 : environment) (evs : list EnterpriseAuth.event)
         (bevs : list Backend.event)
         (db : database) (env : environment) (f : nat -> bool)
         (rq : EnterpriseAuth.request)
         (mdb : Backend.mongo) (brq : Backend.request),
    single_live
      (EnterpriseAuth.execute_all (EnterpriseAuth.initial_database env0) evs)
    /\ BackendSpec.single_live
         (Backend.execute_all Backend.empty_mongo bevs)
    /\ (let after := otp_codes (snd (EnterpriseAuth.step db (env, f, rq))) in
        match rq with
        | EnterpriseAuth.GenerateOtp email =>
            after = otp_codes db
            \/ after =
               (map (Sql.deactivate_row (Py.lower email)) (otp_codes db)
                ++ [Otp.mk (next_id (map Otp.id (otp_codes db)))
                           (Py.lower email)
                           (Py.format_06d (randbelow env + 100000))
                           (current_timestamp env)
                           (now env
                            + minutes EnterpriseAuth.OTP_EXPIRY_MINUTES)
                           false 0])%list
        | _ => map Otp.id after = map Otp.id (otp_codes db)
        end)
    /\ (let after :=
          Backend.otp_codes (snd (Backend.step mdb (env, f, brq))) in
        match brq with
        | Backend.GenerateOtp email =>
            let revoked :=
              map (Backend.Q.deactivate_doc (Py.lower email))
                  (Backend.otp_codes mdb) in
            after = Backend.otp_codes mdb
            \/ after = revoked
            \/ after =
               (revoked
                ++ [Backend.OtpDoc.mk (uuid4 env) (Py.lower email)
                      (Backend.generate_otp env) (now env)
                      (now env + minutes Backend.OTP_EXPIRY_MINUTES)
                      false 0])%list
        | _ => map Backend.OtpDoc._id after
               = map Backend.OtpDoc._id (Backend.otp_codes mdb)
        end).
Proof.
  intros env0 evs bevs db env f rq mdb brq.
  split; [| split; [| split]].
  - apply Reachable.execute_all_single_live, Reachable.initial_single_live.
  - apply BackendReachable.backend_execute_all_single_live,
      BackendReachable.empty_single_live.
  - destruct (Reachable.step_shape db env f rq) as (r & _ & Hshape & _).
    cbv zeta. destruct Hshape; subst;
      rewrite ?OtpTable.map_id_deactivate, ?OtpInvariants.map_id_count,
        ?OtpInvariants.map_id_mark;
      try (destruct rq; auto; fail); auto.
  - pose proof (BackendFacts.backend_step_shape mdb env f brq) as Hshape.
    cbv zeta. destruct Hshape; subst;
      rewrite ?BackendFacts.backend_map_id_deactivate, ?BackendFacts.backend_map_id_count,
        ?BackendFacts.map_id_update_first;
      try (destruct brq; auto; fail); auto.
Qed.

End OtpLifecycle.

(* ===================================================================== *)
(** * Domain restriction (claim C2) *)
(* ===================================================================== *)

Module DomainRestriction.
Import EnterpriseAuth DomainSpec.

Lemma split_no_separator s :
  Py.contains "@" s = false -> Py.split "@" s = [s].
Proof.
  induction s as [| c s IH]; cbn; [reflexivity |].
  destruct (Ascii.eqb c "@"); [discriminate |].
  intros H. rewrite (IH H). reflexivity.
Qed.

Lemma split_at_first local rest :
  Py.contains "@" local = false ->
  Py.split "@" (local ++ String "@" rest) = local :: Py.split "@" rest.
Proof.
  induction local as [| c local IH]; cbn; [reflexivity |].
  destruct (Ascii.eqb c "@"); [discriminate |].
  intros H. rewrite (IH H). reflexivity.
Qed.

(** For an address with a single ['@'], the domain part is all the text
    after it, lowercased. *)
Lemma domain_part_single_at local domain :
  Py.contains "@" local = false ->
  Py.contains "@" domain = false ->
  domain_part (local ++ String "@" domain) = Py.lower domain.
Proof.
  intros Hl Hd. unfold domain_part.
  rewrite split_at_first, split_no_separator by assumption. reflexivity.
Qed.

Lemma contains_nonempty s : Py.contains "@" s = true -> String.eqb s "" = false.
Proof. destruct s; [discriminate | reflexivity]. Qed.

Lemma count_at_none s : count_at s = 0%nat -> Py.contains "@" s = false.
Proof.
  induction s as [| c s IH]; cbn; [reflexivity |].
  destruct (Ascii.eqb c "@"); [discriminate | exact IH].
Qed.

Lemma count_at_app s t : count_at (s ++ t) = (count_at s + count_at t)%nat.
Proof.
  induction s as [| c s IH]; cbn; [reflexivity |]. rewrite IH. lia.
Qed.

(** A string with one ['@'] is a local part, the ['@'], and the text
    after it, neither holding a further ['@']. *)
Lemma single_at_shape s :
  count_at s = 1%nat ->
  exists local,
    s = local ++ String "@" (text_after_at s)
    /\ Py.contains "@" local = false
    /\ Py.contains "@" (text_after_at s) = false.
Proof.
  induction s as [| c s IH]; cbn; [discriminate |].
  destruct (Ascii.eqb_spec c "@") as [-> | Hc]; cbn.
  - intros H. exists "". split; [reflexivity |].
    split; [reflexivity |]. apply count_at_none. lia.
  - intros H. destruct (IH H) as (local & Hs & Hl & Hd).
    exists (String c local). split; [cbn; rewrite <- Hs; reflexivity |].
    split; [| exact Hd]. cbn.
    destruct (Ascii.eqb_spec c "@"); [contradiction | exact Hl].
Qed.

Lemma text_after_at_app local rest :
  Py.contains "@" local = false ->
  text_after_at (local ++ String "@" rest) = rest.
Proof.
  induction local as [| c local IH]; cbn; [reflexivity |].
  destruct (Ascii.eqb c "@"); [discriminate | exact IH].
Qed.

(** [s.endswith(suffix)] says that [s] ends in [suffix]. *)
Lemma substring_all s : substring 0 (String.length s) s = s.
Proof. induction s as [| c s IH]; cbn; [reflexivity | rewrite IH; reflexivity]. Qed.

Lemma substring_tail s k :
  (k <= String.length s)%nat ->
  exists pre, s = pre ++ substring (String.length s - k) k s.
Proof.
  induction s as [| c s IH]; intros Hk.
  - exists "". destruct k; reflexivity.
  - cbn [String.length] in *.
    destruct (Nat.eq_dec k (S (String.length s))) as [-> | Hne].
    + exists "". rewrite Nat.sub_diag.
      change (S (String.length s)) with (String.length (String c s)).
      rewrite substring_all. reflexivity.
    + assert (Hk' : (k <= String.length s)%nat) by lia.
      destruct (IH Hk') as (pre & Hpre).
      exists (String c pre).
      replace (S (String.length s) - k)%nat
        with (S (String.length s - k)) by lia.
      cbn. rewrite <- Hpre. reflexivity.
Qed.

Lemma endswith_app s suffix :
  Py.endswith s suffix = true -> exists pre, s = pre ++ suffix.
Proof.
  unfold Py.endswith. intros H. apply andb_prop in H. destruct H as [Hk He].
  apply Nat.leb_le in Hk. apply String.eqb_eq in He.
  destruct (substring_tail s _ Hk) as (pre & Hpre).
  exists pre. rewrite He in Hpre. exact Hpre.
Qed.

Lemma validate_rejects email :
  Py.contains "@" email = true ->
  Py.mem (domain_part email) ALLOWED_DOMAINS = false ->
  validate_email_domain email = (false, access_restricted).
Proof.
  intros Hat Hdom. unfold validate_email_domain.
  rewrite (contains_nonempty _ Hat), Hat. cbn [orb negb].
  fold (domain_part email). rewrite Hdom. reflexivity.
Qed.

(** What the check of [validate_email_domain] decides on is the second
    ['@']-separated field: when that field, lowercased, is not an allowed
    domain, [register_user] and [generate_otp] return [success = False]
    with the access-restriction message and leave the store as it was,
    under every fault schedule. *)
Lemma second_field_decides :
  forall (env : environment) (f : nat -> bool) (db : database)
         (email full_name department : string),
    Py.contains "@" email = true ->
    Py.mem (domain_part email) ALLOWED_DOMAINS = false ->
    step db (env, f, RegisterUser email full_name department)
    = (Returned (Response.failure access_restricted), db)
    /\ step db (env, f, GenerateOtp email)
       = (Returned (Response.failure access_restricted), db).
Proof.
  intros env f db email full_name department Hat Hdom.
  pose proof (validate_rejects email Hat Hdom) as Hv.
  split; AuthFacts.run_method; rewrite Hv; reflexivity.
Qed.

(** A string without ['@'] has no domain part: both methods answer
    "Invalid email format" and store nothing. *)
Lemma malformed_address_is_rejected env f db email full_name department :
  Py.contains "@" email = false ->
  step db (env, f, RegisterUser email full_name department)
  = (Returned (Response.failure "Invalid email format"), db)
  /\ step db (env, f, GenerateOtp email)
     = (Returned (Response.failure "Invalid email format"), db).
Proof.
  intros Hat.
  assert (Hv : validate_email_domain email = (false, "Invalid email format")).
  { unfold validate_email_domain. rewrite Hat.
    rewrite orb_true_r. reflexivity. }
  split; AuthFacts.run_method; rewrite Hv; reflexivity.
Qed.

(** The endpoints of the backend refuse an address that does not end in
    ["@hssmedicine.com"] with status 400 and store nothing. *)
Lemma backend_rejects_foreign_domain env f db email full_name department :
  Py.endswith email "@hssmedicine.com" = false ->
  Backend.step db (env, f, Backend.Register email full_name department)
  = (Raised (HTTPException 400
               "Access restricted to hssmedicine.com employees only"), db)
  /\ Backend.step db (env, f, Backend.GenerateOtp email)
     = (Raised (HTTPException 400
                  "Access restricted to hssmedicine.com employees only"), db).
Proof.
  intros Hend. split; BackendFacts.run_endpoint;
    change ("@" ++ Backend.COMPANY_DOMAIN) with "@hssmedicine.com";
    rewrite Hend; reflexivity.
Qed.

(** The claim holds for every address with exactly one ['@']: when the
    text after the ['@'], lowercased, is not one of the allowed company
    domains, [register_user] and [generate_otp] of [EnterpriseAuth] return
    [success = False] with the access-restriction message, the two
    endpoints of the backend (whose only domain is "hssmedicine.com")
    answer 400, and neither stores anything, under every fault
    schedule. *)
Lemma single_at_foreign_domain_is_rejected :
  forall (env : environment) (f : nat -> bool) (email full_name department
                                                : string),
    count_at email = 1%nat ->
    (forall db : database,
        Py.mem (Py.lower (text_after_at email)) ALLOWED_DOMAINS = false ->
        step db (env, f, RegisterUser email full_name department)
        = (Returned (Response.failure access_restricted), db)
        /\ step db (env, f, GenerateOtp email)
           = (Returned (Response.failure access_restricted), db))
    /\ (forall db : Backend.mongo,
           Py.lower (text_after_at email) <> Backend.COMPANY_DOMAIN ->
           Backend.step db
             (env, f, Backend.Register email full_name department)
           = (Raised HttpSpec.restricted, db)
           /\ Backend.step db (env, f, Backend.GenerateOtp email)
              = (Raised HttpSpec.restricted, db)).
Proof.
  intros env f email full_name department Hone.
  destruct (single_at_shape email Hone) as (local & Hshape & Hl & Hd).
  split.
  - intros db Hforeign. apply second_field_decides.
    + rewrite Hshape. clear - Hl. induction local as [| c local IH]; cbn.
      * reflexivity.
      * cbn in Hl. destruct (Ascii.eqb c "@"); [reflexivity | auto].
    + rewrite Hshape, (domain_part_single_at local _ Hl Hd). exact Hforeign.
  - intros db Hforeign. apply backend_rejects_foreign_domain.
    destruct (Py.endswith email "@hssmedicine.com") eqn:Hend;
      [exfalso | reflexivity].
    apply endswith_app in Hend. destruct Hend as (pre & Hpre).
    assert (Hpre0 : Py.contains "@" pre = false).
    { apply count_at_none. rewrite Hpre, count_at_app in Hone.
      cbn in Hone. lia. }
    apply Hforeign. rewrite Hpre.
    change (pre ++ "@hssmedicine.com")
      with (pre ++ String "@" "hssmedicine.com").
    rewrite (text_after_at_app pre _ Hpre0). reflexivity.
Qed.

(** C2 at the failing input.  The text after the ['@'] of
    ["mallory@hhamedicine.com@evil.org"] is no allowed company domain,
    whether it is read from the first ['@'] or from the last one; yet
    [validate_email_domain] accepts the address, because it looks at
    [email.split('@')[1]] alone: on the database that the constructor
    leaves, [register_user] stores a user with that address and
    [generate_otp] stores a code for it, both with [success = True]. *)
Theorem second_at_sign_passes_the_domain_check :
  Py.mem (Py.lower (text_after_at mallory)) ALLOWED_DOMAINS = false
  /\ Py.mem (Py.lower (text_after_last_at mallory)) ALLOWED_DOMAINS = false
  /\ validate_email_domain mallory = (true, "hhamedicine.com")
  /\ AuthSpec.succeeded
       (fst (step Demo.fresh
                  (Demo.morning, reliable,
                   RegisterUser mallory "Mallory" "Finance"))) = true
  /\ map User.email
         (users (snd (step Demo.fresh
                           (Demo.morning, reliable,
                            RegisterUser mallory "Mallory" "Finance"))))
     = [mallory]
  /\ AuthSpec.succeeded
       (fst (step Demo.fresh (Demo.morning, reliable, GenerateOtp mallory)))
     = true
  /\ map Otp.email
         (otp_codes (snd (step Demo.fresh
                               (Demo.morning, reliable,
                                GenerateOtp mallory))))
     = [mallory].
Proof. vm_compute. repeat split. Qed.

End DomainRestriction.

(* ===================================================================== *)
(** * Internal errors (claim C3) *)
(* ===================================================================== *)

Module InternalErrors.
Import EnterpriseAuth AuthFacts FaultSpec.

Lemma perform_is_guarded env rq :
  perform env rq
  = try_except (body env rq)
      (fun _ => ret (Response.failure (error_message rq))).
Proof. destruct rq; reflexivity. Qed.



(** A body that raises has committed nothing. *)
Lemma body_raise_store env rq db f n :
  match body env rq (World db f n) with
  | (Raised _, w1) => store w1 = db
  | (Returned _, _) => True
  end.
Proof.
  destruct rq; run_method; repeat split_path; exact I || reflexivity.
Qed.





Lemma init_database_body_raises env db f n :
  f n = true ->
  init_database_body env (World db f n)
  = (Raised DatabaseError, World db f (S n)).
Proof. intros H. run_method. rewrite H. reflexivity. Qed.




End InternalErrors.

(* ===================================================================== *)
(** * Verification: the attempt limit (claim C8) *)
(* ===================================================================== *)

Module Verification.
Import EnterpriseAuth AuthEffects AuthSpec AuthFacts History.

(** What [verify_otp] can commit once a row was selected and the login
    branch is excluded. *)
Lemma verify_without_login env f db email otp_code row :
  Sql.select_otp (Py.lower email) otp_code db = Some row ->
  (now env > Otp.expires_at row \/ Otp.attempts row >= 3) ->
  exists r,
    step db (env, f, VerifyOtp email otp_code)
    = (Returned r, snd (step db (env, f, VerifyOtp email otp_code)))
    /\ Response.success r = false
    /\ (snd (step db (env, f, VerifyOtp email otp_code)) = db
        \/ snd (step db (env, f, VerifyOtp email otp_code))
           = Sql.mark_otp_used (Otp.id row) db).
Proof.
  intros Hsel Hwhy.
  destruct (step_effect db env f (VerifyOtp email otp_code))
    as (r & Hstep & Heff).
  exists r. split; [exact Hstep |].
  remember (snd (step db (env, f, VerifyOtp email otp_code))) as db'.
  clear Heqdb' Hstep.
  inversion Heff; subst; try (split; [assumption || reflexivity | auto]).
  - congruence.
  - assert (row0 = row) by congruence. subst. auto.
  - assert (row0 = row) by congruence. subst. auto.
  - assert (row0 = row) by congruence. subst. lia.
Qed.

Lemma reliable_expired env db email otp_code row :
  Sql.select_otp (Py.lower email) otp_code db = Some row ->
  now env > Otp.expires_at row ->
  step db (env, reliable, VerifyOtp email otp_code)
  = (Returned (Response.failure "OTP has expired. Please request a new one."),
     Sql.mark_otp_used (Otp.id row) db).
Proof.
  intros Hsel Hexp. run_method. unfold reliable. rewrite Hsel.
  apply Z.gt_lt, Z.gtb_lt in Hexp. rewrite Hexp. reflexivity.
Qed.

Lemma reliable_locked env db email otp_code row :
  Sql.select_otp (Py.lower email) otp_code db = Some row ->
  now env <= Otp.expires_at row ->
  Otp.attempts row >= 3 ->
  step db (env, reliable, VerifyOtp email otp_code)
  = (Returned (Response.failure
                 "Too many failed attempts. Please request a new OTP."),
     Sql.mark_otp_used (Otp.id row) db).
Proof.
  intros Hsel Hexp Hatt. run_method. unfold reliable. rewrite Hsel.
  assert (Hgt : (now env >? Otp.expires_at row) = false)
    by (rewrite Z.gtb_ltb; apply Z.ltb_ge; lia).
  assert (Hge : (Otp.attempts row >=? 3) = true)
    by (apply Z.geb_le; lia).
  rewrite Hgt, Hge. reflexivity.
Qed.

Lemma reliable_wrong_code env db email otp_code :
  Sql.select_otp (Py.lower email) otp_code db = None ->
  step db (env, reliable, VerifyOtp email otp_code)
  = (Returned (Response.failure
                 "Invalid OTP code. Please check and try again."),
     Sql.increment_attempts (Py.lower email) db).
Proof. intros Hsel. run_method. unfold reliable. rewrite Hsel. reflexivity. Qed.

(** ** A consumed row stays consumed *)

Lemma consumed_map otp_id (g : Otp.t -> Otp.t) l :
  (forall x, Otp.id (g x) = Otp.id x
             /\ (Otp.is_used x = true -> Otp.is_used (g x) = true)) ->
  consumed_id otp_id l -> consumed_id otp_id (map g l).
Proof.
  intros Hg [Hin Hused]. split.
  - rewrite map_map. apply in_map_iff in Hin.
    destruct Hin as (x & Hx & Hxin). apply in_map_iff.
    exists x. split; [| exact Hxin]. destruct (Hg x) as [-> _]. exact Hx.
  - intros r Hr Hid. apply in_map_iff in Hr.
    destruct Hr as (x & <- & Hxin). destruct (Hg x) as [Hgid Hgu].
    apply Hgu. apply Hused; [exact Hxin | congruence].
Qed.

Lemma shape_keeps_consumed env rq r db l' otp_id :
  consumed_id otp_id (otp_codes db) ->
  shape env rq r db l' -> consumed_id otp_id l'.
Proof.
  intros Hc H. destruct H.
  - exact Hc.
  - assert (Hc' : consumed_id otp_id
                    (map (Sql.deactivate_row (Py.lower email)) (otp_codes db))).
    { apply consumed_map; [| exact Hc]. intros x.
      unfold Sql.deactivate_row. destruct (_ && _); cbn; auto. }
    destruct Hc' as [Hin Hused]. split.
    + rewrite map_app. apply in_or_app. left. exact Hin.
    + intros x Hx Hid. apply in_app_or in Hx. destruct Hx as [Hx | [<- | []]].
      * apply Hused; assumption.
      * exfalso. cbn in Hid. destruct Hc as [Hin0 _].
        rewrite <- Hid in Hin0.
        exact (OtpInvariants.next_id_fresh _ Hin0).
  - apply consumed_map; [| exact Hc]. intros x.
    unfold Sql.count_row. destruct (_ && _); cbn; auto.
  - apply consumed_map; [| exact Hc]. intros x.
    unfold Sql.mark_row. destruct (_ =? _); cbn; auto.
Qed.

Lemma history_keeps_consumed otp_id evs :
  forall db,
    consumed_id otp_id (otp_codes db) ->
    consumed_id otp_id (otp_codes (execute_all db evs)).
Proof.
  induction evs as [| ev evs IH]; cbn; intros db Hc; [exact Hc |].
  apply IH. destruct ev as [[env f] rq].
  destruct (Reachable.step_shape db env f rq) as (r & _ & Hshape & _).
  eapply shape_keeps_consumed; eauto.
Qed.

Lemma mark_consumes db row :
  In row (otp_codes db) ->
  consumed_id (Otp.id row) (otp_codes (Sql.mark_otp_used (Otp.id row) db)).
Proof.
  intros Hin. cbn. split.
  - rewrite OtpInvariants.map_id_mark. apply in_map. exact Hin.
  - intros r Hr Hid. apply in_map_iff in Hr. destruct Hr as (x & <- & Hx).
    unfold Sql.mark_row in *.
    destruct (Z.eqb_spec (Otp.id x) (Otp.id row)); cbn in *;
      [reflexivity | contradiction].
Qed.




End Verification.

(* ===================================================================== *)
(** * Session validation of [EnterpriseAuth], path by path *)
(* ===================================================================== *)

Module SessionValidation.
Import EnterpriseAuth AuthEffects AuthSpec AuthFacts SessionSpec.

Lemma unique_key {A K : Type} (key : A -> K) (l : list A) (a b : A) :
  NoDup (map key l) -> In a l -> In b l -> key a = key b -> a = b.
Proof.
  induction l as [| x l IH]; cbn; [intros _ [] |].
  intros Hnd [-> | Ha] [-> | Hb] Hk;
    inversion Hnd as [| ? ? Hfresh Hnd']; subst; auto.
  - exfalso. apply Hfresh. rewrite Hk. apply in_map. exact Hb.
  - exfalso. apply Hfresh. rewrite <- Hk. apply in_map. exact Ha.
Qed.

(** With a unique key, a filter that selects by the key of a present
    element returns exactly that element. *)
Lemma filter_unique_key {A K : Type} (key : A -> K) (p : A -> bool)
      (l : list A) (x : A) :
  NoDup (map key l) -> In x l -> p x = true ->
  (forall y, In y l -> p y = true -> key y = key x) ->
  filter p l = [x].
Proof.
  induction l as [| y l IH]; cbn; [intros _ [] |].
  intros Hnd Hin Hpx Hkey.
  inversion Hnd as [| ? ? Hfresh Hnd']; subst.
  destruct Hin as [-> | Hin].
  - rewrite Hpx. f_equal.
    destruct (filter p l) as [| z rest] eqn:E; [reflexivity | exfalso].
    assert (Hz : In z (filter p l)) by (rewrite E; left; reflexivity).
    apply filter_In in Hz. destruct Hz as [Hzin Hpz].
    apply Hfresh. rewrite <- (Hkey z (or_intror Hzin) Hpz).
    apply in_map. exact Hzin.
  - destruct (p y) eqn:Hpy.
    + exfalso. apply Hfresh.
      rewrite (Hkey y (or_introl eq_refl) Hpy). apply in_map. exact Hin.
    + apply IH; auto.
Qed.

Lemma select_session_matches session_token db s u :
  Sql.select_session session_token db = Some (s, u) ->
  matches session_token db s u.
Proof.
  unfold Sql.select_session, matches. intros H.
  assert (Hin : In (s, u)
                   (flat_map
                      (fun s0 =>
                         map (pair s0)
                             (filter (fun u0 => User.id u0 =? Session.user_id s0)
                                     (users db)))
                      (filter (fun s0 =>
                                 String.eqb (Session.session_token s0)
                                            session_token
                                 && Session.is_active s0)
                              (user_sessions db)))).
  { destruct (flat_map _ _) as [| p rest]; [discriminate |].
    inversion H; subst. left. reflexivity. }
  apply in_flat_map in Hin. destruct Hin as (s0 & Hs0 & Hpair).
  apply in_map_iff in Hpair. destruct Hpair as (u0 & Heq & Hu0).
  inversion Heq; subst s0 u0.
  apply filter_In in Hs0. destruct Hs0 as [Hsin Hsb].
  apply andb_prop in Hsb. destruct Hsb as [Htok Hact].
  apply String.eqb_eq in Htok.
  apply filter_In in Hu0. destruct Hu0 as [Huin Hub].
  apply Z.eqb_eq in Hub. auto.
Qed.

Lemma matches_select_session session_token db s u :
  unique_session_tokens db -> unique_user_ids db ->
  matches session_token db s u ->
  Sql.select_session session_token db = Some (s, u).
Proof.
  intros Htok Hid (Hsin & Hst & Hact & Huin & Hjoin).
  unfold Sql.select_session.
  rewrite (filter_unique_key Session.session_token _ (user_sessions db) s);
    auto.
  - cbn. rewrite (filter_unique_key User.id _ (users db) u); auto.
    + apply Z.eqb_eq. exact Hjoin.
    + intros y _ Hy. apply Z.eqb_eq in Hy. congruence.
  - rewrite Hst, String.eqb_refl, Hact. reflexivity.
  - intros y _ Hy. apply andb_prop in Hy. destruct Hy as [Hy _].
    apply String.eqb_eq in Hy. congruence.
Qed.

Lemma reliable_valid env db session_token s u :
  Sql.select_session session_token db = Some (s, u) ->
  now env <= Session.expires_at s ->
  step db (env, reliable, ValidateSession session_token)
  = (Returned (accepted s u), Sql.touch_session env session_token db).
Proof.
  intros Hsel Hexp. run_method. unfold reliable. rewrite Hsel.
  assert (Hgt : (now env >? Session.expires_at s) = false)
    by (rewrite Z.gtb_ltb; apply Z.ltb_ge; lia).
  rewrite Hgt. reflexivity.
Qed.

Lemma reliable_session_expired env db session_token s u :
  Sql.select_session session_token db = Some (s, u) ->
  now env > Session.expires_at s ->
  step db (env, reliable, ValidateSession session_token)
  = (Returned (Response.failure "Session expired. Please login again."),
     Sql.deactivate_session session_token db).
Proof.
  intros Hsel Hexp. run_method. unfold reliable. rewrite Hsel.
  apply Z.gt_lt, Z.gtb_lt in Hexp. rewrite Hexp. reflexivity.
Qed.

Lemma reliable_no_session env db session_token :
  Sql.select_session session_token db = None ->
  step db (env, reliable, ValidateSession session_token)
  = (Returned (Response.failure "Invalid session. Please login again."), db).
Proof. intros Hsel. run_method. unfold reliable. rewrite Hsel. reflexivity. Qed.

Lemma validation_success env f db session_token :
  succeeded (fst (step db (env, f, ValidateSession session_token))) = true ->
  exists s u,
    Sql.select_session session_token db = Some (s, u)
    /\ now env <= Session.expires_at s
    /\ step db (env, f, ValidateSession session_token)
       = (Returned (accepted s u), Sql.touch_session env session_token db).
Proof.
  destruct (step_effect db env f (ValidateSession session_token))
    as (r & Hstep & Heff).
  rewrite Hstep. cbn [fst succeeded]. intros Hs.
  remember (snd (step db (env, f, ValidateSession session_token))) as db'.
  clear Heqdb'. inversion Heff; subst; try (cbn in Hs; congruence).
  exists s, u. auto.
Qed.

End SessionValidation.

(* ===================================================================== *)
(** * The format of OTP codes (claim C10) *)
(* ===================================================================== *)

Module OtpFormat.
Import AuthSpec OtpFormatSpec.

Lemma digit_cases d :
  0 <= d <= 9 ->
  d = 0 \/ d = 1 \/ d = 2 \/ d = 3 \/ d = 4 \/ d = 5 \/ d = 6 \/ d = 7
  \/ d = 8 \/ d = 9.
Proof. lia. Qed.

Lemma digit_char_is_digit d :
  0 <= d <= 9 -> Py.is_digit (Py.digit_char d) = true.
Proof.
  intros H. destruct (digit_cases d H) as [-> | [-> | [-> | [-> | [-> |
    [-> | [-> | [-> | [-> | ->]]]]]]]]]; reflexivity.
Qed.

Lemma digit_char_value d :
  0 <= d <= 9 -> Z.of_N (N_of_ascii (Py.digit_char d)) - 48 = d.
Proof.
  intros H. destruct (digit_cases d H) as [-> | [-> | [-> | [-> | [-> |
    [-> | [-> | [-> | [-> | ->]]]]]]]]]; reflexivity.
Qed.

Lemma digit_char_nonzero d :
  1 <= d <= 9 -> Py.digit_char d <> "0"%char.
Proof.
  intros H. assert (H' : 0 <= d <= 9) by lia.
  destruct (digit_cases d H') as [-> | [-> | [-> | [-> | [-> |
    [-> | [-> | [-> | [-> | ->]]]]]]]]]; try lia; discriminate.
Qed.

Lemma digits_small fuel n :
  0 <= n < 10 -> Py.digits fuel n = String (Py.digit_char n) EmptyString.
Proof.
  intros H. destruct fuel; cbn.
  - rewrite Z.mod_small by lia. reflexivity.
  - destruct (Z.ltb_spec n 10); [reflexivity | lia].
Qed.

Lemma log2_tenth n : 10 <= n -> Z.log2 (n / 10) < Z.log2 n.
Proof.
  intros H.
  assert (Hq : 0 < n / 10) by (Z.div_mod_to_equations; lia).
  assert (H2 : 2 * (n / 10) <= n) by (Z.div_mod_to_equations; lia).
  apply Z.log2_le_mono in H2.
  rewrite Z.log2_double in H2 by exact Hq. lia.
Qed.

Lemma digits_step fuel n :
  10 <= n -> Z.log2 n <= Z.of_nat (S fuel) ->
  Py.digits (S fuel) n
  = (Py.digits fuel (n / 10)
     ++ String (Py.digit_char (n mod 10)) EmptyString)%string
  /\ Z.log2 (n / 10) <= Z.of_nat fuel.
Proof.
  intros Hn Hf. split.
  - cbn [Py.digits]. destruct (Z.ltb_spec n 10); [lia | reflexivity].
  - pose proof (log2_tenth n Hn). lia.
Qed.

Lemma fuel_positive fuel n :
  10 <= n -> Z.log2 n <= Z.of_nat fuel -> exists fuel', fuel = S fuel'.
Proof.
  intros Hn Hf. destruct fuel; [| eauto].
  assert (Z.log2 8 <= Z.log2 n) by (apply Z.log2_le_mono; lia).
  change (Z.log2 8) with 3 in *. cbn in Hf. lia.
Qed.

Lemma length_append s1 s2 :
  String.length (s1 ++ s2) = (String.length s1 + String.length s2)%nat.
Proof. induction s1; cbn; auto. Qed.

Lemma chars_append s1 s2 :
  Py.chars (s1 ++ s2) = (Py.chars s1 ++ Py.chars s2)%list.
Proof. induction s1; cbn; [reflexivity | f_equal; assumption]. Qed.

Lemma int_digits_snoc s : forall acc c,
  Py.is_digit c = true ->
  Py.int_digits acc (s ++ String c EmptyString)
  = match Py.int_digits acc s with
    | Some v => Some (10 * v + (Z.of_N (N_of_ascii c) - 48))
    | None => None
    end.
Proof.
  induction s as [| d s IH]; intros acc c Hc; cbn.
  - rewrite Hc. reflexivity.
  - destruct (Py.is_digit d); [apply IH; exact Hc | reflexivity].
Qed.

(** The digit string denotes the number, and consists of digits. *)
Lemma digits_denote fuel : forall n,
  0 <= n -> Z.log2 n <= Z.of_nat fuel ->
  Py.int_digits 0 (Py.digits fuel n) = Some n
  /\ forallb Py.is_digit (Py.chars (Py.digits fuel n)) = true.
Proof.
  induction fuel as [| fuel IH]; intros n Hn Hf.
  - assert (n < 10).
    { destruct (Z.lt_ge_cases n 10) as [| H]; [assumption |].
      destruct (fuel_positive 0 n) as [? ?]; [lia | exact Hf | discriminate]. }
    rewrite digits_small by lia. cbn.
    rewrite digit_char_is_digit, digit_char_value by lia. auto.
  - destruct (Z.lt_ge_cases n 10) as [Hs | Hl].
    + rewrite digits_small by lia. cbn.
      rewrite digit_char_is_digit, digit_char_value by lia. auto.
    + destruct (digits_step fuel n) as [-> Hf']; [lia | exact Hf |].
      assert (Hq : 0 <= n / 10) by (Z.div_mod_to_equations; lia).
      assert (Hr : 0 <= n mod 10 <= 9) by (Z.div_mod_to_equations; lia).
      destruct (IH (n / 10) Hq Hf') as [Hint Hall]. split.
      * rewrite int_digits_snoc by (apply digit_char_is_digit; exact Hr).
        rewrite Hint, digit_char_value by exact Hr.
        f_equal. Z.div_mod_to_equations. lia.
      * rewrite chars_append, forallb_app, Hall. cbn.
        rewrite digit_char_is_digit by exact Hr. reflexivity.
Qed.

Lemma digits_length k : forall fuel n,
  10 ^ Z.of_nat k <= n < 10 ^ Z.of_nat (S k) ->
  Z.log2 n <= Z.of_nat fuel ->
  String.length (Py.digits fuel n) = S k.
Proof.
  induction k as [| k IH]; intros fuel n Hn Hf.
  - change (10 ^ Z.of_nat 0) with 1 in Hn.
    change (10 ^ Z.of_nat 1) with 10 in Hn.
    rewrite digits_small by lia. reflexivity.
  - assert (Hk : 10 ^ Z.of_nat (S k) = 10 * 10 ^ Z.of_nat k)
      by (rewrite Nat2Z.inj_succ, Z.pow_succ_r by lia; reflexivity).
    assert (Hk' : 10 ^ Z.of_nat (S (S k)) = 10 * 10 ^ Z.of_nat (S k))
      by (rewrite (Nat2Z.inj_succ (S k)), Z.pow_succ_r by lia; reflexivity).
    assert (Hpos : 0 < 10 ^ Z.of_nat k) by (apply Z.pow_pos_nonneg; lia).
    assert (Hl : 10 <= n) by lia.
    destruct (fuel_positive fuel n Hl Hf) as [fuel' ->].
    destruct (digits_step fuel' n Hl Hf) as [-> Hf'].
    rewrite length_append. cbn [String.length].
    rewrite (IH fuel' (n / 10)); [lia | | exact Hf'].
    Z.div_mod_to_equations. lia.
Qed.

Lemma digits_head fuel : forall n,
  1 <= n -> Z.log2 n <= Z.of_nat fuel ->
  exists c rest, Py.digits fuel n = String c rest /\ c <> "0"%char.
Proof.
  induction fuel as [| fuel IH]; intros n Hn Hf.
  - assert (n < 10).
    { destruct (Z.lt_ge_cases n 10) as [| H]; [assumption |].
      destruct (fuel_positive 0 n) as [? ?]; [lia | exact Hf | discriminate]. }
    rewrite digits_small by lia. eexists _, _. split; [reflexivity |].
    apply digit_char_nonzero. lia.
  - destruct (Z.lt_ge_cases n 10) as [Hs | Hl].
    + rewrite digits_small by lia. eexists _, _. split; [reflexivity |].
      apply digit_char_nonzero. lia.
    + destruct (digits_step fuel n) as [-> Hf']; [lia | exact Hf |].
      assert (Hq : 1 <= n / 10) by (Z.div_mod_to_equations; lia).
      destruct (IH (n / 10) Hq Hf') as (c & rest & -> & Hc).
      cbn. eauto.
Qed.

Lemma format_in_range n :
  100000 <= n <= 999999 ->
  six_digit_code (Py.format_06d n) /\ Py.int (Py.format_06d n) = Some n.
Proof.
  intros Hn. unfold Py.format_06d.
  destruct (Z.ltb_spec n 0); [lia |].
  unfold Py.str_nonneg.
  assert (Hf : Z.log2 n <= Z.of_nat (Z.to_nat (Z.log2 n))).
  { rewrite Z2Nat.id; [lia | apply Z.log2_nonneg]. }
  remember (Z.to_nat (Z.log2 n)) as fuel.
  assert (Hlen : String.length (Py.digits fuel n) = 6%nat).
  { apply (digits_length 5); [| exact Hf].
    change (10 ^ Z.of_nat 5) with 100000.
    change (10 ^ Z.of_nat 6) with 1000000. lia. }
  unfold Py.zfill. rewrite Hlen. cbn [Nat.sub Py.zeros String.append].
  destruct (digits_denote fuel n) as [Hint Hall]; [lia | exact Hf |].
  destruct (digits_head fuel n) as (c & rest & Hhead & Hc);
    [lia | exact Hf |].
  assert (Hint' : Py.int (Py.digits fuel n) = Some n).
  { unfold Py.int. rewrite Hhead in *. exact Hint. }
  split; [| exact Hint'].
  repeat split; eauto.
Qed.

Lemma generated_code env :
  randbelow_in_range env ->
  six_digit_code (Py.format_06d (randbelow env + 100000))
  /\ Py.int (Py.format_06d (randbelow env + 100000))
     = Some (randbelow env + 100000).
Proof. intros H. apply format_in_range. unfold randbelow_in_range in H. lia. Qed.

Lemma Forall_map_code {A} (code : A -> string) (g : A -> A) l :
  (forall x, code (g x) = code x) ->
  Forall (fun r => six_digit_code (code r)) l ->
  Forall (fun r => six_digit_code (code r)) (map g l).
Proof.
  intros Hg H. induction H; cbn; constructor; auto. rewrite Hg. assumption.
Qed.

Lemma Forall_update_first_code p l :
  Forall well_coded_doc l ->
  Forall well_coded_doc (Backend.update_first p Backend.OtpDoc.set_used l).
Proof.
  intros H. induction H; cbn; [constructor |].
  destruct (p x); constructor; auto.
Qed.

Lemma shape_well_coded env rq r db l' :
  randbelow_in_range env ->
  Forall well_coded (otp_codes db) ->
  shape env rq r db l' -> Forall well_coded l'.
Proof.
  intros Hr Hdb H. destruct H.
  - exact Hdb.
  - apply Forall_app. split.
    + apply (Forall_map_code Otp.otp_code); [| exact Hdb].
      intros x. unfold Sql.deactivate_row. destruct (_ && _); reflexivity.
    + constructor; [| constructor]. apply generated_code. exact Hr.
  - apply (Forall_map_code Otp.otp_code); [| exact Hdb].
    intros x. unfold Sql.count_row. destruct (_ && _); reflexivity.
  - apply (Forall_map_code Otp.otp_code); [| exact Hdb].
    intros x. unfold Sql.mark_row. destruct (_ =? _); reflexivity.
Qed.

Lemma backend_shape_well_coded env rq o db l' :
  randbelow_in_range env ->
  Forall well_coded_doc (Backend.otp_codes db) ->
  BackendSpec.shape env rq o db l' -> Forall well_coded_doc l'.
Proof.
  intros Hr Hdb H. destruct H.
  - exact Hdb.
  - apply (Forall_map_code Backend.OtpDoc.otp_code); [| exact Hdb].
    intros x. unfold Backend.Q.deactivate_doc. destruct (_ && _); reflexivity.
  - apply Forall_app. split.
    + apply (Forall_map_code Backend.OtpDoc.otp_code); [| exact Hdb].
      intros x. unfold Backend.Q.deactivate_doc.
      destruct (_ && _); reflexivity.
    + constructor; [| constructor]. apply generated_code. exact Hr.
  - apply (Forall_map_code Backend.OtpDoc.otp_code); [| exact Hdb].
    intros x. unfold Backend.Q.count_doc. destruct (_ && _); reflexivity.
  - apply Forall_update_first_code. exact Hdb.
Qed.

(** C10: every generated OTP code is a string of exactly six decimal
    digits that denotes [secrets.randbelow(900000) + 100000], an integer
    between 100000 and 999999, so it never has fewer than six digits and
    never starts with 0.  This is the code [generate_otp] of the backend
    returns and the code every OTP record carries after any request of
    [EnterpriseAuth] or of the backend, provided the records before it
    did. *)
Theorem otp_code_has_six_digits :
  forall (env : environment) (f : nat -> bool)
         (db : database) (rq : EnterpriseAuth.request)
         (mdb : Backend.mongo) (brq : Backend.request),
    randbelow_in_range env ->
    Forall well_coded (otp_codes db) ->
    Forall well_coded_doc (Backend.otp_codes mdb) ->
    six_digit_code (Backend.generate_otp env)
    /\ Py.int (Backend.generate_otp env) = Some (randbelow env + 100000)
    /\ 100000 <= randbelow env + 100000 <= 999999
    /\ Forall well_coded
         (otp_codes (snd (EnterpriseAuth.step db (env, f, rq))))
    /\ Forall well_coded_doc
         (Backend.otp_codes (snd (Backend.step mdb (env, f, brq)))).
Proof.
  intros env f db rq mdb brq Hr Hdb Hmdb.
  destruct (generated_code env Hr) as [Hsix Hint].
  split; [exact Hsix |]. split; [exact Hint |].
  split; [unfold randbelow_in_range in Hr; lia |]. split.
  - destruct (Reachable.step_shape db env f rq) as (r & _ & Hshape & _).
    eapply shape_well_coded; eauto.
  - eapply backend_shape_well_coded; eauto.
    apply BackendFacts.backend_step_shape.
Qed.

Lemma otp_code_has_six_digits_witness :
  randbelow_in_range Demo.morning
  /\ Forall well_coded (otp_codes Demo.fresh)
  /\ Forall well_coded_doc (Backend.otp_codes Backend.empty_mongo)
  /\ six_digit_code (Backend.generate_otp Demo.morning)
  /\ Forall well_coded
       (otp_codes (snd (EnterpriseAuth.step Demo.fresh Demo.issue_bob))).
Proof.
  assert (Hr : randbelow_in_range Demo.morning)
    by (unfold randbelow_in_range; cbn; lia).
  assert (Hdb : Forall well_coded (otp_codes Demo.fresh)) by constructor.
  assert (Hm : Forall well_coded_doc (Backend.otp_codes Backend.empty_mongo))
    by constructor.
  split; [exact Hr |]. split; [exact Hdb |]. split; [exact Hm |].
  destruct (otp_code_has_six_digits Demo.morning reliable Demo.fresh
              (EnterpriseAuth.GenerateOtp Demo.bob) Backend.empty_mongo
              (Backend.GenerateOtp "ann@hssmedicine.com") Hr Hdb Hm)
    as (Hsix & _ & _ & Hstore & _).
  split; [exact Hsix | exact Hstore].
Defined.

End OtpFormat.

(* ===================================================================== *)
(** * Audio concatenation (claim C7) *)
(* ===================================================================== *)

Module AudioMerge.
Import MergeAudio.













End AudioMerge.

(* ===================================================================== *)
(** * The run of [main] (claim C6) *)
(* ===================================================================== *)

Module MainRun.
Import Pipeline.

#[local] Arguments MergeAudio.merge_audio_clips : simpl never.

(** The stages run in the fixed order, each at most once: the stages
    called form an initial segment of record, merge, transcribe,
    summarise, send. *)
Lemma main_follows_the_order sv fs :
  prefix (map stage_of (main sv fs)) canonical_order = true.
Proof.
  unfold main.
  destruct (record_multiple_clips sv) as [[| p ps] | e]; cbn; auto.
  destruct (MergeAudio.merge_audio_clips (p :: ps) fs) as [path fs'].
  cbn. destruct (transcribe_audio sv path) as [t | e]; cbn; auto.
  destruct (truthy t) as [tr |]; cbn; auto.
  destruct (write_transcript sv tr); cbn; auto.
  destruct (generate_dream_team_email sv tr) as [m | e]; cbn; auto.
  destruct (truthy m) as [em |]; cbn; auto.
  destruct (save_dream_team_email sv em); cbn; auto.
Qed.

(** A run stops after a recording that yields no clips. *)
Lemma main_stops_without_clips sv fs :
  recording_failed sv = true -> main sv fs = [record_multiple_clips_call].
Proof.
  unfold recording_failed, main.
  destruct (record_multiple_clips sv) as [[| p ps] | e];
    [reflexivity | discriminate | reflexivity].
Qed.

(** A run does not summarise or send when the transcription returns
    nothing. *)
Lemma main_stops_without_transcript sv fs :
  (forall path, exists t, transcribe_audio sv path = Returned t
                          /\ truthy t = None) ->
  (List.length (main sv fs) <= 3)%nat.
Proof.
  intros H. unfold main.
  destruct (record_multiple_clips sv) as [[| p ps] | e]; cbn; try lia.
  destruct (MergeAudio.merge_audio_clips (p :: ps) fs) as [path fs'].
  destruct (H path) as (t & -> & ->). cbn. lia.
Qed.

(** A run does not send when the e-mail generation returns nothing. *)
Lemma main_stops_without_email sv fs :
  (forall t, exists m, generate_dream_team_email sv t = Returned m
                       /\ truthy m = None) ->
  (List.length (main sv fs) <= 4)%nat.
Proof.
  intros H. unfold main.
  destruct (record_multiple_clips sv) as [[| p ps] | e]; cbn; try lia.
  destruct (MergeAudio.merge_audio_clips (p :: ps) fs) as [path fs'].
  cbn. destruct (transcribe_audio sv path) as [t | e]; cbn; try lia.
  destruct (truthy t) as [tr |]; cbn; try lia.
  destruct (write_transcript sv tr); cbn; try lia.
  destruct (H tr) as (m & -> & ->). cbn. lia.
Qed.

(** C6 at the failing input: the recording yields a clip without frames,
    so the merge returns no output; [main] does not test that result and
    goes on to call the transcription with [None], whereas
    [run_full_system.py] stops after the merge. *)
Theorem main_transcribes_after_failed_merge :
  merging_failed Studio.silent_session Studio.disk = true
  /\ main Studio.silent_session Studio.disk
     = [record_multiple_clips_call;
        merge_audio_clips_call [Studio.silent];
        transcribe_audio_call None]
  /\ run_full_system_prefix Studio.silent_session Studio.disk
     = [record_multiple_clips_call;
        merge_audio_clips_call [Studio.silent]].
Proof. vm_compute. repeat split. Qed.

Lemma main_runs_all_stages :
  map stage_of (main Studio.good_session Studio.disk) = canonical_order.
Proof. vm_compute. reflexivity. Qed.

End MainRun.

(* ===================================================================== *)
(** * Keys and company rows in every reachable store *)
(* ===================================================================== *)

Module StoreInvariants.
Import EnterpriseAuth AuthEffects AuthSpec AuthFacts StoreSpec.

Lemma insert_user_spec env e n d dom db db1 :
  Sql.insert_user env e n d dom db = Some db1 ->
  db1 = with_users
          (users db ++ [User.mk (next_id (map User.id (users db))) e n d dom
                                true false (current_timestamp env) None 0]) db
  /\ ~ In e (map User.email (users db)).
Proof.
  unfold Sql.insert_user. destruct (existsb _ _) eqn:E; [discriminate |].
  intros H; inversion H; subst. split; [reflexivity |].
  intros Hin. apply in_map_iff in Hin. destruct Hin as (u & Hu & Hin).
  assert (existsb (fun u0 => String.eqb (User.email u0) e) (users db) = true).
  { apply existsb_exists. exists u. split; [exact Hin |].
    apply String.eqb_eq. exact Hu. }
  congruence.
Qed.

Lemma insert_session_spec env uid tok exp db db2 :
  Sql.insert_session env uid tok exp db = Some db2 ->
  db2 = with_user_sessions
          (user_sessions db
           ++ [Session.mk (next_id (map Session.id (user_sessions db))) uid tok
                          (current_timestamp env) exp true
                          (current_timestamp env) None None]) db
  /\ ~ In tok (map Session.session_token (user_sessions db)).
Proof.
  unfold Sql.insert_session. destruct (existsb _ _) eqn:E; [discriminate |].
  intros H; inversion H; subst. split; [reflexivity |].
  intros Hin. apply in_map_iff in Hin. destruct Hin as (s & Hs & Hin).
  assert (existsb (fun s0 => String.eqb (Session.session_token s0) tok)
                  (user_sessions db) = true).
  { apply existsb_exists. exists s. split; [exact Hin |].
    apply String.eqb_eq. exact Hs. }
  congruence.
Qed.

Lemma map_login_id env uid l :
  map User.id
      (map (fun u => if User.id u =? uid
                     then User.record_login (current_timestamp env) u else u) l)
  = map User.id l.
Proof.
  rewrite map_map. apply map_ext. intros u. destruct (_ =? _); reflexivity.
Qed.

Lemma map_login_email env uid l :
  map User.email
      (map (fun u => if User.id u =? uid
                     then User.record_login (current_timestamp env) u else u) l)
  = map User.email l.
Proof.
  rewrite map_map. apply map_ext. intros u. destruct (_ =? _); reflexivity.
Qed.

Lemma map_deactivate_session_token tok l :
  map Session.session_token (map (Sql.deactivate_session_row tok) l)
  = map Session.session_token l.
Proof.
  rewrite map_map. apply map_ext. intros s. unfold Sql.deactivate_session_row.
  destruct (String.eqb _ _); reflexivity.
Qed.

Lemma map_deactivate_session_id tok l :
  map Session.id (map (Sql.deactivate_session_row tok) l) = map Session.id l.
Proof.
  rewrite map_map. apply map_ext. intros s. unfold Sql.deactivate_session_row.
  destruct (String.eqb _ _); reflexivity.
Qed.

Lemma map_touch_session_token env tok l :
  map Session.session_token (map (Sql.touch_session_row env tok) l)
  = map Session.session_token l.
Proof.
  rewrite map_map. apply map_ext. intros s. unfold Sql.touch_session_row.
  destruct (String.eqb _ _); reflexivity.
Qed.

Lemma map_touch_session_id env tok l :
  map Session.id (map (Sql.touch_session_row env tok) l) = map Session.id l.
Proof.
  rewrite map_map. apply map_ext. intros s. unfold Sql.touch_session_row.
  destruct (String.eqb _ _); reflexivity.
Qed.

(** No request touches [company_settings]. *)
Lemma effect_companies env rq db r db' :
  effect env rq db r db' -> company_settings db' = company_settings db.
Proof.
  intros H. destruct H; try reflexivity.
  - match goal with
    | H : Sql.insert_user _ _ _ _ _ _ = Some _ |- _ =>
        apply insert_user_spec in H; destruct H as [-> _]
    end. reflexivity.
  - match goal with
    | H : Sql.insert_session _ _ _ _ _ = Some _ |- _ =>
        apply insert_session_spec in H; destruct H as [-> _]
    end. reflexivity.
  - destruct (Sql.select_session session_token db) as [[s u] |]; reflexivity.
Qed.

Lemma effect_user_keys env rq db r db' :
  effect env rq db r db' ->
  unique_user_ids db /\ unique_user_emails db ->
  unique_user_ids db' /\ unique_user_emails db'.
Proof.
  unfold unique_user_ids, unique_user_emails.
  intros H [Hid Hem]. destruct H; try (split; assumption).
  - match goal with
    | H : Sql.insert_user _ _ _ _ _ _ = Some _ |- _ =>
        apply insert_user_spec in H; destruct H as [-> Hfresh]
    end.
    cbn. rewrite !map_app. cbn. split.
    + apply OtpInvariants.NoDup_snoc;
        [exact Hid | apply OtpInvariants.next_id_fresh].
    + apply OtpInvariants.NoDup_snoc; assumption.
  - match goal with
    | H : Sql.insert_session _ _ _ _ _ = Some _ |- _ =>
        apply insert_session_spec in H; destruct H as [-> _]
    end.
    cbn. rewrite map_login_id, map_login_email. split; assumption.
  - destruct (Sql.select_session session_token db) as [[s u] |];
      split; assumption.
Qed.

Lemma effect_session_keys env rq db r db' :
  effect env rq db r db' ->
  unique_session_tokens db /\ unique_session_ids db ->
  unique_session_tokens db' /\ unique_session_ids db'.
Proof.
  unfold unique_session_tokens, unique_session_ids.
  intros H [Htok Hid]. destruct H; try (split; assumption).
  - match goal with
    | H : Sql.insert_user _ _ _ _ _ _ = Some _ |- _ =>
        apply insert_user_spec in H; destruct H as [-> _]
    end. split; assumption.
  - match goal with
    | H : Sql.insert_session _ _ _ _ _ = Some _ |- _ =>
        apply insert_session_spec in H; destruct H as [-> Hfresh]
    end.
    cbn in Hfresh |- *. rewrite !map_app. cbn. split.
    + apply OtpInvariants.NoDup_snoc; assumption.
    + apply OtpInvariants.NoDup_snoc;
        [exact Hid | apply OtpInvariants.next_id_fresh].
  - cbn. rewrite map_deactivate_session_token, map_deactivate_session_id.
    split; assumption.
  - cbn. rewrite map_touch_session_token, map_touch_session_id.
    split; assumption.
  - destruct (Sql.select_session session_token db) as [[s u] |]; cbn;
      rewrite map_deactivate_session_token, map_deactivate_session_id;
      split; assumption.
Qed.

Lemma step_keys_unique db ev : keys_unique db -> keys_unique (snd (step db ev)).
Proof.
  destruct ev as [[env f] rq]. intros (Hu & He & Ht & Hs & Ho).
  destruct (step_effect db env f rq) as (r & _ & Heff).
  destruct (effect_user_keys _ _ _ _ _ Heff (conj Hu He)) as [Hu' He'].
  destruct (effect_session_keys _ _ _ _ _ Heff (conj Ht Hs)) as [Ht' Hs'].
  repeat split; try assumption.
  apply Reachable.step_unique_ids. exact Ho.
Qed.

Lemma step_companies db ev :
  company_settings (snd (step db ev)) = company_settings db.
Proof.
  destruct ev as [[env f] rq].
  destruct (step_effect db env f rq) as (r & _ & Heff).
  eapply effect_companies; eauto.
Qed.

Lemma execute_all_keys_unique evs :
  forall db, keys_unique db -> keys_unique (execute_all db evs).
Proof.
  induction evs as [| ev evs IH]; cbn; intros db H; [exact H |].
  apply IH. apply step_keys_unique. exact H.
Qed.

Lemma execute_all_companies evs :
  forall db, company_settings (execute_all db evs) = company_settings db.
Proof.
  induction evs as [| ev evs IH]; cbn; intros db; [reflexivity |].
  rewrite IH. apply step_companies.
Qed.

Lemma initial_keys_unique env0 : keys_unique (initial_database env0).
Proof. repeat split; constructor. Qed.

Lemma select_company_same db db' domain :
  company_settings db' = company_settings db ->
  Sql.select_company domain db' = Sql.select_company domain db.
Proof. unfold Sql.select_company. intros ->. reflexivity. Qed.

Lemma initial_companies env0 : companies_installed (initial_database env0).
Proof.
  intros domain [<- | [<- | []]]; eexists; vm_compute; reflexivity.
Qed.

(** X1: in every store that requests can reach from the database the
    constructor leaves, whatever faults occur, the keys of the schema are
    keys: user ids, user e-mail addresses, session tokens, session ids and
    OTP ids are pairwise distinct; and both company rows stay installed and
    active, so [get_company_info] finds the company of every allowed
    domain. *)
Theorem reachable_store_keeps_its_keys :
  forall (env0 : environment) (evs : list event),
    keys_unique (execute_all (initial_database env0) evs)
    /\ companies_installed (execute_all (initial_database env0) evs).
Proof.
  intros env0 evs. split.
  - apply execute_all_keys_unique, initial_keys_unique.
  - intros domain Hd.
    rewrite (select_company_same (initial_database env0) _ domain
               (execute_all_companies evs _)).
    apply initial_companies. exact Hd.
Qed.

End StoreInvariants.

(* ===================================================================== *)
(** * Runs in which every external call succeeds *)
(* ===================================================================== *)

Module ReliableRuns.
Import EnterpriseAuth AuthEffects AuthSpec AuthFacts StoreSpec.

Lemma find_none_existsb {A} (p : A -> bool) l :
  find p l = None -> existsb p l = false.
Proof.
  induction l as [| x l IH]; cbn; [reflexivity |].
  destruct (p x); [discriminate | exact IH].
Qed.

Lemma insert_user_fresh env e n d dom db :
  Sql.select_user_by_email e db = None ->
  Sql.insert_user env e n d dom db
  = Some (with_users
            (users db ++ [User.mk (next_id (map User.id (users db))) e n d dom
                                  true false (current_timestamp env) None 0])
            db).
Proof.
  unfold Sql.select_user_by_email, Sql.insert_user. intros H.
  rewrite (find_none_existsb _ _ H). reflexivity.
Qed.

Lemma lastrowid_after_insert us u db :
  Sql.lastrowid_users (with_users (us ++ [u]) db) = User.id u.
Proof. unfold Sql.lastrowid_users. cbn. rewrite rev_unit. reflexivity. Qed.

(** The store once [register_user] has committed. *)
Lemma reliable_register env db email full_name department domain company :
  validate_email_domain email = (true, domain) ->
  Sql.select_company domain db = Some company ->
  Sql.select_user_by_email (Py.lower email) db = None ->
  step db (env, reliable, RegisterUser email full_name department)
  = (Returned
       (Response.mk true
          (Some ("Registration successful! Welcome to "
                 ++ Company.company_name company))
          (Some (next_id (map User.id (users db)))) None None None),
     Sql.insert_audit env (Some (next_id (map User.id (users db))))
       "USER_REGISTERED" ("New user registered: " ++ email) None
       (with_users
          (users db
           ++ [registered_row env db email full_name department domain]) db)).
Proof.
  intros Hv Hc Hu. run_method. unfold reliable. rewrite Hv. cbn [negb].
  rewrite Hc, Hu, (insert_user_fresh env _ _ _ domain db Hu).
  rewrite lastrowid_after_insert. reflexivity.
Qed.

Lemma reliable_register_duplicate env db email full_name department domain
      company u :
  validate_email_domain email = (true, domain) ->
  Sql.select_company domain db = Some company ->
  Sql.select_user_by_email (Py.lower email) db = Some u ->
  step db (env, reliable, RegisterUser email full_name department)
  = (Returned (Response.failure
                 "User already registered. Please use login instead."), db).
Proof.
  intros Hv Hc Hu. run_method. unfold reliable. rewrite Hv. cbn [negb].
  rewrite Hc, Hu. reflexivity.
Qed.

(** [generate_otp] commits before the mail is prepared; the answer depends
    on whether [send_otp_email] finds the company of the domain as typed. *)
Lemma reliable_generate env db email domain typed :
  validate_email_domain email = (true, domain) ->
  nth_error (Py.split "@" email) 1 = Some typed ->
  step db (env, reliable, GenerateOtp email)
  = (Returned
       (match Sql.select_company typed db with
        | Some _ =>
            Response.mk true
              (Some ("OTP sent to " ++ email ++ ". Valid for "
                     ++ Py.str_nonneg OTP_EXPIRY_MINUTES ++ " minutes."))
              None (Some OTP_EXPIRY_MINUTES) None None
        | None =>
            Response.failure "Failed to send OTP email. Please try again."
        end),
     after_issue env db email).
Proof.
  intros Hv Ht. run_method. unfold reliable. rewrite Hv. cbn [negb].
  rewrite Ht.
  change (Sql.select_company typed
            (Sql.insert_otp env (Py.lower email)
               (Py.format_06d (randbelow env + 100000))
               (now env + minutes OTP_EXPIRY_MINUTES)
               (Sql.deactivate_otps (Py.lower email) db)))
    with (Sql.select_company typed db).
  destruct (Sql.select_company typed db); reflexivity.
Qed.

Lemma reliable_login env db email otp_code row u db2 :
  Sql.select_otp (Py.lower email) otp_code db = Some row ->
  now env <= Otp.expires_at row ->
  Otp.attempts row < 3 ->
  Sql.select_user_by_email (Py.lower email)
    (Sql.mark_otp_used (Otp.id row) db) = Some u ->
  Sql.insert_session env (User.id u) (token_urlsafe env)
    (now env + hours SESSION_EXPIRY_HOURS)
    (Sql.mark_otp_used (Otp.id row) db) = Some db2 ->
  step db (env, reliable, VerifyOtp email otp_code)
  = (Returned
       (Response.mk true (Some "Login successful!") None None
          (Some (token_urlsafe env))
          (Some (UserData.mk (User.id u) email (User.full_name u)
                   (User.department u) (User.company_domain u)
                   (now env + hours SESSION_EXPIRY_HOURS)))),
     Sql.insert_audit env (Some (User.id u)) "LOGIN_SUCCESS"
       ("Successful OTP login from " ++ email) None
       (Sql.update_login_stats env (User.id u) db2)).
Proof.
  intros Hsel Hexp Hatt Hu Hins. run_method. unfold reliable. rewrite Hsel.
  assert (Hgt : (now env >? Otp.expires_at row) = false)
    by (rewrite Z.gtb_ltb; apply Z.ltb_ge; lia).
  assert (Hge : (Otp.attempts row >=? 3) = false)
    by (rewrite Z.geb_leb; apply Z.leb_gt; lia).
  rewrite Hgt, Hge, Hu, Hins. reflexivity.
Qed.

Lemma reliable_unregistered env db email otp_code row :
  Sql.select_otp (Py.lower email) otp_code db = Some row ->
  now env <= Otp.expires_at row ->
  Otp.attempts row < 3 ->
  Sql.select_user_by_email (Py.lower email)
    (Sql.mark_otp_used (Otp.id row) db) = None ->
  step db (env, reliable, VerifyOtp email otp_code)
  = (Returned (Response.failure "User not found. Please register first."), db).
Proof.
  intros Hsel Hexp Hatt Hu. run_method. unfold reliable. rewrite Hsel.
  assert (Hgt : (now env >? Otp.expires_at row) = false)
    by (rewrite Z.gtb_ltb; apply Z.ltb_ge; lia).
  assert (Hge : (Otp.attempts row >=? 3) = false)
    by (rewrite Z.geb_leb; apply Z.leb_gt; lia).
  rewrite Hgt, Hge, Hu. reflexivity.
Qed.

Lemma reliable_logout env db session_token :
  step db (env, reliable, LogoutUser session_token)
  = (Returned (Response.mk true (Some "Logged out successfully") None None
                 None None),
     match Sql.select_session session_token db with
     | Some (s, u) =>
         Sql.insert_audit env (Some (Session.user_id s)) "LOGOUT"
           ("User logged out: " ++ User.email u) None
           (Sql.deactivate_session session_token db)
     | None => Sql.deactivate_session session_token db
     end).
Proof.
  run_method. unfold reliable.
  destruct (Sql.select_session session_token db) as [[s u] |]; reflexivity.
Qed.

End ReliableRuns.

(* ===================================================================== *)
(** * Registration, issuance and login compose *)
(* ===================================================================== *)

Module HappyPath.
Import EnterpriseAuth AuthEffects AuthSpec AuthFacts StoreSpec ReliableRuns.

Lemma split_has_second s :
  Py.contains "@" s = true -> exists typed, nth_error (Py.split "@" s) 1 = Some typed.
Proof.
  induction s as [| c s IH]; cbn; [discriminate |].
  destruct (Ascii.eqb c "@").
  - intros _. destruct s as [| d s']; cbn; [eauto |].
    destruct (Ascii.eqb d "@"); [eauto |].
    destruct (Py.split "@" s'); eauto.
  - intros H. destruct (IH H) as (typed & Ht).
    destruct (Py.split "@" s) as [| p [| q ps]]; cbn in *;
      try discriminate; eauto.
Qed.

Lemma validated_has_domain email domain :
  validate_email_domain email = (true, domain) ->
  exists typed, nth_error (Py.split "@" email) 1 = Some typed
                /\ domain = Py.lower typed
                /\ Py.mem domain ALLOWED_DOMAINS = true.
Proof.
  unfold validate_email_domain.
  destruct (String.eqb email "" || negb (Py.contains "@" email)) eqn:E;
    [discriminate |].
  apply orb_false_elim in E. destruct E as [_ E].
  apply negb_false_iff in E.
  destruct (split_has_second email E) as (typed & Ht).
  rewrite (nth_error_nth _ _ "" Ht).
  destruct (Py.mem (Py.lower typed) ALLOWED_DOMAINS) eqn:Hm; cbn;
    [| discriminate].
  intros H; inversion H; subst. eauto.
Qed.

Lemma find_snoc {A} (p : A -> bool) l x :
  find p l = None -> find p (l ++ [x]) = if p x then Some x else None.
Proof.
  induction l as [| y l IH]; cbn; [reflexivity |].
  destruct (p y); [discriminate | exact IH].
Qed.

(** X2: registration round trip, for an address, a name and a department
    written in ASCII.  In a store holding the company row of the address's
    domain and no user with the lowercased address, [register_user]
    succeeds when every database call does; afterwards the lookup by the
    lowercased address returns exactly the inserted row (stripped name and
    department, the domain, [login_count = 0], the next id); and
    registering the address again, in any ASCII spelling with the same
    lowercase form, is refused with "User already registered" and leaves
    the store as it is.  (A second spelling with the same lowercase form
    as an ASCII address is itself ASCII.) *)
Theorem registration_round_trip :
  forall (env env' : environment) (db : database)
         (email full_name department domain : string) (company : Company.t)
         (again full_name' department' : string),
    Py.isascii email = true ->
    Py.isascii full_name = true ->
    Py.isascii department = true ->
    validate_email_domain email = (true, domain) ->
    Sql.select_company domain db = Some company ->
    Sql.select_user_by_email (Py.lower email) db = None ->
    validate_email_domain again = (true, domain) ->
    Py.lower again = Py.lower email ->
    let registered :=
      snd (step db (env, reliable, RegisterUser email full_name department)) in
    succeeded (fst (step db (env, reliable,
                             RegisterUser email full_name department))) = true
    /\ Sql.select_user_by_email (Py.lower email) registered
       = Some (registered_row env db email full_name department domain)
    /\ step registered (env', reliable,
                        RegisterUser again full_name' department')
       = (Returned (Response.failure
                      "User already registered. Please use login instead."),
          registered).
Proof.
  intros env env' db email full_name department domain company again
         full_name' department' _ _ _ Hv Hc Hu Hv' Hl registered.
  subst registered.
  rewrite (reliable_register env db email full_name department domain company
             Hv Hc Hu). cbn [fst snd succeeded Response.success].
  assert (Hfound :
            Sql.select_user_by_email (Py.lower email)
              (Sql.insert_audit env (Some (next_id (map User.id (users db))))
                 "USER_REGISTERED" ("New user registered: " ++ email) None
                 (with_users
                    (users db
                     ++ [registered_row env db email full_name department
                                        domain]) db))
            = Some (registered_row env db email full_name department domain)).
  { unfold Sql.select_user_by_email in *. cbn [users Sql.insert_audit
      with_audit_log with_users].
    rewrite (find_snoc _ _ _ Hu). cbn. rewrite String.eqb_refl. reflexivity. }
  split; [reflexivity |]. split; [exact Hfound |].
  eapply reliable_register_duplicate; eauto.
  rewrite Hl. exact Hfound.
Qed.

Lemma registration_round_trip_witness :
  Py.isascii Clinic.carol = true
  /\ validate_email_domain Clinic.carol = (true, "hssmedicine.com")
  /\ Sql.select_user_by_email (Py.lower Clinic.carol) Demo.issued = None
  /\ Py.lower Clinic.carol_again = Py.lower Clinic.carol
  /\ Sql.select_user_by_email (Py.lower Clinic.carol) Clinic.with_carol
     = Some (User.mk 2 "carol@hssmedicine.com" "Carol" "Radiology"
                     "hssmedicine.com" true false 1000 None 0)
  /\ step Clinic.with_carol
          (Demo.later, reliable, RegisterUser Clinic.carol_again "C" "X")
     = (Returned (Response.failure
                    "User already registered. Please use login instead."),
        Clinic.with_carol).
Proof.
  assert (Hv : validate_email_domain Clinic.carol = (true, "hssmedicine.com"))
    by reflexivity.
  assert (Hu : Sql.select_user_by_email (Py.lower Clinic.carol) Demo.issued
               = None) by reflexivity.
  assert (Hl : Py.lower Clinic.carol_again = Py.lower Clinic.carol)
    by reflexivity.
  split; [reflexivity |].
  split; [exact Hv |]. split; [exact Hu |]. split; [exact Hl |].
  destruct (registration_round_trip Demo.morning Demo.later Demo.issued
              Clinic.carol " Carol " "Radiology" "hssmedicine.com"
              (Company.mk 2 "hssmedicine.com" "HSS Medicine"
                          "admin@hssmedicine.com" None 587 None None true 1000)
              Clinic.carol_again "C" "X" eq_refl eq_refl eq_refl
              Hv eq_refl Hu eq_refl Hl)
    as (_ & Hfound & Hdup).
  split; [exact Hfound | exact Hdup].
Defined.

End HappyPath.

(* ===================================================================== *)
(** * From an issued code to a validated session *)
(* ===================================================================== *)

Module LoginFlow.
Import EnterpriseAuth AuthEffects AuthSpec AuthFacts StoreSpec ReliableRuns.

Lemma filter_none {A} (p : A -> bool) l :
  (forall x, In x l -> p x = false) -> filter p l = [].
Proof.
  induction l as [| x l IH]; cbn; intros H; [reflexivity |].
  rewrite (H x (or_introl eq_refl)). apply IH. intros y Hy. apply H.
  right. exact Hy.
Qed.

Lemma insert_session_fresh env uid tok exp db :
  ~ In tok (map Session.session_token (user_sessions db)) ->
  Sql.insert_session env uid tok exp db
  = Some (with_user_sessions
            (user_sessions db
             ++ [Session.mk (next_id (map Session.id (user_sessions db))) uid
                            tok (current_timestamp env) exp true
                            (current_timestamp env) None None]) db).
Proof.
  intros Hfresh. unfold Sql.insert_session.
  destruct (existsb _ _) eqn:E; [| reflexivity].
  exfalso. apply existsb_exists in E. destruct E as (s & Hs & Ht).
  apply String.eqb_eq in Ht. apply Hfresh. rewrite <- Ht.
  apply in_map. exact Hs.
Qed.

(** After [generate_otp] has committed, the query of [verify_otp] for the
    address and the issued code selects the new row. *)
Lemma select_issued env db email :
  Sql.select_otp (Py.lower email) (Py.format_06d (randbelow env + 100000))
                 (after_issue env db email)
  = Some (issued_row env db email).
Proof.
  unfold Sql.select_otp, after_issue. cbn [otp_codes Sql.insert_otp
    Sql.deactivate_otps with_otp_codes].
  rewrite filter_app, OtpTable.map_id_deactivate.
  rewrite filter_none.
  - cbn. rewrite !String.eqb_refl. reflexivity.
  - intros x Hx. apply in_map_iff in Hx. destruct Hx as (y & <- & _).
    unfold Sql.deactivate_row.
    destruct (String.eqb (Otp.email y) (Py.lower email)) eqn:He;
      destruct (Otp.is_used y) eqn:Hu; cbn; rewrite ?He, ?Hu; cbn;
      rewrite ?andb_false_r; reflexivity.
Qed.

Lemma after_issue_otps env db email :
  otp_codes (after_issue env db email)
  = (map (Sql.deactivate_row (Py.lower email)) (otp_codes db)
     ++ [issued_row env db email])%list.
Proof.
  unfold after_issue, issued_row.
  cbn [otp_codes Sql.insert_otp Sql.deactivate_otps with_otp_codes].
  rewrite OtpTable.map_id_deactivate. reflexivity.
Qed.

Lemma after_issue_single_live env db email :
  single_live db -> single_live (after_issue env db email).
Proof.
  intros Hlive e. unfold unused_for. rewrite after_issue_otps.
  eapply OtpInvariants.shape_single_live; [exact Hlive |].
  apply (reissued env (GenerateOtp email) (Response.failure "") db email
                  eq_refl).
Qed.

Lemma generate_commits env db email domain :
  validate_email_domain email = (true, domain) ->
  snd (step db (env, reliable, GenerateOtp email)) = after_issue env db email.
Proof.
  intros Hv. destruct (HappyPath.validated_has_domain email domain Hv)
    as (typed & Ht & _).
  rewrite (reliable_generate env db email domain typed Hv Ht). reflexivity.
Qed.

(** X3: an issued code logs in.  When [generate_otp] has run for a
    registered address, [verify_otp] with the code it issued, called within
    the ten minutes and with a session token not yet stored, succeeds (all
    database calls succeeding): it returns that token and the user's data
    with a session that expires eight hours later, and leaves the address
    without an unused OTP. *)
Theorem issued_code_logs_in :
  forall (env env' : environment) (db : database) (email domain : string)
         (u : User.t),
    validate_email_domain email = (true, domain) ->
    Sql.select_user_by_email (Py.lower email) db = Some u ->
    now env' <= now env + minutes OTP_EXPIRY_MINUTES ->
    ~ In (token_urlsafe env') (map Session.session_token (user_sessions db)) ->
    single_live db ->
    let issued := snd (step db (env, reliable, GenerateOtp email)) in
    let code := Py.format_06d (randbelow env + 100000) in
    fst (step issued (env', reliable, VerifyOtp email code))
    = Returned
        (Response.mk true (Some "Login successful!") None None
           (Some (token_urlsafe env'))
           (Some (UserData.mk (User.id u) email (User.full_name u)
                    (User.department u) (User.company_domain u)
                    (now env' + hours SESSION_EXPIRY_HOURS))))
    /\ unused_for (Py.lower email)
                  (snd (step issued (env', reliable, VerifyOtp email code)))
       = [].
Proof.
  intros env env' db email domain u Hv Hu Hnow Hfresh Hlive issued code.
  subst issued code. rewrite (generate_commits env db email domain Hv).
  pose proof (select_issued env db email) as Hsel.
  assert (Hins :
            Sql.insert_session env' (User.id u) (token_urlsafe env')
              (now env' + hours SESSION_EXPIRY_HOURS)
              (Sql.mark_otp_used (Otp.id (issued_row env db email))
                                 (after_issue env db email))
            = Some (with_user_sessions
                      (user_sessions db
                       ++ [Session.mk
                             (next_id (map Session.id (user_sessions db)))
                             (User.id u) (token_urlsafe env')
                             (current_timestamp env')
                             (now env' + hours SESSION_EXPIRY_HOURS) true
                             (current_timestamp env') None None])
                      (Sql.mark_otp_used (Otp.id (issued_row env db email))
                                         (after_issue env db email)))).
  { exact (insert_session_fresh env' (User.id u) (token_urlsafe env')
             (now env' + hours SESSION_EXPIRY_HOURS)
             (Sql.mark_otp_used (Otp.id (issued_row env db email))
                                (after_issue env db email)) Hfresh). }
  rewrite (reliable_login env' _ email _ (issued_row env db email) u _
             Hsel Hnow ltac:(cbn; lia) Hu Hins).
  cbn [fst snd]. split; [reflexivity |].
  unfold unused_for.
  cbn [otp_codes Sql.insert_audit Sql.update_login_stats with_audit_log
       with_users with_user_sessions Sql.mark_otp_used with_otp_codes].
  apply (OtpInvariants.live_after_mark (after_issue env db email)
           (Py.lower email) (Py.format_06d (randbelow env + 100000))).
  - apply after_issue_single_live. exact Hlive.
  - exact Hsel.
Qed.

Lemma issued_code_logs_in_witness :
  validate_email_domain Demo.bob = (true, "hhamedicine.com")
  /\ now Demo.morning <= now Demo.morning + minutes OTP_EXPIRY_MINUTES
  /\ fst (step Demo.issued Demo.verify_bob)
     = Returned
         (Response.mk true (Some "Login successful!") None None
            (Some "token-1")
            (Some (UserData.mk 1 Demo.bob "Bob" "Cardiology"
                     "hhamedicine.com" 28800001000))).
Proof.
  split; [reflexivity |]. split; [cbn; lia |].
  destruct (issued_code_logs_in Demo.morning Demo.morning
              (execute_all Demo.fresh [Demo.register_bob]) Demo.bob
              "hhamedicine.com"
              (User.mk 1 Demo.bob "Bob" "Cardiology" "hhamedicine.com" true
                       false 1000 None 0)
              eq_refl eq_refl ltac:(cbn; lia) ltac:(intros [])
              (Reachable.execute_all_single_live _ _
                 (Reachable.initial_single_live Demo.morning)))
    as [Hlogin _].
  exact Hlogin.
Defined.

Lemma select_user_find email db u :
  Sql.select_user_by_email email db = Some u ->
  In u (users db) /\ User.email u = email.
Proof.
  unfold Sql.select_user_by_email. intros H. apply find_some in H.
  destruct H as [Hin He]. apply String.eqb_eq in He. auto.
Qed.

(** X4: a fresh session validates.  When [verify_otp] has succeeded, under
    any fault schedule, the token it returned is accepted by
    [validate_session] at any time up to eight hours after the login (all
    database calls succeeding), and the data returned is that of the user
    whose address was verified. *)
Theorem fresh_session_validates :
  forall (env env' : environment) (f : nat -> bool) (db db' : database)
         (email otp_code : string) (r : Response.t),
    unique_user_ids db ->
    step db (env, f, VerifyOtp email otp_code) = (Returned r, db') ->
    Response.success r = true ->
    now env' <= now env + hours SESSION_EXPIRY_HOURS ->
    Response.session_token r = Some (token_urlsafe env)
    /\ exists s u,
         step db' (env', reliable, ValidateSession (token_urlsafe env))
         = (Returned (SessionSpec.accepted s u),
            Sql.touch_session env' (token_urlsafe env) db')
         /\ User.email u = Py.lower email
         /\ Session.user_id s = User.id u
         /\ Session.expires_at s = now env + hours SESSION_EXPIRY_HOURS.
Proof.
  intros env env' f db db' email otp_code r Huniq Hstep Hsucc Hnow.
  destruct (step_effect db env f (VerifyOtp email otp_code))
    as (r0 & Hstep0 & Heff).
  rewrite Hstep in Hstep0, Heff. cbn [snd] in Hstep0, Heff.
  assert (r0 = r) by congruence. subst r0. clear Hstep0.
  inversion Heff; subst; try congruence; try (cbn in Hsucc; discriminate).
  split; [reflexivity |].
  match goal with
  | H : Sql.insert_session _ _ _ _ _ = Some _ |- _ =>
      apply StoreInvariants.insert_session_spec in H;
      destruct H as [-> Hfresh]
  end.
  match goal with
  | H : Sql.select_user_by_email _ _ = Some _ |- _ =>
      apply select_user_find in H; destruct H as [Huin Hue]
  end.
  cbn [users Sql.mark_otp_used with_otp_codes user_sessions] in Huin, Hfresh.
  set (session :=
         Session.mk (next_id (map Session.id (user_sessions db))) (User.id u)
                    (token_urlsafe env) (current_timestamp env)
                    (now env + hours SESSION_EXPIRY_HOURS) true
                    (current_timestamp env) None None).
  set (user := User.record_login (current_timestamp env) u).
  exists session, user.
  assert (Hsel :
            Sql.select_session (token_urlsafe env)
              (Sql.insert_audit env (Some (User.id u)) "LOGIN_SUCCESS"
                 ("Successful OTP login from " ++ email) None
                 (Sql.update_login_stats env (User.id u)
                    (with_user_sessions
                       (user_sessions (Sql.mark_otp_used (Otp.id row) db)
                        ++ [session])
                       (Sql.mark_otp_used (Otp.id row) db))))
            = Some (session, user)).
  { unfold Sql.select_session.
    cbn [user_sessions users Sql.insert_audit Sql.update_login_stats
         with_audit_log with_users with_user_sessions Sql.mark_otp_used
         with_otp_codes].
    rewrite filter_app, filter_none.
    - cbn [app filter session Session.session_token Session.is_active].
      rewrite String.eqb_refl. cbn [andb flat_map Session.user_id app].
      rewrite (SessionValidation.filter_unique_key User.id _ _ user).
      + reflexivity.
      + rewrite StoreInvariants.map_login_id. exact Huniq.
      + apply in_map_iff. exists u. split; [| exact Huin].
        rewrite Z.eqb_refl. reflexivity.
      + apply Z.eqb_eq. reflexivity.
      + intros y _ Hy. apply Z.eqb_eq in Hy. rewrite Hy. reflexivity.
    - intros x Hx. destruct (String.eqb_spec (Session.session_token x)
                                             (token_urlsafe env)) as [Ht |];
        [| reflexivity].
      exfalso. apply Hfresh. rewrite <- Ht. apply in_map. exact Hx. }
  split.
  - apply (SessionValidation.reliable_valid env' _ _ session user Hsel).
    exact Hnow.
  - repeat split. exact Hue.
Qed.

Lemma fresh_session_validates_witness :
  unique_user_ids Demo.issued
  /\ now Demo.later <= now Demo.morning + hours SESSION_EXPIRY_HOURS
  /\ exists s u,
       step Demo.logged_in (Demo.later, reliable, ValidateSession "token-1")
       = (Returned (SessionSpec.accepted s u),
          Sql.touch_session Demo.later "token-1" Demo.logged_in)
       /\ User.email u = Demo.bob.
Proof.
  assert (Hu : unique_user_ids Demo.issued).
  { unfold unique_user_ids. vm_compute.
    constructor; [intros [] | constructor]. }
  split; [exact Hu |]. split; [cbn; lia |].
  destruct (fresh_session_validates Demo.morning Demo.later reliable
              Demo.issued Demo.logged_in Demo.bob "123456"
              (Response.mk true (Some "Login successful!") None None
                 (Some "token-1")
                 (Some (UserData.mk 1 Demo.bob "Bob" "Cardiology"
                          "hhamedicine.com" 28800001000)))
              Hu eq_refl eq_refl ltac:(cbn; lia))
    as (_ & s & u & Hstep & He & _).
  exists s, u. split; [exact Hstep | exact He].
Defined.

End LoginFlow.

(* ===================================================================== *)
(** * Tokens that never validate again *)
(* ===================================================================== *)

Module Revocation.
Import EnterpriseAuth AuthEffects AuthSpec AuthFacts StoreSpec.

Lemma revoked_map session_token (g : Session.t -> Session.t) l :
  (forall s, Session.session_token (g s) = Session.session_token s
             /\ (Session.is_active s = false -> Session.is_active (g s) = false)) ->
  In session_token (map Session.session_token l)
  /\ (forall s, In s l -> Session.session_token s = session_token ->
                Session.is_active s = false) ->
  In session_token (map Session.session_token (map g l))
  /\ (forall s, In s (map g l) -> Session.session_token s = session_token ->
                Session.is_active s = false).
Proof.
  intros Hg [Hin Hoff]. split.
  - rewrite map_map. apply in_map_iff in Hin. destruct Hin as (s & Hs & Hsin).
    apply in_map_iff. exists s. split; [| exact Hsin].
    destruct (Hg s) as [-> _]. exact Hs.
  - intros s Hs Ht. apply in_map_iff in Hs. destruct Hs as (x & <- & Hx).
    destruct (Hg x) as [Hgt Hga]. apply Hga. apply Hoff; [exact Hx | congruence].
Qed.

Lemma deactivate_row_revokes tok s :
  Session.session_token (Sql.deactivate_session_row tok s)
  = Session.session_token s
  /\ (Session.is_active s = false ->
      Session.is_active (Sql.deactivate_session_row tok s) = false).
Proof.
  unfold Sql.deactivate_session_row. destruct (String.eqb _ _); cbn; auto.
Qed.

Lemma touch_row_revokes env tok s :
  Session.session_token (Sql.touch_session_row env tok s)
  = Session.session_token s
  /\ (Session.is_active s = false ->
      Session.is_active (Sql.touch_session_row env tok s) = false).
Proof.
  unfold Sql.touch_session_row. destruct (String.eqb _ _); cbn; auto.
Qed.

(** No request reactivates a session, and the [UNIQUE] constraint keeps a
    stored token from being issued again. *)
Lemma effect_keeps_revoked env rq db r db' session_token :
  effect env rq db r db' -> revoked session_token db -> revoked session_token db'.
Proof.
  unfold revoked. intros H Hrev. destruct H; try exact Hrev.
  - match goal with
    | H : Sql.insert_user _ _ _ _ _ _ = Some _ |- _ =>
        apply StoreInvariants.insert_user_spec in H; destruct H as [-> _]
    end. exact Hrev.
  - match goal with
    | H : Sql.insert_session _ _ _ _ _ = Some _ |- _ =>
        apply StoreInvariants.insert_session_spec in H;
        destruct H as [-> Hfresh]
    end.
    cbn [user_sessions Sql.insert_audit Sql.update_login_stats with_audit_log
         with_users with_user_sessions Sql.mark_otp_used with_otp_codes]
      in Hfresh |- *.
    destruct Hrev as [Hin Hoff]. split.
    + rewrite map_app. apply in_or_app. left. exact Hin.
    + intros s Hs Ht. apply in_app_or in Hs. destruct Hs as [Hs | [<- | []]].
      * apply Hoff; assumption.
      * cbn in Ht. exfalso. apply Hfresh. rewrite Ht. exact Hin.
  - apply revoked_map; [intros; apply deactivate_row_revokes | exact Hrev].
  - apply revoked_map; [intros; apply touch_row_revokes | exact Hrev].
  - destruct (Sql.select_session session_token0 db) as [[s u] |];
      (apply revoked_map; [intros; apply deactivate_row_revokes | exact Hrev]).
Qed.

Lemma history_keeps_revoked session_token evs :
  forall db, revoked session_token db ->
             revoked session_token (execute_all db evs).
Proof.
  induction evs as [| ev evs IH]; cbn; intros db H; [exact H |].
  apply IH. destruct ev as [[env f] rq].
  destruct (step_effect db env f rq) as (r & _ & Heff).
  eapply effect_keeps_revoked; eauto.
Qed.

Lemma revoked_is_refused env f db session_token :
  revoked session_token db ->
  succeeded (fst (step db (env, f, ValidateSession session_token))) = false.
Proof.
  intros [_ Hoff].
  destruct (succeeded (fst (step db (env, f, ValidateSession session_token))))
    eqn:E; [exfalso | reflexivity].
  apply SessionValidation.validation_success in E.
  destruct E as (s & u & Hsel & _).
  apply SessionValidation.select_session_matches in Hsel.
  destruct Hsel as (Hin & Ht & Hact & _).
  rewrite (Hoff s Hin Ht) in Hact. discriminate.
Qed.

Lemma deactivate_revokes session_token db :
  In session_token (map Session.session_token (user_sessions db)) ->
  revoked session_token (Sql.deactivate_session session_token db).
Proof.
  intros Hin. split; cbn [user_sessions Sql.deactivate_session
                          with_user_sessions].
  - rewrite StoreInvariants.map_deactivate_session_token. exact Hin.
  - intros s Hs Ht. apply in_map_iff in Hs. destruct Hs as (x & <- & Hx).
    unfold Sql.deactivate_session_row in *.
    destruct (String.eqb_spec (Session.session_token x) session_token);
      [reflexivity | contradiction].
Qed.

(** X5: logout is final, and so is expiry.  Once [logout_user] has run for a
    stored token, or [validate_session] has found its session expired (all
    database calls succeeding), [validate_session] refuses that token after
    every later history of requests, whatever the inputs, the clock and the
    faults: no request reactivates a session, and a stored token cannot be
    issued again. *)
Theorem revoked_token_never_validates :
  forall (env env' : environment) (f' : nat -> bool) (db : database)
         (session_token : string) (evs : list event),
    In session_token (map Session.session_token (user_sessions db)) ->
    succeeded
      (fst (step (execute_all
                    (snd (step db (env, reliable, LogoutUser session_token)))
                    evs)
                 (env', f', ValidateSession session_token))) = false
    /\ (forall s u,
           Sql.select_session session_token db = Some (s, u) ->
           now env > Session.expires_at s ->
           succeeded
             (fst (step (execute_all
                           (snd (step db (env, reliable,
                                          ValidateSession session_token)))
                           evs)
                        (env', f', ValidateSession session_token))) = false).
Proof.
  intros env env' f' db session_token evs Hin. split.
  - apply revoked_is_refused, history_keeps_revoked.
    rewrite ReliableRuns.reliable_logout. cbn [snd].
    pose proof (deactivate_revokes session_token db Hin) as Hrev.
    destruct (Sql.select_session session_token db) as [[s u] |]; exact Hrev.
  - intros s u Hsel Hexp.
    apply revoked_is_refused, history_keeps_revoked.
    rewrite (SessionValidation.reliable_session_expired env db session_token
               s u Hsel Hexp). cbn [snd].
    apply deactivate_revokes. exact Hin.
Qed.

Lemma revoked_token_never_validates_witness :
  In "token-1" (map Session.session_token (user_sessions Demo.logged_in))
  /\ succeeded
       (fst (step (execute_all
                     (snd (step Demo.logged_in
                                (Demo.later, reliable, LogoutUser "token-1")))
                     [Demo.reissue_bob; Demo.verify_bob_again])
                  (Demo.later, reliable, ValidateSession "token-1"))) = false
  /\ (exists s u,
         Sql.select_session "token-1" Demo.logged_in = Some (s, u)
         /\ now Clinic.next_day > Session.expires_at s
         /\ succeeded
              (fst (step (execute_all
                            (snd (step Demo.logged_in
                                       (Clinic.next_day, reliable,
                                        ValidateSession "token-1")))
                            [Demo.reissue_bob])
                         (Demo.morning, reliable, ValidateSession "token-1")))
            = false).
Proof.
  assert (Hin : In "token-1"
                   (map Session.session_token (user_sessions Demo.logged_in)))
    by (left; reflexivity).
  split; [exact Hin |].
  destruct (revoked_token_never_validates Demo.later Demo.later reliable
              Demo.logged_in "token-1"
              [Demo.reissue_bob; Demo.verify_bob_again] Hin) as [H _].
  split; [exact H |].
  destruct (revoked_token_never_validates Clinic.next_day Demo.morning reliable
              Demo.logged_in "token-1" [Demo.reissue_bob] Hin) as [_ H'].
  destruct (Sql.select_session "token-1" Demo.logged_in) as [[s u] |] eqn:E;
    [| vm_compute in E; discriminate].
  exists s, u. split; [reflexivity |].
  assert (Hexp : now Clinic.next_day > Session.expires_at s).
  { pose proof E as E'. vm_compute in E'. inversion E'. vm_compute.
    reflexivity. }
  split; [exact Hexp |].
  exact (H' s u eq_refl Hexp).
Defined.

End Revocation.

(* ===================================================================== *)
(** * Verification of an address that never registered *)
(* ===================================================================== *)

Module Unregistered.
Import EnterpriseAuth AuthEffects AuthSpec AuthFacts StoreSpec.

(** X6: [verify_otp] for an address without a user row.  With the right,
    unexpired code and fewer than three failed attempts, the call fails and,
    because that branch returns without [commit], leaves the store exactly
    as it was under every fault schedule: the OTP stays unused and its
    counter unchanged.  With every database call succeeding the answer is
    "User not found. Please register first.". *)
Theorem unregistered_address_keeps_its_code :
  forall (env : environment) (f : nat -> bool) (db : database)
         (email otp_code : string) (row : Otp.t),
    Sql.select_otp (Py.lower email) otp_code db = Some row ->
    now env <= Otp.expires_at row ->
    Otp.attempts row < 3 ->
    Sql.select_user_by_email (Py.lower email) db = None ->
    succeeded (fst (step db (env, f, VerifyOtp email otp_code))) = false
    /\ snd (step db (env, f, VerifyOtp email otp_code)) = db
    /\ step db (env, reliable, VerifyOtp email otp_code)
       = (Returned (Response.failure "User not found. Please register first."),
          db).
Proof.
  intros env f db email otp_code row Hsel Hexp Hatt Hu.
  assert (Heffect : forall r db',
             effect env (VerifyOtp email otp_code) db r db' ->
             Response.success r = false /\ db' = db).
  { intros r db' Heff.
    inversion Heff; subst;
      repeat match goal with
             | H : Sql.select_otp _ _ _ = Some ?x |- _ =>
                 lazymatch x with
                 | row => fail
                 | _ => assert (x = row) by congruence; subst x; clear H
                 end
             end;
      try (split; [assumption | reflexivity]);
      try congruence; try lia.
    exfalso.
    match goal with
    | H : Sql.select_user_by_email _ (Sql.mark_otp_used _ _) = Some _ |- _ =>
        unfold Sql.select_user_by_email in H; cbn in H;
        unfold Sql.select_user_by_email in Hu; congruence
    end. }
  destruct (step_effect db env f (VerifyOtp email otp_code))
    as (r & Hstep & Heff).
  destruct (Heffect _ _ Heff) as [Hr Hdb].
  split; [| split].
  - rewrite Hstep. exact Hr.
  - exact Hdb.
  - apply (ReliableRuns.reliable_unregistered env db email otp_code row);
      assumption.
Qed.

Lemma unregistered_address_keeps_its_code_witness :
  Sql.select_otp (Py.lower Demo.bob) "123456" Demo.issued_unregistered
  = Some (Otp.mk 1 Demo.bob "123456" 1000 600001000 false 0)
  /\ Sql.select_user_by_email (Py.lower Demo.bob) Demo.issued_unregistered
     = None
  /\ step Demo.issued_unregistered Demo.verify_bob
     = (Returned (Response.failure "User not found. Please register first."),
        Demo.issued_unregistered).
Proof.
  split; [reflexivity |]. split; [reflexivity |].
  destruct (unregistered_address_keeps_its_code Demo.morning reliable
              Demo.issued_unregistered Demo.bob "123456"
              (Otp.mk 1 Demo.bob "123456" 1000 600001000 false 0)
              eq_refl ltac:(cbn; lia) ltac:(cbn; lia) eq_refl)
    as (_ & _ & H).
  exact H.
Defined.

End Unregistered.

(* ===================================================================== *)
(** * Wrong codes and the attempt counter *)
(* ===================================================================== *)

Module Lockout.
Import EnterpriseAuth AuthEffects AuthSpec AuthFacts AttemptSpec.

Lemma filter_map_inv {A} (p : A -> bool) (g : A -> A) l :
  (forall x, p (g x) = p x) -> filter p (map g l) = map g (filter p l).
Proof.
  intros Hp. induction l as [| x l IH]; cbn; [reflexivity |].
  rewrite Hp. destruct (p x); cbn; rewrite IH; reflexivity.
Qed.

Lemma newest_map (g : Otp.t -> Otp.t) l :
  (forall x, Otp.created_at (g x) = Otp.created_at x) ->
  Sql.newest (map g l) = option_map g (Sql.newest l).
Proof.
  intros Hg. induction l as [| x l IH]; cbn; [reflexivity |].
  rewrite IH. destruct (Sql.newest l) as [r |]; cbn; [| reflexivity].
  rewrite !Hg. destruct (_ >? _); reflexivity.
Qed.

(** A wrong code leaves every query of [verify_otp] with the same row, its
    counter apart. *)
Lemma select_otp_counted email otp_code counted db :
  Sql.select_otp email otp_code (Sql.increment_attempts counted db)
  = option_map (Sql.count_row counted) (Sql.select_otp email otp_code db).
Proof.
  unfold Sql.select_otp, Sql.increment_attempts. cbn [otp_codes with_otp_codes].
  rewrite filter_map_inv.
  - apply newest_map. intros x. unfold Sql.count_row.
    destruct (_ && _); reflexivity.
  - intros x. unfold Sql.count_row.
    destruct (String.eqb (Otp.email x) counted && negb (Otp.is_used x));
      reflexivity.
Qed.

Lemma wrong_codes_count email otp_code guesses :
  forall db row,
    Sql.select_otp (Py.lower email) otp_code db = Some row ->
    Forall (fun g => Sql.select_otp (Py.lower email) (snd g) db = None)
           guesses ->
    exists row',
      Sql.select_otp (Py.lower email) otp_code
                     (execute_all db (tries email guesses)) = Some row'
      /\ same_otp row row'
      /\ Otp.attempts row'
         = Otp.attempts row + Z.of_nat (List.length guesses).
Proof.
  induction guesses as [| [env g] guesses IH]; intros db row Hsel Hwrong.
  - exists row. cbn. split; [exact Hsel |].
    split; [apply OtpTable.same_otp_refl | lia].
  - inversion Hwrong as [| ? ? Hg Hrest]; subst. cbn [snd] in Hg.
    cbn [tries map execute_all fst snd].
    rewrite (Verification.reliable_wrong_code env db email g Hg). cbn [snd].
    destruct (select_otp_Some _ _ _ _ Hsel) as (_ & He & _ & Hu).
    destruct (IH (Sql.increment_attempts (Py.lower email) db)
                 (Otp.add_attempt row)) as (row' & Hsel' & Hsame & Hatt).
    + rewrite select_otp_counted, Hsel. cbn. unfold Sql.count_row.
      rewrite He, String.eqb_refl, Hu. reflexivity.
    + apply Forall_forall. intros x Hx. rewrite select_otp_counted.
      rewrite Forall_forall in Hrest. rewrite (Hrest x Hx). reflexivity.
    + exists row'. split; [exact Hsel' |]. split.
      * destruct Hsame as (H1 & H2 & H3 & H4 & H5). cbn in *.
        repeat split; assumption.
      * rewrite Hatt. cbn [Otp.attempts Otp.add_attempt List.length]. lia.
Qed.

(** X7: wrong codes add up.  While an address holds an unused code, every
    [verify_otp] with a code for which it holds no unused row raises the
    counter of that code by one and changes nothing else about it; once
    three or more attempts are recorded, [verify_otp] with the right code,
    even before expiry, does not log in under any fault schedule, and with
    every database call succeeding it answers "Too many failed attempts"
    and marks the code used. *)
Theorem wrong_codes_lock_the_right_one :
  forall (env : environment) (f : nat -> bool) (db : database)
         (email otp_code : string) (row : Otp.t)
         (guesses : list (environment * string)),
    Sql.select_otp (Py.lower email) otp_code db = Some row ->
    Forall (fun g => Sql.select_otp (Py.lower email) (snd g) db = None)
           guesses ->
    exists row',
      Sql.select_otp (Py.lower email) otp_code
                     (execute_all db (tries email guesses)) = Some row'
      /\ same_otp row row'
      /\ Otp.attempts row'
         = Otp.attempts row + Z.of_nat (List.length guesses)
      /\ (Otp.attempts row + Z.of_nat (List.length guesses) >= 3 ->
          now env <= Otp.expires_at row ->
          succeeded (fst (step (execute_all db (tries email guesses))
                               (env, f, VerifyOtp email otp_code))) = false
          /\ step (execute_all db (tries email guesses))
                  (env, reliable, VerifyOtp email otp_code)
             = (Returned
                  (Response.failure
                     "Too many failed attempts. Please request a new OTP."),
                Sql.mark_otp_used (Otp.id row)
                  (execute_all db (tries email guesses)))).
Proof.
  intros env f db email otp_code row guesses Hsel Hwrong.
  destruct (wrong_codes_count email otp_code guesses db row Hsel Hwrong)
    as (row' & Hsel' & Hsame & Hatt).
  exists row'. repeat (split; [assumption |]).
  intros Hmany Hfresh.
  pose proof Hsame as (Hid & _ & _ & _ & Hexp).
  split.
  - destruct (Verification.verify_without_login env f _ email otp_code row'
                Hsel') as (r & Hstep & Hr & _); [right; lia |].
    rewrite Hstep. exact Hr.
  - rewrite <- Hid.
    apply Verification.reliable_locked; [exact Hsel' | lia | lia].
Qed.

Lemma wrong_codes_lock_the_right_one_witness :
  exists row',
    Sql.select_otp (Py.lower Demo.bob) "123456"
                   (execute_all Demo.issued (tries Demo.bob Clinic.guesses))
    = Some row'
    /\ Otp.attempts row' = 3
    /\ step (execute_all Demo.issued (tries Demo.bob Clinic.guesses))
            (Demo.morning, reliable, VerifyOtp Demo.bob "123456")
       = (Returned
            (Response.failure
               "Too many failed attempts. Please request a new OTP."),
          Sql.mark_otp_used 1
            (execute_all Demo.issued (tries Demo.bob Clinic.guesses))).
Proof.
  destruct (wrong_codes_lock_the_right_one Demo.morning reliable Demo.issued
              Demo.bob "123456"
              (Otp.mk 1 Demo.bob "123456" 1000 600001000 false 0)
              Clinic.guesses eq_refl
              ltac:(repeat constructor))
    as (row' & Hsel & _ & Hatt & Hlock).
  exists row'. split; [exact Hsel |]. split; [exact Hatt |].
  destruct (Hlock ltac:(cbn; lia) ltac:(cbn; lia)) as [_ H].
  exact H.
Defined.

End Lockout.

(* ===================================================================== *)
(** * The OTP rows of the other addresses *)
(* ===================================================================== *)

Module Isolation.
Import EnterpriseAuth AuthEffects AuthSpec AuthFacts AttemptSpec.

Lemma others_map email (g : Otp.t -> Otp.t) l :
  (forall x, Otp.email (g x) = Otp.email x) ->
  (forall x, In x l -> Otp.email x <> email -> g x = x) ->
  rows_of_others email (map g l) = rows_of_others email l.
Proof.
  intros He Hg. unfold rows_of_others.
  induction l as [| x l IH]; cbn [map filter]; [reflexivity |].
  rewrite He, IH by (intros y Hy; apply Hg; right; exact Hy).
  destruct (String.eqb_spec (Otp.email x) email) as [| Hne]; cbn [negb];
    [reflexivity |].
  rewrite (Hg x (or_introl eq_refl) Hne). reflexivity.
Qed.

Lemma others_snoc email l row :
  Otp.email row = email ->
  rows_of_others email (l ++ [row]) = rows_of_others email l.
Proof.
  intros He. unfold rows_of_others. rewrite filter_app. cbn.
  rewrite He, String.eqb_refl. cbn. apply app_nil_r.
Qed.

Lemma shape_others env rq r db l' :
  unique_otp_ids db ->
  shape env rq r db l' ->
  match otp_address rq with
  | Some email => rows_of_others email l' = rows_of_others email (otp_codes db)
  | None => l' = otp_codes db
  end.
Proof.
  intros Hids H. destruct H as [| email -> | email otp_code -> Hsel Hr
                                | email otp_code row -> Hsel Hr].
  - destruct (otp_address rq); reflexivity.
  - cbn. rewrite others_snoc by reflexivity. apply others_map.
    + intros x. unfold Sql.deactivate_row. destruct (_ && _); reflexivity.
    + intros x _ Hx. unfold Sql.deactivate_row.
      destruct (String.eqb_spec (Otp.email x) (Py.lower email));
        [contradiction | reflexivity].
  - cbn. apply others_map.
    + intros x. unfold Sql.count_row. destruct (_ && _); reflexivity.
    + intros x _ Hx. unfold Sql.count_row.
      destruct (String.eqb_spec (Otp.email x) (Py.lower email));
        [contradiction | reflexivity].
  - cbn. destruct (select_otp_Some _ _ _ _ Hsel) as (Hin & He & _).
    apply others_map.
    + intros x. unfold Sql.mark_row. destruct (_ =? _); reflexivity.
    + intros x Hx Hne. unfold Sql.mark_row.
      destruct (Z.eqb_spec (Otp.id x) (Otp.id row)) as [Hid |];
        [| reflexivity].
      exfalso. apply Hne.
      rewrite (unique_id_row db x row Hids Hx Hin Hid). exact He.
Qed.

(** X8: one address at a time.  In every store that requests can reach,
    a [generate_otp] or [verify_otp] for one address leaves the OTP rows of
    every other address exactly as they were, whatever its outcome and
    whatever faults occur; and registration, session validation and logout
    leave the whole OTP table as it was. *)
Theorem otp_requests_touch_one_address :
  forall (env0 env : environment) (evs : list event) (f : nat -> bool)
         (rq : request),
    match otp_address rq with
    | Some email =>
        rows_of_others email
          (otp_codes (snd (step (execute_all (initial_database env0) evs)
                                (env, f, rq))))
        = rows_of_others email
            (otp_codes (execute_all (initial_database env0) evs))
    | None =>
        otp_codes (snd (step (execute_all (initial_database env0) evs)
                             (env, f, rq)))
        = otp_codes (execute_all (initial_database env0) evs)
    end.
Proof.
  intros env0 env evs f rq.
  destruct (Reachable.step_shape (execute_all (initial_database env0) evs)
              env f rq) as (r & _ & Hshape & _).
  apply (shape_others env rq r _ _); [| exact Hshape].
  apply Reachable.execute_all_unique_ids, Reachable.initial_unique_ids.
Qed.

End Isolation.

(* ===================================================================== *)
(** * The answer of [generate_otp] and the mail *)
(* ===================================================================== *)

Module MailOutcome.
Import EnterpriseAuth AuthEffects AuthSpec AuthFacts StoreSpec.

Lemma initial_select_company env0 typed :
  Sql.select_company typed (initial_database env0)
  = if String.eqb "hhamedicine.com" typed
    then Some (Company.mk 1 "hhamedicine.com" "HHA Medicine"
                          "admin@hhamedicine.com" None 587 None None true
                          (current_timestamp env0))
    else if String.eqb "hssmedicine.com" typed
         then Some (Company.mk 2 "hssmedicine.com" "HSS Medicine"
                               "admin@hssmedicine.com" None 587 None None true
                               (current_timestamp env0))
         else None.
Proof.
  unfold Sql.select_company.
  change (company_settings (initial_database env0))
    with [Company.mk 1 "hhamedicine.com" "HHA Medicine"
                     "admin@hhamedicine.com" None 587 None None true
                     (current_timestamp env0);
          Company.mk 2 "hssmedicine.com" "HSS Medicine"
                     "admin@hssmedicine.com" None 587 None None true
                     (current_timestamp env0)].
  cbn [find Company.domain Company.is_active].
  rewrite !andb_true_r. reflexivity.
Qed.

Lemma lowercase_domain_found env0 typed :
  Py.mem (Py.lower typed) ALLOWED_DOMAINS = true ->
  (exists company,
      Sql.select_company typed (initial_database env0) = Some company)
  <-> typed = Py.lower typed.
Proof.
  intros Hm. rewrite initial_select_company. split.
  - intros (company & H).
    destruct (String.eqb_spec "hhamedicine.com" typed) as [<- | _];
      [reflexivity |].
    destruct (String.eqb_spec "hssmedicine.com" typed) as [<- | _];
      [reflexivity | discriminate].
  - intros Hlow. rewrite <- Hlow in Hm. unfold ALLOWED_DOMAINS in Hm.
    cbn [Py.mem] in Hm.
    destruct (String.eqb_spec "hhamedicine.com" typed); [eauto |].
    destruct (String.eqb_spec "hssmedicine.com" typed); [eauto |].
    exfalso. revert Hm. unfold Py.mem. cbn.
    rewrite (String.eqb_sym typed "hhamedicine.com").
    rewrite (String.eqb_sym typed "hssmedicine.com").
    destruct (String.eqb_spec "hhamedicine.com" typed); [contradiction |].
    destruct (String.eqb_spec "hssmedicine.com" typed); [contradiction |].
    discriminate.
Qed.

(** X9: the answer of [generate_otp] tells about the mail, not about the
    code.  In every reachable store, for an address that passes the domain
    check, [generate_otp] (all calls succeeding) commits the new code,
    which the query of [verify_otp] then selects, whatever it answers; it
    answers "OTP sent" exactly when the domain was typed in lowercase, and
    otherwise "Failed to send OTP email. Please try again.", because
    [send_otp_email] looks the company up by the domain as typed. *)
Theorem generate_otp_answer_follows_the_mail :
  forall (env0 env : environment) (evs : list event)
         (email domain typed : string),
    validate_email_domain email = (true, domain) ->
    nth_error (Py.split "@" email) 1 = Some typed ->
    step (execute_all (initial_database env0) evs)
         (env, reliable, GenerateOtp email)
    = (Returned
         (if String.eqb typed domain
          then Response.mk true
                 (Some ("OTP sent to " ++ email ++ ". Valid for "
                        ++ Py.str_nonneg OTP_EXPIRY_MINUTES ++ " minutes."))
                 None (Some OTP_EXPIRY_MINUTES) None None
          else Response.failure "Failed to send OTP email. Please try again."),
       after_issue env (execute_all (initial_database env0) evs) email)
    /\ Sql.select_otp (Py.lower email)
         (Py.format_06d (randbelow env + 100000))
         (after_issue env (execute_all (initial_database env0) evs) email)
       = Some (issued_row env (execute_all (initial_database env0) evs) email).
Proof.
  intros env0 env evs email domain typed Hv Ht.
  split; [| apply LoginFlow.select_issued].
  rewrite (ReliableRuns.reliable_generate env _ email domain typed Hv Ht).
  f_equal. f_equal.
  destruct (HappyPath.validated_has_domain email domain Hv)
    as (typed' & Ht' & Hd & Hm).
  assert (typed' = typed) by congruence. subst typed'.
  rewrite (StoreInvariants.select_company_same (initial_database env0) _ typed
             (StoreInvariants.execute_all_companies evs _)).
  rewrite Hd in Hm.
  pose proof (lowercase_domain_found env0 typed Hm) as Hiff.
  destruct (String.eqb_spec typed domain) as [Heq | Hne].
  - destruct (proj2 Hiff) as (company & ->); [congruence | reflexivity].
  - destruct (Sql.select_company typed (initial_database env0)) eqn:E;
      [| reflexivity].
    exfalso. apply Hne. rewrite Hd. apply Hiff. eauto.
Qed.

Lemma generate_otp_answer_follows_the_mail_witness :
  validate_email_domain Clinic.dave = (true, "hssmedicine.com")
  /\ fst (step Demo.issued (Demo.later, reliable, GenerateOtp Clinic.dave))
     = Returned
         (Response.failure "Failed to send OTP email. Please try again.")
  /\ Sql.select_otp (Py.lower Clinic.dave)
       (Py.format_06d (randbelow Demo.later + 100000))
       (snd (step Demo.issued (Demo.later, reliable, GenerateOtp Clinic.dave)))
     = Some (Otp.mk 2 "dave@hssmedicine.com" "123456" 1200001000 1800001000
                    false 0).
Proof.
  split; [reflexivity |].
  destruct (generate_otp_answer_follows_the_mail Demo.morning Demo.later
              [Demo.register_bob; Demo.issue_bob] Clinic.dave
              "hssmedicine.com" "HSSMedicine.com" eq_refl eq_refl)
    as [Hstep Hsel].
  change (execute_all (initial_database Demo.morning)
            [Demo.register_bob; Demo.issue_bob]) with Demo.issued in *.
  rewrite Hstep. split; [reflexivity |]. cbn [snd].
  rewrite Hsel. vm_compute. reflexivity.
Defined.

End MailOutcome.

(* ===================================================================== *)
(** * Opening an existing database *)
(* ===================================================================== *)

Module Reopen.
Import EnterpriseAuth AuthFacts StoreSpec ReopenSpec.

(** The constructor either completes and commits the default companies,
    or raises with the store as it found it. *)
Lemma init_paths env db f n :
  match __init__ env (World db f n) with
  | (Returned _, w') => store w' = with_default_companies env db
  | (Raised _, w') => store w' = db
  end.
Proof.
  run_method.
  cbv beta iota zeta delta [_setup_default_companies fold_left].
  run_method. repeat split_path; reflexivity.
Qed.

Lemma insert_or_ignore_adds env domain name admin db :
  only_companies_added db
    (Sql.insert_or_ignore_company env domain name admin db).
Proof.
  unfold only_companies_added, Sql.insert_or_ignore_company.
  destruct (existsb _ _); cbn; repeat split; try reflexivity.
  - exists []. symmetry. apply app_nil_r.
  - eexists. reflexivity.
Qed.

Lemma only_companies_added_trans db1 db2 db3 :
  only_companies_added db1 db2 -> only_companies_added db2 db3 ->
  only_companies_added db1 db3.
Proof.
  intros (H1 & H2 & H3 & H4 & a & H5) (K1 & K2 & K3 & K4 & b & K5).
  repeat split; try congruence.
  exists (a ++ b)%list. rewrite K5, H5. symmetry. apply app_assoc.
Qed.

Lemma only_companies_added_refl db : only_companies_added db db.
Proof.
  repeat split. exists []. symmetry. apply app_nil_r.
Qed.

Lemma insert_or_ignore_has env domain name admin db :
  In domain
     (map Company.domain
        (company_settings
           (Sql.insert_or_ignore_company env domain name admin db))).
Proof.
  unfold Sql.insert_or_ignore_company.
  destruct (existsb _ _) eqn:E.
  - apply existsb_exists in E. destruct E as (c & Hc & He).
    apply String.eqb_eq in He. rewrite <- He. apply in_map. exact Hc.
  - cbn. rewrite map_app. apply in_or_app. right. left. reflexivity.
Qed.

Lemma insert_or_ignore_present env domain name admin db :
  In domain (map Company.domain (company_settings db)) ->
  Sql.insert_or_ignore_company env domain name admin db = db.
Proof.
  intros Hin. unfold Sql.insert_or_ignore_company.
  destruct (existsb _ _) eqn:E; [reflexivity |].
  exfalso. apply in_map_iff in Hin. destruct Hin as (c & Hc & Hin).
  assert (existsb (fun c0 => String.eqb (Company.domain c0) domain)
                  (company_settings db) = true).
  { apply existsb_exists. exists c. split; [exact Hin |].
    apply String.eqb_eq. exact Hc. }
  congruence.
Qed.

Lemma default_companies_present env db :
  (forall domain, In domain ALLOWED_DOMAINS ->
                  In domain (map Company.domain (company_settings db))) ->
  with_default_companies env db = db.
Proof.
  intros H. unfold with_default_companies.
  rewrite (insert_or_ignore_present env "hhamedicine.com")
    by (apply H; left; reflexivity).
  apply insert_or_ignore_present. apply H. right. left. reflexivity.
Qed.

(** X10: opening an existing database loses nothing.  Whatever store the
    constructor finds and whatever faults occur, [init_database] leaves the
    users, the OTP rows, the sessions and the audit log as they are and
    only appends company rows; when it returns, a row of each allowed
    domain is there; when it raises, the store is as it was found; and on
    every store that requests can reach it changes nothing at all. *)
Theorem reopening_keeps_the_data :
  forall (env : environment) (f : nat -> bool) (db : database),
    only_companies_added db (snd (run (__init__ env) f db))
    /\ (forall e, fst (run (__init__ env) f db) = Raised e ->
                  snd (run (__init__ env) f db) = db)
    /\ (fst (run (__init__ env) f db) = Returned tt ->
        forall domain, In domain ALLOWED_DOMAINS ->
          In domain
             (map Company.domain
                (company_settings (snd (run (__init__ env) f db)))))
    /\ (forall env0 evs,
           db = execute_all (initial_database env0) evs ->
           snd (run (__init__ env) f db) = db).
Proof.
  intros env f db. pose proof (init_paths env db f 0) as H.
  unfold run. destruct (__init__ env (World db f 0)) as [[[] | e] w'];
    cbn [fst snd]; rewrite H; clear H.
  - split; [| split; [| split]].
    + eapply only_companies_added_trans; apply insert_or_ignore_adds.
    + intros e He. discriminate.
    + intros _ domain [<- | [<- | []]].
      * unfold with_default_companies.
        destruct (insert_or_ignore_adds env "hssmedicine.com" "HSS Medicine"
                    "admin@hssmedicine.com"
                    (Sql.insert_or_ignore_company env "hhamedicine.com"
                       "HHA Medicine" "admin@hhamedicine.com" db))
          as (_ & _ & _ & _ & added & ->).
        rewrite map_app. apply in_or_app. left. apply insert_or_ignore_has.
      * apply insert_or_ignore_has.
    + intros env0 evs ->. apply default_companies_present.
      intros domain Hd.
      rewrite StoreInvariants.execute_all_companies.
      destruct Hd as [<- | [<- | []]]; [left | right; left]; reflexivity.
  - split; [apply only_companies_added_refl |].
    split; [reflexivity |]. split; [discriminate | reflexivity].
Qed.

Lemma reopening_keeps_the_data_witness :
  fst (run (__init__ Demo.later) (fails_at 3) Demo.issued)
  = Raised DatabaseError
  /\ snd (run (__init__ Demo.later) (fails_at 3) Demo.issued) = Demo.issued
  /\ fst (run (__init__ Demo.later) reliable Demo.issued) = Returned tt
  /\ snd (run (__init__ Demo.later) reliable Demo.issued) = Demo.issued.
Proof.
  assert (Hraised : fst (run (__init__ Demo.later) (fails_at 3) Demo.issued)
                    = Raised DatabaseError) by (vm_compute; reflexivity).
  destruct (reopening_keeps_the_data Demo.later (fails_at 3) Demo.issued)
    as (_ & Hsame & _ & _).
  destruct (reopening_keeps_the_data Demo.later reliable Demo.issued)
    as (_ & _ & _ & Hreach).
  split; [exact Hraised |].
  split; [exact (Hsame DatabaseError Hraised) |].
  split; [vm_compute; reflexivity |].
  exact (Hreach Demo.morning [Demo.register_bob; Demo.issue_bob] eq_refl).
Defined.

End Reopen.

(* ===================================================================== *)
(** * Faults and partial updates *)
(* ===================================================================== *)

Module Atomicity.
Import EnterpriseAuth AuthEffects AuthSpec AuthFacts StoreSpec.

(** Whatever a request commits is what its fault-free run commits. *)
Lemma effect_is_the_reliable_one env rq db r db' :
  effect env rq db r db' ->
  db' = db \/ db' = snd (step db (env, reliable, rq)).
Proof.
  intros H. destruct H.
  - left. reflexivity.
  - right.
    match goal with
    | Hv : validate_email_domain _ = _, Hc : Sql.select_company _ _ = _,
      Hu : Sql.select_user_by_email _ _ = None |- _ =>
        rewrite (ReliableRuns.reliable_register env db email full_name
                   department domain company Hv Hc Hu)
    end.
    match goal with
    | Hi : Sql.insert_user _ _ _ _ _ _ = Some _ |- _ =>
        apply StoreInvariants.insert_user_spec in Hi; destruct Hi as [-> _]
    end.
    rewrite ReliableRuns.lastrowid_after_insert. reflexivity.
  - right.
    match goal with
    | Hv : validate_email_domain _ = _ |- _ =>
        rewrite (LoginFlow.generate_commits env db email domain Hv)
    end. reflexivity.
  - right. rewrite Verification.reliable_wrong_code by assumption.
    reflexivity.
  - right. erewrite Verification.reliable_expired by eassumption.
    reflexivity.
  - right. erewrite Verification.reliable_locked by eassumption.
    reflexivity.
  - right. erewrite ReliableRuns.reliable_login by eassumption.
    reflexivity.
  - right. erewrite SessionValidation.reliable_session_expired by eassumption.
    reflexivity.
  - right. erewrite SessionValidation.reliable_valid by eassumption.
    reflexivity.
  - right. rewrite ReliableRuns.reliable_logout. reflexivity.
Qed.

(** X11: a fault never leaves half an update.  For every request, input,
    store and fault schedule, the store after the call is either the store
    before it or exactly the store that the same call, on the same store
    and with the same clock and random draws, leaves when nothing fails. *)
Theorem faults_leave_no_partial_update :
  forall (env : environment) (f : nat -> bool) (rq : request)
         (db : database),
    snd (step db (env, f, rq)) = db
    \/ snd (step db (env, f, rq)) = snd (step db (env, reliable, rq)).
Proof.
  intros env f rq db.
  destruct (step_effect db env f rq) as (r & _ & Heff).
  exact (effect_is_the_reliable_one env rq db r _ Heff).
Qed.

End Atomicity.

(* ===================================================================== *)
(** * The answers of the backend's authentication endpoints *)
(* ===================================================================== *)

Module BackendAnswers.
Import Backend BackendSpec BackendFacts HttpSpec Gateway.




End BackendAnswers.

(* ===================================================================== *)
(** * Logging out of the backend *)
(* ===================================================================== *)

Module BackendLogout.
Import Backend BackendSpec BackendFacts HttpSpec.

Lemma find_all_false {A} (p : A -> bool) l :
  (forall x, In x l -> p x = false) -> find p l = None.
Proof.
  induction l as [| x l IH]; cbn; intros H; [reflexivity |].
  rewrite (H x (or_introl eq_refl)). apply IH. intros y Hy. apply H.
  right. exact Hy.
Qed.

Lemma find_holds {A} (p : A -> bool) l x : find p l = Some x -> p x = true.
Proof. intros H. apply find_some in H. apply H. Qed.

(** What a logout that answers has done. *)
Lemma logout_paths env db f n token :
  match perform env (Logout token) (World db f n) with
  | (Returned _, w') =>
      exists s u,
        Q.live_session token (now env) db = Some s
        /\ UserDoc._id u = SessionDoc.user_id s
        /\ store w' = Q.deactivate_sessions_of (UserDoc._id u)
                        (Q.touch_session token (now env) db)
  | (Raised _, _) => True
  end.
Proof.
  run_endpoint. repeat split_endpoint; try exact I.
  match goal with
  | Hs : Q.live_session _ _ _ = Some ?s, Hu : Q.user_by_id _ _ = Some ?u
    |- _ => exists s, u; split; [reflexivity |]; split; [| reflexivity];
            apply find_holds in Hu; apply String.eqb_eq in Hu; exact Hu
  end.
Qed.

Lemma logout_returns env f db token a db' :
  step db (env, f, Logout token) = (Returned a, db') ->
  exists s u,
    Q.live_session token (now env) db = Some s
    /\ UserDoc._id u = SessionDoc.user_id s
    /\ db' = Q.deactivate_sessions_of (UserDoc._id u)
               (Q.touch_session token (now env) db).
Proof.
  pose proof (logout_paths env db f 0 token) as H.
  unfold step, run.
  destruct (perform env (Logout token) (World db f 0)) as [[r | e] w'];
    intros E; inversion E; subst. exact H.
Qed.

Lemma no_live_session_no_identity env f db token :
  Q.live_session token (now env) db = None ->
  fst (step db (env, f, Authenticated token)) = Raised authentication_failed.
Proof.
  intros H. run_endpoint. destruct (f 0%nat); [reflexivity |].
  run_endpoint. rewrite H. reflexivity.
Qed.

Lemma deactivated_are_inactive user_id db s :
  In s (sessions (Q.deactivate_sessions_of user_id db)) ->
  SessionDoc.user_id s = user_id -> SessionDoc.is_active s = false.
Proof.
  cbn. intros Hin Hu. apply in_map_iff in Hin. destruct Hin as (x & <- & _).
  destruct (String.eqb_spec (SessionDoc.user_id x) user_id) as [| Hne];
    [reflexivity |].
  exfalso. apply Hne. revert Hu.
  destruct (String.eqb_spec (SessionDoc.user_id x) user_id);
    [contradiction | auto].
Qed.

Lemma update_first_keeps {A B} (key : A -> B) (p : A -> bool) (g : A -> A) l :
  (forall x, key (g x) = key x) ->
  map key (update_first p g l) = map key l.
Proof.
  intros Hg. induction l as [| x l IH]; cbn; [reflexivity |].
  destruct (p x); cbn; [rewrite Hg | rewrite IH]; reflexivity.
Qed.

Lemma In_update_first {A} (p : A -> bool) (g : A -> A) l y :
  In y (update_first p g l) -> exists x, In x l /\ (y = x \/ y = g x).
Proof.
  induction l as [| x l IH]; cbn; [intros [] |].
  destruct (p x); cbn.
  - intros [<- | H]; [exists x; auto | exists y; auto].
  - intros [<- | H]; [exists x; auto |].
    destruct (IH H) as (z & Hz & Hy). exists z. auto.
Qed.

(** X13: a logout of the backend ends all sessions of the user.  When
    [logout] answers, under any fault schedule, every stored session of the
    user who owns the presented token is inactive, the one presented and
    all others; and from then on [validate_session] refuses, with 401
    "Authentication failed", every token whose sessions all belong to that
    user, whatever the clock and the faults. *)
Theorem backend_logout_ends_all_sessions :
  forall (env env' : environment) (f f' : nat -> bool) (db db' : mongo)
         (token token' : string) (a : answer),
    step db (env, f, Logout token) = (Returned a, db') ->
    exists s,
      Q.live_session token (now env) db = Some s
      /\ (forall s', In s' (sessions db') ->
                     SessionDoc.user_id s' = SessionDoc.user_id s ->
                     SessionDoc.is_active s' = false)
      /\ (token_of_user token' (SessionDoc.user_id s) db ->
          fst (step db' (env', f', Authenticated token'))
          = Raised authentication_failed).
Proof.
  intros env env' f f' db db' token token' a Hstep.
  destruct (logout_returns env f db token a db' Hstep)
    as (s & u & Hs & Hu & ->).
  exists s. split; [exact Hs |]. rewrite Hu. split.
  - intros s' Hin Hs'. eapply deactivated_are_inactive; eauto.
  - intros Hown. apply no_live_session_no_identity.
    unfold Q.live_session. apply find_all_false. intros s' Hin.
    destruct (String.eqb_spec (SessionDoc.session_token s') token')
      as [Ht |]; [| reflexivity].
    rewrite (deactivated_are_inactive _ _ s' Hin); [reflexivity |].
    (* the session was stored before, with the same token and user *)
    cbn in Hin. apply in_map_iff in Hin. destruct Hin as (x & Hx & Hin).
    apply In_update_first in Hin. destruct Hin as (y & Hy & Hxy).
    assert (Hsame : SessionDoc.session_token s' = SessionDoc.session_token y
                    /\ SessionDoc.user_id s' = SessionDoc.user_id y).
    { subst s'. destruct Hxy as [-> | ->];
        destruct (String.eqb (SessionDoc.user_id _) _); cbn; auto. }
    destruct Hsame as [Ht' Hu']. rewrite Hu'. apply Hown; [exact Hy |].
    congruence.
Qed.

Lemma backend_logout_ends_all_sessions_witness :
  exists s,
    Q.live_session "token-1" (now Demo.later) Ward.logged_in = Some s
    /\ fst (step (snd (step Ward.logged_in
                            (Demo.later, reliable, Logout "token-1")))
                 (Demo.later, reliable, Authenticated "token-1"))
       = Raised authentication_failed.
Proof.
  destruct (backend_logout_ends_all_sessions Demo.later Demo.later reliable
              reliable Ward.logged_in
              (snd (step Ward.logged_in
                         (Demo.later, reliable, Logout "token-1")))
              "token-1" "token-1"
              (Body (Reply.mk true "Logged out successfully" None None None
                              None))
              eq_refl) as (s & Hs & _ & Hrefused).
  exists s. split; [exact Hs |]. apply Hrefused.
  assert (E : SessionDoc.user_id s = "uuid-1").
  { pose proof Hs as Hs'. vm_compute in Hs'. inversion Hs'. reflexivity. }
  rewrite E. intros s' [<- | []] _. reflexivity.
Defined.

End BackendLogout.

(* ===================================================================== *)
(** * Codes that the backend refuses *)
(* ===================================================================== *)

Module BackendCodes.
Import Backend BackendSpec BackendFacts HttpSpec.

(** What [verify_otp_endpoint] does when its query finds no document. *)
Lemma verify_paths_without_match env db f n email otp_code :
  Q.valid_otp (Py.lower email) otp_code (now env) db = None ->
  match perform env (VerifyOtp email otp_code) (World db f n) with
  | (Returned _, _) => False
  | (Raised e, w') =>
      (e = HTTPException 500 "Login failed" /\ store w' = db)
      \/ (e = HTTPException 400 "Invalid or expired OTP"
          /\ store w' = Q.increment_attempts (Py.lower email) db)
  end.
Proof.
  intros H. run_endpoint. destruct (f n); run_endpoint; [auto |].
  rewrite H. run_endpoint. destruct (f (S n)); run_endpoint; auto.
Qed.

Lemma expired_do_not_match email otp_code utcnow db :
  (forall r, In r (otp_codes db) -> unused_match email otp_code r ->
             OtpDoc.expires_at r <= utcnow) ->
  Q.valid_otp email otp_code utcnow db = None.
Proof.
  intros H. unfold Q.valid_otp. apply BackendLogout.find_all_false.
  intros r Hin.
  destruct (String.eqb_spec (OtpDoc.email r) email) as [He |]; cbn;
    [| reflexivity].
  destruct (String.eqb_spec (OtpDoc.otp_code r) otp_code) as [Hc |]; cbn;
    [| reflexivity].
  destruct (OtpDoc.is_used r) eqn:Hu; cbn; [reflexivity |].
  specialize (H r Hin (conj He (conj Hc Hu))).
  rewrite Z.gtb_ltb. apply Z.ltb_ge. exact H.
Qed.

Lemma count_keeps_used email l :
  map OtpDoc.is_used (map (Q.count_doc email) l) = map OtpDoc.is_used l.
Proof.
  rewrite map_map. apply map_ext. intros r. unfold Q.count_doc.
  destruct (_ && _); reflexivity.
Qed.

(** X14: in the backend an expired code is refused but not spent.  When
    every unused document with the address and the code has expired (or
    there is none), [verify_otp_endpoint] never logs in, under any fault
    schedule; it changes neither users nor sessions and marks no OTP
    document used; and when the database calls succeed it raises 400
    "Invalid or expired OTP" and adds one to the attempts of every unused
    document of the address. *)
Theorem backend_expired_code_is_counted_not_spent :
  forall (env : environment) (f : nat -> bool) (db : mongo)
         (email otp_code : string),
    (forall r, In r (otp_codes db) ->
               unused_match (Py.lower email) otp_code r ->
               OtpDoc.expires_at r <= now env) ->
    logged_in (fst (step db (env, f, VerifyOtp email otp_code))) = false
    /\ users (snd (step db (env, f, VerifyOtp email otp_code))) = users db
    /\ sessions (snd (step db (env, f, VerifyOtp email otp_code)))
       = sessions db
    /\ map OtpDoc.is_used
           (otp_codes (snd (step db (env, f, VerifyOtp email otp_code))))
       = map OtpDoc.is_used (otp_codes db)
    /\ step db (env, reliable, VerifyOtp email otp_code)
       = (Raised (HTTPException 400 "Invalid or expired OTP"),
          Q.increment_attempts (Py.lower email) db).
Proof.
  intros env f db email otp_code Hexp.
  pose proof (expired_do_not_match _ _ _ _ Hexp) as Hnone.
  pose proof (verify_paths_without_match env db f 0 email otp_code Hnone)
    as Hf.
  pose proof (verify_paths_without_match env db reliable 0 email otp_code
                Hnone) as Hr.
  unfold step, run in *.
  destruct (perform env (VerifyOtp email otp_code) (World db f 0))
    as [[a | e] w']; [contradiction |].
  cbn [fst snd logged_in].
  split; [reflexivity |].
  assert (Hstore : store w' = db
                   \/ store w' = Q.increment_attempts (Py.lower email) db)
    by (destruct Hf as [[_ H] | [_ H]]; auto).
  repeat split.
  - destruct Hstore as [-> | ->]; reflexivity.
  - destruct Hstore as [-> | ->]; reflexivity.
  - destruct Hstore as [-> | ->]; [reflexivity |]. cbn.
    apply count_keeps_used.
  - clear Hf Hstore. revert Hr. run_endpoint. unfold reliable.
    rewrite Hnone. reflexivity.
Qed.

Lemma backend_expired_code_is_counted_not_spent_witness :
  Q.valid_otp (Py.lower Ward.ann) "123456" (now Demo.morning) Ward.issued
  = Some (OtpDoc.mk "uuid-1" Ward.ann "123456" 1000 600001000 false 0)
  /\ step Ward.issued (Demo.later, reliable, VerifyOtp Ward.ann "123456")
     = (Raised (HTTPException 400 "Invalid or expired OTP"),
        Q.increment_attempts (Py.lower Ward.ann) Ward.issued)
  /\ map OtpDoc.is_used
         (otp_codes (snd (step Ward.issued
                               (Demo.later, reliable,
                                VerifyOtp Ward.ann "123456"))))
     = [false].
Proof.
  split; [reflexivity |].
  assert (Hexp : forall r, In r (otp_codes Ward.issued) ->
                   unused_match (Py.lower Ward.ann) "123456" r ->
                   OtpDoc.expires_at r <= now Demo.later).
  { intros r [<- | []] _. cbn. lia. }
  destruct (backend_expired_code_is_counted_not_spent Demo.later reliable
              Ward.issued Ward.ann "123456" Hexp)
    as (_ & _ & _ & Hused & Hstep).
  split; [exact Hstep | exact Hused].
Defined.

(** ** A code presented before registration *)

Lemma update_first_drops db r :
  unique_otp_ids db -> In r (otp_codes db) -> OtpDoc.is_used r = false ->
  ~ In r (update_first (fun x => String.eqb (OtpDoc._id x) (OtpDoc._id r))
                       OtpDoc.set_used (otp_codes db)).
Proof.
  unfold unique_otp_ids. intros Hnd Hin Hu.
  induction (otp_codes db) as [| x l IH]; cbn; [auto |].
  inversion Hnd as [| ? ? Hfresh Hnd']; subst.
  destruct (String.eqb_spec (OtpDoc._id x) (OtpDoc._id r)) as [Hid | Hid].
  - intros [Hset | Hl].
    + rewrite <- Hset in Hu. discriminate.
    + apply Hfresh. rewrite Hid. apply in_map. exact Hl.
  - destruct Hin as [-> | Hin]; [contradiction |].
    intros [-> | Hl]; [contradiction |]. exact (IH Hnd' Hin Hl).
Qed.

Lemma live_after_use db email r :
  single_live db -> unique_otp_ids db ->
  In r (otp_codes db) -> OtpDoc.email r = email ->
  OtpDoc.is_used r = false ->
  live email
       (update_first (fun x => String.eqb (OtpDoc._id x) (OtpDoc._id r))
                     OtpDoc.set_used (otp_codes db)) = [].
Proof.
  intros Hs Hids Hin He Hu.
  destruct (live email (update_first _ _ (otp_codes db))) as [| y rest] eqn:E;
    [reflexivity | exfalso].
  assert (Hy : In y (live email
                       (update_first
                          (fun x => String.eqb (OtpDoc._id x) (OtpDoc._id r))
                          OtpDoc.set_used (otp_codes db))))
    by (rewrite E; left; reflexivity).
  unfold live in Hy. apply filter_In in Hy. destruct Hy as [Hyin Hb].
  apply andb_prop in Hb. destruct Hb as [Hye Hyu].
  apply negb_true_iff in Hyu.
  pose proof Hyin as Hstill.
  apply BackendLogout.In_update_first in Hyin.
  destruct Hyin as (x & Hx & [-> | ->]); [| cbn in Hyu; discriminate].
  assert (x = r).
  { eapply OtpInvariants.at_most_one; [exact (Hs email) | |].
    - unfold live. apply filter_In. split; [exact Hx |].
      rewrite Hye, Hyu. reflexivity.
    - unfold live. apply filter_In. split; [exact Hin |].
      rewrite He, String.eqb_refl, Hu. reflexivity. }
  subst x. exact (update_first_drops db r Hids Hin Hu Hstill).
Qed.

Lemma no_live_no_match email otp_code utcnow db :
  live email (otp_codes db) = [] ->
  Q.valid_otp email otp_code utcnow db = None.
Proof.
  intros Hlive. unfold Q.valid_otp. apply BackendLogout.find_all_false.
  intros r Hin.
  destruct (String.eqb (OtpDoc.email r) email
            && negb (OtpDoc.is_used r)) eqn:E.
  - exfalso. assert (H : In r (live email (otp_codes db)))
      by (unfold live; apply filter_In; auto).
    rewrite Hlive in H. exact H.
  - destruct (String.eqb (OtpDoc.email r) email); cbn in *;
      [| reflexivity].
    rewrite E. rewrite andb_false_r. reflexivity.
Qed.

Lemma unregistered_path env db email otp_code r :
  Q.valid_otp (Py.lower email) otp_code (now env) db = Some r ->
  OtpDoc.attempts r < 3 ->
  Q.user_by_email (Py.lower email) db = None ->
  step db (env, reliable, VerifyOtp email otp_code)
  = (Raised (HTTPException 404 "User not found. Please register first."),
     Q.mark_otp_used (OtpDoc._id r) db).
Proof.
  intros Hsel Hatt Hu. run_endpoint. unfold reliable. rewrite Hsel.
  assert (Hge : (OtpDoc.attempts r >=? 3) = false)
    by (rewrite Z.geb_leb; apply Z.leb_gt; lia).
  rewrite Hge.
  change (Q.user_by_email (Py.lower email)
            (Q.mark_otp_used (OtpDoc._id r) db))
    with (Q.user_by_email (Py.lower email) db).
  rewrite Hu. reflexivity.
Qed.

(** X15: in the backend a code presented before registration is spent.
    In every store that the authentication endpoints can reach from empty
    collections, when an address without a user document presents its
    valid code, [verify_otp_endpoint] (all calls succeeding) raises 404
    "User not found. Please register first." after it has marked the code
    used; from then on the address has no code that the query of
    [verify_otp_endpoint] finds, at any time and for any code, so after
    registering a new code must be requested. *)
Theorem backend_unregistered_code_is_spent :
  forall (evs : list event) (env : environment) (email otp_code : string)
         (r : OtpDoc.t),
    Q.valid_otp (Py.lower email) otp_code (now env)
                (execute_all empty_mongo evs) = Some r ->
    OtpDoc.attempts r < 3 ->
    Q.user_by_email (Py.lower email) (execute_all empty_mongo evs) = None ->
    step (execute_all empty_mongo evs) (env, reliable, VerifyOtp email otp_code)
    = (Raised (HTTPException 404 "User not found. Please register first."),
       Q.mark_otp_used (OtpDoc._id r) (execute_all empty_mongo evs))
    /\ forall utcnow code,
         Q.valid_otp (Py.lower email) code utcnow
           (Q.mark_otp_used (OtpDoc._id r) (execute_all empty_mongo evs))
         = None.
Proof.
  intros evs env email otp_code r Hsel Hatt Hu.
  split; [apply unregistered_path; assumption |].
  intros utcnow code. apply no_live_no_match.
  destruct (valid_otp_Some _ _ _ _ _ Hsel) as (Hin & He & _ & Hused).
  cbn [otp_codes Q.mark_otp_used].
  apply live_after_use; try assumption.
  - apply BackendReachable.backend_execute_all_single_live,
      BackendReachable.empty_single_live.
  - apply BackendReachable.backend_execute_all_unique_ids,
      BackendReachable.empty_unique_ids.
Qed.

Lemma backend_unregistered_code_is_spent_witness :
  step Ward.issued_unregistered Ward.verify_ann
  = (Raised (HTTPException 404 "User not found. Please register first."),
     Q.mark_otp_used "uuid-1" Ward.issued_unregistered)
  /\ Q.valid_otp (Py.lower Ward.ann) "123456" (now Demo.morning)
       (Q.mark_otp_used "uuid-1" Ward.issued_unregistered) = None.
Proof.
  destruct (backend_unregistered_code_is_spent [Ward.issue_ann] Demo.morning
              Ward.ann "123456"
              (OtpDoc.mk "uuid-1" Ward.ann "123456" 1000 600001000 false 0)
              eq_refl ltac:(cbn; lia) eq_refl) as [Hstep Hnone].
  split; [exact Hstep | apply Hnone].
Defined.

End BackendCodes.

(* ===================================================================== *)
(** * The automation endpoints, path by path *)
(* ===================================================================== *)

Module PortalFacts.
Import Backend Portal PortalSpec HttpSpec.

Ltac run_portal :=
  cbv beta iota zeta delta
    [Portal.perform create_automation_request get_user_automation_requests
     update_automation_request add_message_to_request get_request_messages
     get_all_automation_requests update_request_status depends raise_500
     Portal.find_one to_list update_one Portal.insert_one
     Backend.perform Backend.register_user generate_otp_endpoint
     verify_otp_endpoint validate_session logout send_otp_email
     reraise_or_500 Backend.find_one update Backend.insert_one
     try_except bind attempt get_store put_store ret raise
     store faulty calls run Portal.step fst snd];
  cbn [auth automation_requests chat_messages].

Ltac split_portal :=
  lazymatch goal with
  | |- ?G => let s := AuthFacts.head_scrutinee G in destruct s eqn:?
  end; run_portal.


End PortalFacts.

Module PortalAnswers.
Import Backend Portal PortalSpec HttpSpec PortalFacts Gateway.



End PortalAnswers.

(* ===================================================================== *)
(** * Sorting and truncating query results *)
(* ===================================================================== *)

Module PortalLists.
Import Portal.

Lemma In_firstn_list {A} (x : A) n l : In x (firstn n l) -> In x l.
Proof.
  revert l. induction n as [| n IH]; intros [| y l]; cbn; try tauto.
  intros [-> | H]; auto.
Qed.


Lemma In_insert_desc {A} (key : A -> Z) x y l :
  In x (insert_desc key y l) <-> x = y \/ In x l.
Proof.
  induction l as [| z l IH]; cbn; [intuition congruence |].
  destruct (key z >? key y); cbn; rewrite ?IH; intuition congruence.
Qed.

Lemma In_sort_desc {A} (key : A -> Z) x l :
  In x (sort_desc key l) <-> In x l.
Proof.
  induction l as [| z l IH]; cbn; [tauto |].
  rewrite In_insert_desc, IH. intuition congruence.
Qed.



Lemma In_insert_asc {A} (key : A -> Z) x y l :
  In x (insert_asc key y l) <-> x = y \/ In x l.
Proof.
  induction l as [| z l IH]; cbn; [intuition congruence |].
  destruct (key z <? key y); cbn; rewrite ?IH; intuition congruence.
Qed.

Lemma In_sort_asc {A} (key : A -> Z) x l :
  In x (sort_asc key l) <-> In x l.
Proof.
  induction l as [| z l IH]; cbn; [tauto |].
  rewrite In_insert_asc, IH. intuition congruence.
Qed.

Lemma requests_of_belong user_id db :
  Forall (fun r => RequestDoc.user_id r = user_id
                   /\ In r (automation_requests db))
         (PQ.requests_of user_id db).
Proof.
  apply Forall_forall. intros r Hr. unfold PQ.requests_of in Hr.
  apply In_firstn_list, In_sort_desc, filter_In in Hr.
  destruct Hr as [Hin He]. apply String.eqb_eq in He. auto.
Qed.

Lemma messages_of_belong request_id db :
  Forall (fun m => MessageDoc.request_id m = request_id
                   /\ In m (chat_messages db))
         (PQ.messages_of request_id db).
Proof.
  apply Forall_forall. intros m Hm. unfold PQ.messages_of in Hm.
  apply In_firstn_list, In_sort_asc, filter_In in Hm.
  destruct Hm as [Hin He]. apply String.eqb_eq in He. auto.
Qed.

End PortalLists.

(* ===================================================================== *)
(** * Who reads and who writes automation requests *)
(* ===================================================================== *)

Module PortalAccess.
Import Backend Portal PortalSpec HttpSpec PortalFacts.

Lemma my_requests_paths env db f n token :
  match perform env (MyRequests token) (World db f n) with
  | (Returned a, w') =>
      (exists u,
          caller token (now env) db = Some u
          /\ a = Json (RequestList (PQ.requests_of (UserDoc._id u) db)))
      /\ automation_requests (store w') = automation_requests db
      /\ chat_messages (store w') = chat_messages db
  | (Raised _, w') =>
      automation_requests (store w') = automation_requests db
      /\ chat_messages (store w') = chat_messages db
  end.
Proof.
  unfold caller. run_portal. repeat split_portal; cbn; auto.
  split; [| auto]. eexists. split; [eassumption | reflexivity].
Qed.

Lemma get_messages_paths env db f n token request_id :
  match perform env (GetMessages token request_id) (World db f n) with
  | (Returned a, w') =>
      (exists u r,
          caller token (now env) db = Some u
          /\ PQ.request_by_id request_id db = Some r
          /\ may_chat u r
          /\ a = Json (MessageList (PQ.messages_of request_id db)))
      /\ automation_requests (store w') = automation_requests db
      /\ chat_messages (store w') = chat_messages db
  | (Raised _, w') =>
      automation_requests (store w') = automation_requests db
      /\ chat_messages (store w') = chat_messages db
  end.
Proof.
  unfold caller, may_chat. run_portal. repeat split_portal; cbn; auto.
  split; [| auto]. eexists _, _. split; [eassumption |].
  split; [eassumption |]. split; [| reflexivity].
  cbn [UserInfo.user_id UserInfo.is_admin] in *.
  match goal with
  | H : negb (String.eqb ?a ?b) && negb ?c = false |- _ =>
      destruct (String.eqb_spec a b); [left; assumption |];
      destruct c; [right; reflexivity | discriminate]
  end.
Qed.

(** X17: reading is for the caller.  Whenever
    [get_user_automation_requests] answers, under any fault schedule, the
    token names a live session of a user, and the answer is the list of
    that user's own requests (newest first, at most 100), every one of
    them stored with that user's id.  Whenever [get_request_messages]
    answers, the request exists and the caller owns it or is an
    administrator, and the answer holds only stored messages of that
    request.  Neither call changes a request or a message. *)
Theorem reading_is_for_the_caller :
  forall (env : environment) (f : nat -> bool) (db : collections)
         (token request_id : string),
    match step db (env, f, MyRequests token) with
    | (Returned a, db') =>
        exists u,
          caller token (now env) db = Some u
          /\ a = Json (RequestList (PQ.requests_of (UserDoc._id u) db))
          /\ Forall (fun r => RequestDoc.user_id r = UserDoc._id u
                              /\ In r (automation_requests db))
                    (PQ.requests_of (UserDoc._id u) db)
          /\ automation_requests db' = automation_requests db
          /\ chat_messages db' = chat_messages db
    | (Raised _, db') =>
        automation_requests db' = automation_requests db
        /\ chat_messages db' = chat_messages db
    end
    /\ match step db (env, f, GetMessages token request_id) with
       | (Returned a, db') =>
           exists u r,
             caller token (now env) db = Some u
             /\ PQ.request_by_id request_id db = Some r
             /\ may_chat u r
             /\ a = Json (MessageList (PQ.messages_of request_id db))
             /\ Forall (fun m => MessageDoc.request_id m = request_id
                                 /\ In m (chat_messages db))
                       (PQ.messages_of request_id db)
             /\ automation_requests db' = automation_requests db
             /\ chat_messages db' = chat_messages db
       | (Raised _, db') =>
           automation_requests db' = automation_requests db
           /\ chat_messages db' = chat_messages db
       end.
Proof.
  intros env f db token request_id. split.
  - pose proof (my_requests_paths env db f 0 token) as H.
    unfold step, run.
    destruct (perform env (MyRequests token) (World db f 0))
      as [[a | e] w']; [| exact H].
    destruct H as ((u & Hu & Ha) & Hr & Hm).
    exists u. repeat (split; [assumption |]).
    split; [apply PortalLists.requests_of_belong | auto].
  - pose proof (get_messages_paths env db f 0 token request_id) as H.
    unfold step, run.
    destruct (perform env (GetMessages token request_id) (World db f 0))
      as [[a | e] w']; [| exact H].
    destruct H as ((u & r & Hu & Hq & Hc & Ha) & Hr & Hm).
    exists u, r. repeat (split; [assumption |]).
    split; [apply PortalLists.messages_of_belong | auto].
Qed.

End PortalAccess.

(* ===================================================================== *)
(** * Writing automation requests and messages *)
(* ===================================================================== *)

Module PortalWrites.
Import Backend Portal PortalSpec HttpSpec PortalFacts.




Lemma insert_request_spec doc db db' :
  PQ.insert_request doc db = Some db' ->
  db' = Collections (auth db) (automation_requests db ++ [doc])
                    (chat_messages db)
  /\ ~ In (RequestDoc._id doc) (map RequestDoc._id (automation_requests db)).
Proof.
  unfold PQ.insert_request. destruct (existsb _ _) eqn:E; [discriminate |].
  intros H; inversion H; subst. split; [reflexivity |].
  intros Hin. apply in_map_iff in Hin. destruct Hin as (m & Hm & Hin).
  assert (existsb (fun m0 => String.eqb (RequestDoc._id m0)
                                        (RequestDoc._id doc))
                  (automation_requests db) = true).
  { apply existsb_exists. exists m. split; [exact Hin |].
    apply String.eqb_eq. exact Hm. }
  congruence.
Qed.








End PortalWrites.

(* ===================================================================== *)
(** * From creating a request to listing it *)
(* ===================================================================== *)

Module PortalRoundTrip.
Import Backend Portal PortalSpec RequestSpec HttpSpec PortalFacts.







End PortalRoundTrip.

(* ===================================================================== *)
(** * Administrators *)
(* ===================================================================== *)

Module PortalAdmins.
Import Backend Portal PortalSpec AdminSpec HttpSpec PortalFacts.

Lemma Forall_update_first {A} (P : A -> Prop) p g l :
  (forall x, P x -> P (g x)) -> Forall P l -> Forall P (update_first p g l).
Proof.
  intros Hg H. induction H as [| x l Hx Hl IH]; cbn; [constructor |].
  destruct (p x); constructor; auto.
Qed.

Lemma Forall_snoc {A} (P : A -> Prop) l x :
  Forall P l -> P x -> Forall P (l ++ [x]).
Proof. intros Hl Hx. apply Forall_app. split; [exact Hl | auto]. Qed.

Lemma insert_user_users doc db db' :
  Q.insert_user doc db = Some db' -> users db' = (users db ++ [doc])%list.
Proof.
  unfold Q.insert_user. destruct (existsb _ _); [discriminate |].
  intros H; inversion H; reflexivity.
Qed.

Lemma insert_otp_users doc db db' :
  Q.insert_otp doc db = Some db' -> users db' = users db.
Proof.
  unfold Q.insert_otp. destruct (existsb _ _); [discriminate |].
  intros H; inversion H; reflexivity.
Qed.

Lemma insert_session_users doc db db' :
  Q.insert_session doc db = Some db' -> users db' = users db.
Proof.
  unfold Q.insert_session. destruct (existsb _ _); [discriminate |].
  intros H; inversion H; reflexivity.
Qed.

Ltac use_user_inserts :=
  repeat match goal with
    | H : Q.insert_user _ _ = Some _ |- _ =>
        apply insert_user_users in H; cbn in H
    | H : Q.insert_otp _ _ = Some _ |- _ =>
        apply insert_otp_users in H; cbn in H
    | H : Q.insert_session _ _ = Some _ |- _ =>
        apply insert_session_users in H; cbn in H
    end.

(** No endpoint of the authentication part makes a user an
    administrator. *)
Lemma backend_perform_plain env rq db f n :
  Forall plain (users db) ->
  match Backend.perform env rq (World db f n) with
  | (_, w') => Forall plain (users (store w'))
  end.
Proof.
  intros Hplain.
  destruct rq; BackendFacts.run_endpoint;
    repeat BackendFacts.split_endpoint; use_user_inserts; cbn;
    repeat match goal with H : users _ = _ |- _ => rewrite H end;
    try assumption.
  - apply Forall_snoc; [assumption | reflexivity].
  - apply Forall_update_first; [| assumption]. intros x Hx. exact Hx.
Qed.

(** The user whom [validate_session] reports is a stored user. *)
Lemma reported_user_is_stored _id token utcnow m u :
  Q.user_by_id _id (Q.touch_session token utcnow m) = Some u ->
  In u (users m).
Proof. intros H. apply find_some in H. apply H. Qed.

Ltac no_admin :=
  match goal with
  | Hplain : Forall plain (users (auth ?db)),
    Hu : Q.user_by_id _ (Q.touch_session _ _ (auth ?db)) = Some ?u,
    Hadmin : negb (UserInfo.is_admin _) = false |- _ =>
      exfalso; apply reported_user_is_stored in Hu;
      rewrite Forall_forall in Hplain; specialize (Hplain u Hu);
      unfold plain in Hplain; cbn [UserInfo.is_admin] in Hadmin;
      rewrite Hplain in Hadmin; discriminate
  end.

Lemma user_fields_pending update_data utcnow r :
  pending r -> pending (PQ.user_fields update_data utcnow r).
Proof. intros H. exact H. Qed.

Lemma touched_pending utcnow r : pending r -> pending (PQ.touched utcnow r).
Proof. intros H. exact H. Qed.

Lemma insert_request_requests doc db db' :
  PQ.insert_request doc db = Some db' ->
  auth db' = auth db
  /\ automation_requests db' = (automation_requests db ++ [doc])%list.
Proof.
  unfold PQ.insert_request. destruct (existsb _ _); [discriminate |].
  intros H; inversion H; split; reflexivity.
Qed.

Lemma insert_message_requests doc db db' :
  PQ.insert_message doc db = Some db' ->
  auth db' = auth db /\ automation_requests db' = automation_requests db.
Proof.
  unfold PQ.insert_message. destruct (existsb _ _); [discriminate |].
  intros H; inversion H; split; reflexivity.
Qed.

(** While nobody is an administrator, every endpoint keeps it so and
    leaves every request pending. *)
Lemma perform_keeps_plain env rq db f n :
  nobody_is_admin db -> all_pending db ->
  match perform env rq (World db f n) with
  | (_, w') => nobody_is_admin (store w') /\ all_pending (store w')
  end.
Proof.
  unfold nobody_is_admin, all_pending.
  fold plain. change (fun r : RequestDoc.t =>
                        RequestDoc.status r = "pending"
                        /\ RequestDoc.admin_notes r = None) with pending.
  intros Hplain Hpending.
  destruct rq as [rq' | | | | | | |].
  - pose proof (backend_perform_plain env rq' (auth db) f n Hplain) as H.
    unfold perform, bind, depends, ret. cbn [store faulty calls].
    destruct (Backend.perform env rq' (World (auth db) f n))
      as [[a | e] w']; cbn; auto.
  - run_portal; repeat split_portal; cbn; auto.
    match goal with
    | H : PQ.insert_request _ _ = Some _ |- _ =>
        apply insert_request_requests in H; cbn in H; destruct H as [-> ->]
    end.
    split; [assumption |]. apply Forall_snoc; [assumption |].
    split; reflexivity.
  - run_portal; repeat split_portal; cbn; auto.
  - run_portal; repeat split_portal; cbn; auto.
    split; [assumption |].
    apply Forall_update_first; [| assumption].
    intros x Hx. apply user_fields_pending. exact Hx.
  - run_portal; repeat split_portal; cbn; auto;
      match goal with
      | H : PQ.insert_message _ _ = Some _ |- _ =>
          apply insert_message_requests in H; cbn in H;
          destruct H as [Ha Hr]
      end; rewrite ?Ha, ?Hr; cbn; auto.
    split; [assumption |].
    apply Forall_update_first; [| assumption].
    intros x Hx. apply touched_pending. exact Hx.
  - run_portal; repeat split_portal; cbn; auto.
  - run_portal; repeat split_portal; cbn; auto.
  - run_portal; repeat split_portal; cbn; auto; no_admin.
Qed.

Lemma step_keeps_plain db ev :
  nobody_is_admin db /\ all_pending db ->
  nobody_is_admin (snd (step db ev)) /\ all_pending (snd (step db ev)).
Proof.
  destruct ev as [[env f] rq]. intros [Hp Hq].
  pose proof (perform_keeps_plain env rq db f 0 Hp Hq) as H.
  unfold step, run. destruct (perform env rq (World db f 0)) as [o w'].
  exact H.
Qed.

Lemma execute_all_keeps_plain evs :
  forall db, nobody_is_admin db /\ all_pending db ->
             nobody_is_admin (execute_all db evs)
             /\ all_pending (execute_all db evs).
Proof.
  induction evs as [| ev evs IH]; cbn; intros db H; [exact H |].
  apply IH, step_keeps_plain, H.
Qed.

Lemma admin_endpoints_refuse env db f n token request_id status admin_notes :
  nobody_is_admin db ->
  match perform env (AllRequests token) (World db f n) with
  | (Returned _, _) => False
  | (Raised _, _) => True
  end
  /\ match perform env (UpdateStatus token request_id status admin_notes)
                   (World db f n) with
     | (Returned _, _) => False
     | (Raised _, _) => True
     end.
Proof.
  unfold nobody_is_admin. fold plain. intros Hplain. split.
  - run_portal; repeat split_portal; cbn; try exact I; no_admin.
  - run_portal; repeat split_portal; cbn; try exact I; no_admin.
Qed.

(** X20: the endpoints never make an administrator.  In every store that
    the endpoints can reach from empty collections, whatever the inputs and
    the faults, no user has [is_admin] set, every automation request is
    still "pending" and has no administrator's notes, and the two
    administrator endpoints modelled here, [get_all_automation_requests]
    and [update_request_status], never answer: they raise for every token.
    (Registration stores [is_admin = False] and no endpoint updates it.) *)
Theorem endpoints_never_make_an_administrator :
  forall (evs : list event) (env : environment) (f : nat -> bool)
         (token request_id status : string) (admin_notes : option string),
    nobody_is_admin (execute_all empty_collections evs)
    /\ all_pending (execute_all empty_collections evs)
    /\ returned (fst (step (execute_all empty_collections evs)
                           (env, f, AllRequests token))) = false
    /\ returned (fst (step (execute_all empty_collections evs)
                           (env, f,
                            UpdateStatus token request_id status
                                         admin_notes))) = false.
Proof.
  intros evs env f token request_id status admin_notes.
  destruct (execute_all_keeps_plain evs empty_collections) as [Hp Hq].
  { split; constructor. }
  split; [exact Hp |]. split; [exact Hq |].
  destruct (admin_endpoints_refuse env (execute_all empty_collections evs)
              f 0 token request_id status admin_notes Hp) as [H1 H2].
  unfold step, run.
  destruct (perform env (AllRequests token)
                    (World (execute_all empty_collections evs) f 0))
    as [o1 w1].
  destruct (perform env (UpdateStatus token request_id status admin_notes)
                    (World (execute_all empty_collections evs) f 0))
    as [o2 w2].
  cbn [fst]. destruct o1, o2; try contradiction. split; reflexivity.
Qed.

End PortalAdmins.

(* ===================================================================== *)
(** * The run of [run_full_system.py] *)
(* ===================================================================== *)

Module FullRun.
Import FullSystem KeyPointSpec.

#[local] Arguments MergeAudio.merge_audio_clips : simpl never.
#[local] Arguments create_bullet_point_email : simpl never.





End FullRun.

(* ===================================================================== *)
(** * The key points of a transcript *)
(* ===================================================================== *)

Module KeyPoints.
Import FullSystem KeyPointSpec.

Lemma split_parts_without sep s x :
  In x (Py.split sep s) -> Py.contains sep x = false.
Proof.
  revert x. induction s as [| c s IH]; cbn; intros x.
  - intros [<- | []]. reflexivity.
  - destruct (Ascii.eqb c sep) eqn:Hc.
    + intros [<- | H]; [reflexivity | apply IH; exact H].
    + destruct (Py.split sep s) as [| p ps] eqn:E.
      * intros [<- | []]. cbn. rewrite Hc. reflexivity.
      * intros [<- | H].
        -- cbn. rewrite Hc. apply IH. left. reflexivity.
        -- apply IH. right. exact H.
Qed.

Lemma contains_lstrip c s :
  Py.contains c s = false -> Py.contains c (Py.lstrip s) = false.
Proof.
  induction s as [| d s IH]; cbn; [auto |].
  destruct (Ascii.eqb d c) eqn:Hd; [discriminate |].
  intros H. destruct (Py.isspace d); [apply IH; exact H |].
  cbn. rewrite Hd. exact H.
Qed.

Lemma contains_rev_string c s :
  forall acc, Py.contains c acc = false -> Py.contains c s = false ->
              Py.contains c (Py.rev_string acc s) = false.
Proof.
  induction s as [| d s IH]; cbn; intros acc Ha Hs; [exact Ha |].
  destruct (Ascii.eqb d c) eqn:Hd; [discriminate |].
  apply IH; [cbn; rewrite Hd; exact Ha | exact Hs].
Qed.

Lemma contains_strip c s :
  Py.contains c s = false -> Py.contains c (Py.strip s) = false.
Proof.
  intros H. unfold Py.strip.
  apply contains_rev_string; [reflexivity |].
  apply contains_lstrip. apply contains_rev_string; [reflexivity |].
  apply contains_lstrip. exact H.
Qed.

Lemma substring_one_contains c s :
  forall m, substring m 1 s = String c EmptyString ->
            Py.contains c s = true.
Proof.
  induction s as [| d s IH]; intros m; [destruct m; discriminate |].
  destruct m as [| m]; cbn.
  - destruct s; cbn; intros H; inversion H; subst;
      rewrite Ascii.eqb_refl; reflexivity.
  - intros H. rewrite (IH m H). destruct (Ascii.eqb d c); reflexivity.
Qed.

Lemma endswith_contains c s :
  Py.endswith s (String c EmptyString) = true -> Py.contains c s = true.
Proof.
  unfold Py.endswith. intros H. apply andb_prop in H. destruct H as [_ H].
  apply String.eqb_eq in H. eapply substring_one_contains. exact H.
Qed.

(** The loop keeps the stripped keyword sentences and closes each with a
    full stop: on a part of [split('.')] the test
    [sentence and not sentence.endswith('.')] always holds. *)
Lemma key_points_of_parts sentences :
  Forall (fun s => Py.contains "." s = false) sentences ->
  key_points sentences
  = map (fun s => s ++ ".")
        (filter is_key_sentence (map Py.strip sentences)).
Proof.
  induction 1 as [| s l Hs Hl IH]; [reflexivity |].
  cbn [key_points map filter]. fold (is_key_sentence (Py.strip s)).
  destruct (is_key_sentence (Py.strip s)) eqn:Hk; [| exact IH].
  cbn [map]. rewrite IH. f_equal.
  assert (Hne : String.eqb (Py.strip s) "" = false).
  { unfold is_key_sentence in Hk. apply andb_prop in Hk.
    destruct Hk as [Hlen _]. destruct (Py.strip s); [discriminate |].
    reflexivity. }
  assert (Hend : Py.endswith (Py.strip s) "." = false).
  { destruct (Py.endswith (Py.strip s) ".") eqn:E; [| reflexivity].
    apply endswith_contains in E.
    rewrite (contains_strip _ _ Hs) in E. discriminate. }
  rewrite Hne, Hend. reflexivity.
Qed.

Lemma append_nonempty s c t : (s ++ String c t)%string <> "".
Proof. destruct s; discriminate. Qed.

Lemma formatted_nonempty i point rest :
  String.eqb (formatted_points i (point :: rest)) "" = false.
Proof.
  apply String.eqb_neq. cbn [formatted_points].
  change (". " ++ point ++ nl ++ formatted_points (i + 1) rest)%string
    with (String "." (" " ++ point ++ nl
                      ++ formatted_points (i + 1) rest))%string.
  apply append_nonempty.
Qed.

(** X22: the key points of a transcript written in ASCII.
    [extract_key_points] lists the first six sentences (the parts of the
    transcript between full stops, stripped) that have more than ten
    characters and contain one of the ten keywords in any letter case; it
    numbers them from 1 in transcript order and closes each with exactly
    one full stop and a newline; and when no sentence qualifies, and only
    then, it returns the three stock lines.  The returned text is never
    empty. *)
Theorem key_points_are_the_keyword_sentences :
  forall transcript : string,
    Py.isascii transcript = true ->
    extract_key_points transcript
    = match chosen transcript with
      | [] => default_points
      | _ => formatted_points 1
               (map (fun s => s ++ ".") (firstn 6 (chosen transcript)))
      end
    /\ extract_key_points transcript <> ""
    /\ Forall (fun s => Py.contains "." s = false
                        /\ (10 < String.length s)%nat)
              (chosen transcript).
Proof.
  intros transcript _.
  assert (Hparts : Forall (fun s => Py.contains "." s = false)
                          (Py.split "." transcript)).
  { apply Forall_forall. intros x Hx. eapply split_parts_without. exact Hx. }
  assert (Heq : extract_key_points transcript
                = match chosen transcript with
                  | [] => default_points
                  | _ => formatted_points 1
                           (map (fun s => s ++ ".")
                                (firstn 6 (chosen transcript)))
                  end).
  { unfold extract_key_points. rewrite (key_points_of_parts _ Hparts).
    fold (chosen transcript). rewrite <- firstn_map.
    destruct (chosen transcript) as [| s l]; [reflexivity |].
    cbn [map firstn]. rewrite formatted_nonempty. reflexivity. }
  split; [exact Heq |]. split.
  - rewrite Heq. destruct (chosen transcript) as [| s l];
      [discriminate |].
    cbn [firstn map]. apply String.eqb_neq. apply formatted_nonempty.
  - apply Forall_forall. intros s Hs. unfold chosen in Hs.
    apply filter_In in Hs. destruct Hs as [Hin Hk].
    apply in_map_iff in Hin. destruct Hin as (x & <- & Hx).
    split.
    + apply contains_strip. eapply split_parts_without. exact Hx.
    + unfold is_key_sentence in Hk. apply andb_prop in Hk.
      destruct Hk as [Hlen _]. apply Nat.ltb_lt in Hlen. exact Hlen.
Qed.

Lemma key_points_are_the_keyword_sentences_witness :
  Py.isascii Desk.transcript = true
  /\ chosen Desk.transcript
     = ["This week I completed the intake dashboard";
        "Next week we plan to ship the scheduler"]
  /\ extract_key_points Desk.transcript
     = formatted_points 1
         ["This week I completed the intake dashboard.";
          "Next week we plan to ship the scheduler."].
Proof.
  assert (Hascii : Py.isascii Desk.transcript = true) by reflexivity.
  assert (Hchosen : chosen Desk.transcript
                    = ["This week I completed the intake dashboard";
                       "Next week we plan to ship the scheduler"])
    by (vm_compute; reflexivity).
  split; [exact Hascii |]. split; [exact Hchosen |].
  destruct (key_points_are_the_keyword_sentences Desk.transcript Hascii)
    as [Heq _].
  rewrite Heq, Hchosen. reflexivity.
Defined.

End KeyPoints.

(* ===================================================================== *)
(** * Cleaning up the clips *)
(* ===================================================================== *)

Module CleanUp.
Import Cleanup.




End CleanUp.

(* ===================================================================== *)
(** * Logging in to the backend *)
(* ===================================================================== *)

Module BackendLogin.
Import Backend BackendSpec BackendFacts HttpSpec BackendSessionSpec.

Lemma find_snoc_fresh {A} (p : A -> bool) l x :
  (forall y, In y l -> p y = false) ->
  find p (l ++ [x]) = if p x then Some x else None.
Proof.
  intros H. apply HappyPath.find_snoc. apply BackendLogout.find_all_false.
  exact H.
Qed.

Lemma find_update_first_same {A} (p : A -> bool) (g : A -> A) l :
  (forall y, p (g y) = p y) ->
  find p (update_first p g l) = option_map g (find p l).
Proof.
  intros Hg. induction l as [| y l IH]; cbn; [reflexivity |].
  destruct (p y) eqn:Hp; cbn.
  - rewrite Hg, Hp. reflexivity.
  - rewrite Hp. exact IH.
Qed.

Lemma find_by_id l u :
  NoDup (map UserDoc._id l) -> In u l ->
  find (fun x => String.eqb (UserDoc._id x) (UserDoc._id u)) l = Some u.
Proof.
  induction l as [| y l IH]; cbn; [intros _ [] |].
  intros Hnd Hin. inversion Hnd as [| ? ? Hfresh Hnd']; subst.
  destruct (String.eqb_spec (UserDoc._id y) (UserDoc._id u)) as [Hid | Hid].
  - destruct Hin as [-> | Hin]; [reflexivity |].
    exfalso. apply Hfresh. rewrite Hid. apply in_map. exact Hin.
  - destruct Hin as [-> | Hin]; [contradiction |]. apply IH; assumption.
Qed.

Lemma fresh_key {A} (key : A -> string) k l :
  ~ In k (map key l) -> existsb (fun x => String.eqb (key x) k) l = false.
Proof.
  intros H. destruct (existsb _ l) eqn:E; [| reflexivity].
  exfalso. apply existsb_exists in E. destruct E as (x & Hx & Hk).
  apply String.eqb_eq in Hk. apply H. rewrite <- Hk. apply in_map. exact Hx.
Qed.

(** The comparison that the query of the backend makes, on the values as
    BSON keeps them: a stored instant of whole milliseconds is later than
    the truncated clock exactly when it is later than the clock. *)
Lemma bson_comparison stored utcnow :
  bson_datetime stored = stored ->
  (stored > bson_datetime utcnow <-> stored > utcnow).
Proof.
  unfold bson_datetime. intros Hwhole.
  pose proof (Z.mul_div_le utcnow 1000 ltac:(lia)) as Hle.
  pose proof (Z.mod_pos_bound utcnow 1000 ltac:(lia)) as Hmod.
  pose proof (Z.div_mod utcnow 1000 ltac:(lia)) as Hdiv.
  split; intros H; [| lia].
  assert (Hq : stored / 1000 > utcnow / 1000) by lia.
  nia.
Qed.

(** X24: logging in to the backend, and back.  For a registered address
    that presents its valid code with fewer than three failed attempts,
    [verify_otp_endpoint] (all calls succeeding; the new session id and
    token not yet stored, the token not empty) answers "Login successful!"
    with the new token, the user's data and the expiry eight hours on, and
    counts the login; and up to one millisecond before those eight hours
    have passed, [validate_session] accepts that token and reports that
    same user.  The millisecond is what BSON drops of the stored expiry:
    the stored value is still later than the clock of the validation, both
    taken as BSON keeps them.  The token must be new because the
    collection does not make [session_token] unique: the first live session
    with the token wins. *)
Theorem backend_login_round_trip :
  forall (env env' : environment) (db : mongo) (email otp_code : string)
         (r : OtpDoc.t) (u : UserDoc.t),
    Q.valid_otp (Py.lower email) otp_code (now env) db = Some r ->
    OtpDoc.attempts r < 3 ->
    Q.user_by_email (Py.lower email) db = Some u ->
    NoDup (map UserDoc._id (users db)) ->
    ~ In (uuid4 env) (map SessionDoc._id (sessions db)) ->
    ~ In (token_urlsafe env) (map SessionDoc.session_token (sessions db)) ->
    token_urlsafe env <> "" ->
    now env' + 1000 <= now env + hours SESSION_EXPIRY_HOURS ->
    exists db',
      step db (env, reliable, VerifyOtp email otp_code)
      = (Returned
           (Body (Reply.mk true "Login successful!" None None
                    (Some (token_urlsafe env))
                    (Some (UserInfo.mk (UserDoc._id u) (UserDoc.email u)
                             (UserDoc.full_name u) (UserDoc.department u)
                             (Some (UserDoc.company_domain u))
                             (UserDoc.is_admin u)
                             (Some (now env + hours SESSION_EXPIRY_HOURS)))))),
         db')
      /\ option_map UserDoc.login_count (Q.user_by_id (UserDoc._id u) db')
         = Some (UserDoc.login_count u + 1)
      /\ fst (step db' (env', reliable, Authenticated (token_urlsafe env)))
         = Returned
             (Identity (UserInfo.mk (UserDoc._id u) (UserDoc.email u)
                          (UserDoc.full_name u) (UserDoc.department u)
                          None (UserDoc.is_admin u) None))
      /\ bson_datetime (now env + hours SESSION_EXPIRY_HOURS)
         > bson_datetime (now env').
Proof.
  intros env env' db email otp_code r u Hsel Hatt Hu Hids Hsid Htok _ Hlive.
  assert (Hge : (OtpDoc.attempts r >=? 3) = false)
    by (rewrite Z.geb_leb; apply Z.leb_gt; lia).
  assert (Hin : In u (users db)).
  { unfold Q.user_by_email in Hu. apply find_some in Hu. apply Hu. }
  pose (session_doc :=
          SessionDoc.mk (uuid4 env) (UserDoc._id u) (token_urlsafe env)
            (now env) (now env + hours SESSION_EXPIRY_HOURS) true (now env)).
  exists (Q.update_login_stats (UserDoc._id u) (now env)
            (Mongo (users db)
               (update_first
                  (fun x => String.eqb (OtpDoc._id x) (OtpDoc._id r))
                  OtpDoc.set_used (otp_codes db))
               (sessions db ++ [session_doc]))).
  split; [| split; [| split]].
  - run_endpoint. unfold reliable. rewrite Hsel, Hge.
    change (Q.user_by_email (Py.lower email)
              (Q.mark_otp_used (OtpDoc._id r) db))
      with (Q.user_by_email (Py.lower email) db).
    rewrite Hu. unfold Q.insert_session, generate_session_token.
    cbn [sessions Q.mark_otp_used SessionDoc._id].
    rewrite (fresh_key SessionDoc._id (uuid4 env) (sessions db) Hsid).
    reflexivity.
  - unfold Q.user_by_id, Q.update_login_stats. cbn [users].
    rewrite find_update_first_same by reflexivity.
    rewrite (find_by_id _ _ Hids Hin). reflexivity.
  - run_endpoint. unfold reliable.
    assert (Hfound : Q.live_session (token_urlsafe env) (now env')
                       (Q.update_login_stats (UserDoc._id u) (now env)
                          (Mongo (users db)
                             (update_first
                                (fun x => String.eqb (OtpDoc._id x)
                                                     (OtpDoc._id r))
                                OtpDoc.set_used (otp_codes db))
                             (sessions db ++ [session_doc])))
                     = Some session_doc).
    { unfold Q.live_session, Q.update_login_stats. cbn [sessions].
      rewrite find_snoc_fresh.
      - cbn. rewrite String.eqb_refl. cbn.
        destruct (_ >? _) eqn:Hgt; [reflexivity | exfalso].
        rewrite Z.gtb_ltb in Hgt. apply Z.ltb_ge in Hgt.
        unfold hours, SESSION_EXPIRY_HOURS in *. lia.
      - intros y Hy.
        destruct (String.eqb_spec (SessionDoc.session_token y)
                                  (token_urlsafe env)) as [Ht |];
          [| reflexivity].
        exfalso. apply Htok. rewrite <- Ht. apply in_map. exact Hy. }
    rewrite Hfound.
    assert (Huser : Q.user_by_id (SessionDoc.user_id session_doc)
                      (Q.touch_session (token_urlsafe env) (now env')
                         (Q.update_login_stats (UserDoc._id u) (now env)
                            (Mongo (users db)
                               (update_first
                                  (fun x => String.eqb (OtpDoc._id x)
                                                       (OtpDoc._id r))
                                  OtpDoc.set_used (otp_codes db))
                               (sessions db ++ [session_doc]))))
                    = Some (UserDoc.record_login (now env) u)).
    { unfold Q.user_by_id, Q.touch_session, Q.update_login_stats.
      cbn [users SessionDoc.user_id session_doc].
      rewrite find_update_first_same by reflexivity.
      rewrite (find_by_id _ _ Hids Hin). reflexivity. }
    rewrite Huser. reflexivity.
  - unfold bson_datetime, hours, SESSION_EXPIRY_HOURS in *.
    pose proof (Z.div_mod (now env') 1000 ltac:(lia)) as Hd'.
    pose proof (Z.mod_pos_bound (now env') 1000 ltac:(lia)) as Hm'.
    pose proof (Z.div_mod (now env + 8 * 3600000000) 1000 ltac:(lia)) as Hd.
    pose proof (Z.mod_pos_bound (now env + 8 * 3600000000) 1000 ltac:(lia))
      as Hm.
    lia.
Qed.

Lemma backend_login_round_trip_witness :
  exists db',
    step Ward.issued Ward.verify_ann
    = (Returned
         (Body (Reply.mk true "Login successful!" None None (Some "token-1")
                  (Some (UserInfo.mk "uuid-1" "ann@hssmedicine.com" "Ann"
                           "Surgery" (Some "hssmedicine.com") false
                           (Some 28800001000))))),
       db')
    /\ fst (step db' (Demo.later, reliable, Authenticated "token-1"))
       = Returned (Identity (UserInfo.mk "uuid-1" "ann@hssmedicine.com" "Ann"
                               "Surgery" None false None)).
Proof.
  destruct (backend_login_round_trip Demo.morning Demo.later Ward.issued
              Ward.ann "123456"
              (OtpDoc.mk "uuid-1" Ward.ann "123456" 1000 600001000 false 0)
              (UserDoc.mk "uuid-1" "ann@hssmedicine.com" "Ann" "Surgery"
                          "hssmedicine.com" true false 1000 0 None)
              eq_refl ltac:(cbn; lia) eq_refl
              ltac:(repeat constructor; intros [])
              ltac:(intros []) ltac:(intros [])
              ltac:(discriminate)
              ltac:(vm_compute; discriminate))
    as (db' & Hstep & _ & Hauth & _).
  exists db'. split; [exact Hstep | exact Hauth].
Defined.

(** ** Issuing a code when a call fails *)

Lemma deactivated_has_no_match email otp_code utcnow db :
  Q.valid_otp email otp_code utcnow (Q.deactivate_otps email db) = None.
Proof.
  apply BackendCodes.no_live_no_match. cbn [otp_codes Q.deactivate_otps].
  apply backend_live_deactivate.
Qed.

(** X25: issuing a code in the backend is not all-or-nothing.  For every
    address of the company domain, when the database fails at the insert of
    the new code, [generate_otp_endpoint] raises 500 "Failed to generate
    OTP" after it has revoked the unused codes of the address: the address
    is left without any code that verifies.  And when writing the mail
    fails, it raises 500 "Failed to send OTP email" although the new code
    is stored and verifies. *)
Theorem backend_issue_is_not_all_or_nothing :
  forall (env : environment) (db : mongo) (email : string),
    Py.endswith email ("@" ++ COMPANY_DOMAIN) = true ->
    ~ In (uuid4 env) (map OtpDoc._id (otp_codes db)) ->
    step db (env, fails_at 1, GenerateOtp email)
    = (Raised (HTTPException 500 "Failed to generate OTP"),
       Q.deactivate_otps (Py.lower email) db)
    /\ (forall utcnow otp_code,
           Q.valid_otp (Py.lower email) otp_code utcnow
             (Q.deactivate_otps (Py.lower email) db) = None)
    /\ exists db',
         step db (env, fails_at 2, GenerateOtp email)
         = (Raised (HTTPException 500 "Failed to send OTP email"), db')
         /\ Q.valid_otp (Py.lower email) (generate_otp env) (now env) db'
            = Some (OtpDoc.mk (uuid4 env) (Py.lower email) (generate_otp env)
                              (now env) (now env + minutes OTP_EXPIRY_MINUTES)
                              false 0).
Proof.
  intros env db email Hdomain Hfresh.
  split; [| split].
  - run_endpoint. rewrite Hdomain. reflexivity.
  - intros utcnow otp_code. apply deactivated_has_no_match.
  - eexists. split.
    + run_endpoint. rewrite Hdomain. cbn [negb fails_at Nat.eqb].
      unfold Q.insert_otp. cbn [otp_codes Q.deactivate_otps OtpDoc._id].
      rewrite (fresh_key OtpDoc._id (uuid4 env)
                 (map (Q.deactivate_doc (Py.lower email)) (otp_codes db)))
        by (rewrite backend_map_id_deactivate; exact Hfresh).
      reflexivity.
    + unfold Q.valid_otp. cbn [otp_codes].
      rewrite find_snoc_fresh.
      * cbn. rewrite !String.eqb_refl. cbn.
        destruct (_ >? _) eqn:Hgt; [reflexivity | exfalso].
        rewrite Z.gtb_ltb in Hgt. apply Z.ltb_ge in Hgt.
        unfold minutes, OTP_EXPIRY_MINUTES in *. lia.
      * intros y Hy. apply in_map_iff in Hy. destruct Hy as (x & <- & _).
        unfold Q.deactivate_doc.
        destruct (String.eqb (OtpDoc.email x) (Py.lower email)) eqn:He;
          destruct (OtpDoc.is_used x) eqn:Hused; cbn;
          rewrite ?He, ?Hused; cbn; rewrite ?andb_false_r; reflexivity.
Qed.

Lemma backend_issue_is_not_all_or_nothing_witness :
  step Ward.issued (Demo.later, fails_at 1, GenerateOtp Ward.ann)
  = (Raised (HTTPException 500 "Failed to generate OTP"),
     Q.deactivate_otps (Py.lower Ward.ann) Ward.issued)
  /\ Q.valid_otp (Py.lower Ward.ann) "123456" (now Demo.morning)
       (Q.deactivate_otps (Py.lower Ward.ann) Ward.issued) = None.
Proof.
  destruct (backend_issue_is_not_all_or_nothing Demo.later Ward.issued
              Ward.ann eq_refl
              ltac:(intros [H | []]; discriminate))
    as (Hstep & Hnone & _).
  split; [exact Hstep | apply Hnone].
Defined.

End BackendLogin.

(* ===================================================================== *)
(** * The audit log *)
(* ===================================================================== *)

Module AuditTrail.
Import EnterpriseAuth AuthEffects AuthSpec AuthFacts AuditSpec.

Ltac use_inserted :=
  repeat match goal with
    | H : Sql.insert_user _ _ _ _ _ _ = Some _ |- _ =>
        apply StoreInvariants.insert_user_spec in H; destruct H as [-> _]
    | H : Sql.insert_session _ _ _ _ _ = Some _ |- _ =>
        apply StoreInvariants.insert_session_spec in H; destruct H as [-> _]
    end.

(** What a request adds to the audit log. *)
Lemma effect_audit env rq db r db' :
  effect env rq db r db' ->
  exists added,
    audit_log db' = (audit_log db ++ added)%list
    /\ (List.length added <= 1)%nat
    /\ Forall (fun row =>
                 Some (Audit.action row) = action_of rq
                 /\ Audit.id row = next_id (map Audit.id (audit_log db))
                 /\ Audit.timestamp row = current_timestamp env
                 /\ Response.success r = true) added
    /\ (Response.success r = true -> always_audited rq = true ->
        added <> []).
Proof.
  intros H. destruct H; use_inserted.
  - exists []. rewrite app_nil_r. repeat split; auto. congruence.
  - eexists [_]. cbn. repeat split; auto. discriminate.
  - exists []. rewrite app_nil_r. repeat split; auto. discriminate.
  - exists []. rewrite app_nil_r. repeat split; auto. discriminate.
  - exists []. rewrite app_nil_r. repeat split; auto. discriminate.
  - exists []. rewrite app_nil_r. repeat split; auto. discriminate.
  - eexists [_]. cbn. repeat split; auto. discriminate.
  - exists []. rewrite app_nil_r. repeat split; auto. discriminate.
  - exists []. rewrite app_nil_r. repeat split; auto. discriminate.
  - destruct (Sql.select_session session_token db) as [[s u] |].
    + eexists [_]. cbn. repeat split; auto. discriminate.
    + exists []. rewrite app_nil_r. repeat split; auto. discriminate.
Qed.

(** X26: the audit log only grows, by at most one row per request.  For
    every request, input, store and fault schedule, [audit_log] after the
    call is [audit_log] before it followed by at most one new row; a row is
    added only by a call that succeeds, with the action of the method
    ("USER_REGISTERED", "LOGIN_SUCCESS" or "LOGOUT"), the next id and the
    database's timestamp; every successful [register_user] and [verify_otp]
    adds its row; [generate_otp] and [validate_session] add none. *)
Theorem audit_log_only_grows :
  forall (env : environment) (f : nat -> bool) (rq : request)
         (db : database),
    exists added,
      audit_log (snd (step db (env, f, rq)))
      = (audit_log db ++ added)%list
      /\ (List.length added <= 1)%nat
      /\ Forall (fun row =>
                   Some (Audit.action row) = action_of rq
                   /\ Audit.id row = next_id (map Audit.id (audit_log db))
                   /\ Audit.timestamp row = current_timestamp env
                   /\ succeeded (fst (step db (env, f, rq))) = true) added
      /\ (succeeded (fst (step db (env, f, rq))) = true ->
          always_audited rq = true -> added <> []).
Proof.
  intros env f rq db.
  destruct (step_effect db env f rq) as (r & Hstep & Heff).
  rewrite Hstep. cbn [fst snd succeeded].
  exact (effect_audit env rq db r _ Heff).
Qed.

Lemma audit_log_only_grows_witness :
  succeeded (fst (step Demo.issued Demo.verify_bob)) = true
  /\ exists row,
       audit_log (snd (step Demo.issued Demo.verify_bob))
       = (audit_log Demo.issued ++ [row])%list
       /\ Audit.action row = "LOGIN_SUCCESS".
Proof.
  assert (Hok : succeeded (fst (step Demo.issued Demo.verify_bob)) = true)
    by (vm_compute; reflexivity).
  split; [exact Hok |].
  destruct (audit_log_only_grows Demo.morning reliable
              (VerifyOtp Demo.bob "123456") Demo.issued)
    as (added & Hlog & Hlen & Hrows & Hsome).
  specialize (Hsome Hok eq_refl).
  destruct added as [| row [| row' rest]];
    [contradiction | | cbn in Hlen; lia].
  exists row. split; [exact Hlog |].
  inversion Hrows as [| ? ? (Haction & _) _]; subst.
  cbn in Haction. inversion Haction. reflexivity.
Defined.

(** ** Login counters *)

Lemma logins_of_snoc user_id rows row :
  logins_of user_id (rows ++ [row])
  = logins_of user_id rows + (if is_login_of user_id row then 1 else 0).
Proof.
  unfold logins_of. rewrite filter_app, length_app. cbn.
  destruct (is_login_of user_id row); cbn; lia.
Qed.

Lemma logins_of_unnamed user_id rows :
  ~ In user_id
       (flat_map (fun row => match Audit.user_id row with
                             | Some i => [i]
                             | None => []
                             end) rows) ->
  logins_of user_id rows = 0.
Proof.
  unfold logins_of. induction rows as [| row rows IH]; cbn; [reflexivity |].
  intros Hnot. unfold is_login_of at 1.
  destruct (Audit.user_id row) as [i |] eqn:Hi.
  - destruct (Z.eqb_spec i user_id) as [-> | _].
    + exfalso. apply Hnot. apply in_or_app. left. left. reflexivity.
    + rewrite andb_false_r. apply IH. intros H. apply Hnot.
      apply in_or_app. right. exact H.
  - rewrite andb_false_r. apply IH. intros H. apply Hnot. exact H.
Qed.

Lemma named_in_audit rows i :
  In i (flat_map (fun row => match Audit.user_id row with
                             | Some i => [i]
                             | None => []
                             end) rows) ->
  exists row, In row rows /\ Audit.user_id row = Some i.
Proof.
  intros H. apply in_flat_map in H. destruct H as (row & Hrow & Hi).
  exists row. split; [exact Hrow |].
  destruct (Audit.user_id row) as [j |]; [| destruct Hi].
  destruct Hi as [-> | []]. reflexivity.
Qed.

Lemma effect_keeps_logins env rq db r db' :
  effect env rq db r db' ->
  audit_names_users db /\ logins_counted db ->
  audit_names_users db' /\ logins_counted db'.
Proof.
  unfold audit_names_users, logins_counted.
  intros H [Hnames Hcount]. destruct H; use_inserted;
    try (split; assumption).
  - (* register_user *)
    cbn [users audit_log Sql.insert_audit with_audit_log with_users].
    rewrite ReliableRuns.lastrowid_after_insert. cbn [User.id].
    split.
    + intros entry i Hrow Hi. rewrite map_app. apply in_or_app.
      apply in_app_or in Hrow. destruct Hrow as [Hrow | [<- | []]].
      * left. eapply Hnames; eauto.
      * cbn in Hi. inversion Hi; subst. right. left. reflexivity.
    + apply Forall_app. split.
      * eapply Forall_impl; [| exact Hcount]. cbn. intros u Hu.
        rewrite logins_of_snoc. cbn. lia.
      * constructor; [| constructor]. cbn.
        rewrite logins_of_snoc. cbn. rewrite logins_of_unnamed; [lia |].
        intros Hin. apply named_in_audit in Hin.
        destruct Hin as (entry & Hrow & Hi).
        apply (OtpInvariants.next_id_fresh (map User.id (users db))).
        eapply Hnames; eauto.
  - (* verify_otp *)
    cbn [users audit_log Sql.insert_audit with_audit_log with_users
         Sql.update_login_stats with_user_sessions Sql.mark_otp_used
         with_otp_codes] in *.
    assert (Hu : In (User.id u) (map User.id (users db))).
    { apply in_map. unfold Sql.select_user_by_email in *. cbn in *.
      match goal with
      | H : find _ (users db) = Some u |- _ => apply find_some in H; apply H
      end. }
    split.
    + intros entry i Hrow Hi. rewrite map_map.
      apply in_app_or in Hrow. destruct Hrow as [Hrow | [<- | []]].
      * specialize (Hnames entry i Hrow Hi).
        apply in_map_iff in Hnames. destruct Hnames as (x & <- & Hx).
        apply in_map_iff. exists x. split; [| exact Hx].
        destruct (User.id x =? User.id u); reflexivity.
      * cbn in Hi. inversion Hi; subst.
        apply in_map_iff in Hu. destruct Hu as (x & Hid & Hx).
        apply in_map_iff. exists x. split; [| exact Hx].
        rewrite <- Hid. destruct (User.id x =? User.id x); reflexivity.
    + apply Forall_forall. intros x Hx. apply in_map_iff in Hx.
      destruct Hx as (y & <- & Hy).
      rewrite Forall_forall in Hcount. specialize (Hcount y Hy).
      rewrite logins_of_snoc. unfold is_login_of. cbn.
      destruct (Z.eqb_spec (User.id y) (User.id u)) as [He | Hne]; cbn.
      * rewrite He, Z.eqb_refl. rewrite <- He. lia.
      * destruct (Z.eqb_spec (User.id u) (User.id y)); [congruence | lia].
  - (* logout_user *)
    destruct (Sql.select_session session_token db) as [[s u] |] eqn:Hsel;
      [| split; assumption].
    cbn [users audit_log Sql.insert_audit with_audit_log
         Sql.deactivate_session with_user_sessions].
    apply SessionValidation.select_session_matches in Hsel.
    destruct Hsel as (_ & _ & _ & Hu & Hid).
    split.
    + intros entry i Hrow Hi.
      apply in_app_or in Hrow. destruct Hrow as [Hrow | [<- | []]].
      * eapply Hnames; eauto.
      * cbn in Hi. inversion Hi; subst. rewrite <- Hid. apply in_map.
        exact Hu.
    + eapply Forall_impl; [| exact Hcount]. cbn. intros x Hx.
      rewrite logins_of_snoc. cbn. lia.
Qed.

Lemma history_keeps_logins evs :
  forall db, audit_names_users db /\ logins_counted db ->
             audit_names_users (execute_all db evs)
             /\ logins_counted (execute_all db evs).
Proof.
  induction evs as [| ev evs IH]; cbn; intros db H; [exact H |].
  apply IH. destruct ev as [[env f] rq].
  destruct (step_effect db env f rq) as (r & _ & Heff).
  eapply effect_keeps_logins; eauto.
Qed.

(** X27: login counters agree with the audit log.  In every store that
    requests can reach from the database the constructor leaves, whatever
    the inputs and the faults, the [login_count] of every user equals the
    number of "LOGIN_SUCCESS" rows of [audit_log] that name that user, and
    every audit row that names a user names a stored one: [verify_otp]
    commits the counter and the row together. *)
Theorem login_counts_match_the_audit_log :
  forall (env0 : environment) (evs : list event),
    logins_counted (execute_all (initial_database env0) evs)
    /\ audit_names_users (execute_all (initial_database env0) evs).
Proof.
  intros env0 evs.
  destruct (history_keeps_logins evs (initial_database env0)) as [Hn Hc].
  - split; [intros row i [] | constructor].
  - split; assumption.
Qed.

End AuditTrail.

(* ===================================================================== *)
(** * Registering with the backend *)
(* ===================================================================== *)

Module BackendRegistration.
Import Backend BackendSpec BackendFacts HttpSpec.

(** X28: registration round trip of the backend.  [email] and [again] are
    addresses as the request model hands them to the endpoint (pydantic
    has validated them and written their domain in lowercase), here in
    ASCII, as are the name and the department.  For an address that ends
    in "@hssmedicine.com" and whose lowercase form has no user document,
    [register_user] (all calls succeeding, the new id not yet stored) adds
    one document, with the new id, the lowercased address, the stripped
    name and department, [is_admin = False], [login_count = 0] and no
    login, which the lookup by address then returns; and registering
    again an address of the company with the same lowercase form raises
    400 "User already registered" and changes nothing. *)
Theorem backend_registration_round_trip :
  forall (env env' : environment) (db : mongo)
         (email again full_name department full_name' department' : string),
    Py.isascii email = true ->
    Py.isascii full_name = true ->
    Py.isascii department = true ->
    Py.endswith email ("@" ++ COMPANY_DOMAIN) = true ->
    Q.user_by_email (Py.lower email) db = None ->
    ~ In (uuid4 env) (map UserDoc._id (users db)) ->
    Py.endswith again ("@" ++ COMPANY_DOMAIN) = true ->
    Py.lower again = Py.lower email ->
    exists db' user_doc,
      step db (env, reliable, Register email full_name department)
      = (Returned
           (Body (Reply.mk true
                    "Registration successful! Welcome to HSS Medicine."
                    (Some (uuid4 env)) None None None)),
         db')
      /\ users db' = (users db ++ [user_doc])%list
      /\ otp_codes db' = otp_codes db
      /\ sessions db' = sessions db
      /\ Q.user_by_email (Py.lower email) db' = Some user_doc
      /\ UserDoc._id user_doc = uuid4 env
      /\ UserDoc.email user_doc = Py.lower email
      /\ UserDoc.full_name user_doc = Py.strip full_name
      /\ UserDoc.department user_doc = Py.strip department
      /\ UserDoc.company_domain user_doc = COMPANY_DOMAIN
      /\ UserDoc.is_active user_doc = true
      /\ UserDoc.is_admin user_doc = false
      /\ UserDoc.login_count user_doc = 0
      /\ UserDoc.last_login user_doc = None
      /\ step db' (env', reliable, Register again full_name' department')
         = (Raised (HTTPException 400 "User already registered"), db').
Proof.
  intros env env' db email again full_name department full_name'
         department' _ _ _ Hdomain Hnew Hfresh Hagain Hsame.
  pose (user_doc :=
          UserDoc.mk (uuid4 env) (Py.lower email) (Py.strip full_name)
                     (Py.strip department) COMPANY_DOMAIN true false
                     (now env) 0 None).
  assert (Hfound : Q.user_by_email (Py.lower email)
                     (Mongo (users db ++ [user_doc]) (otp_codes db)
                            (sessions db))
                   = Some user_doc).
  { unfold Q.user_by_email in *. cbn [users].
    rewrite (HappyPath.find_snoc _ _ user_doc Hnew).
    cbn. rewrite String.eqb_refl. reflexivity. }
  exists (Mongo (users db ++ [user_doc]) (otp_codes db) (sessions db)),
         user_doc.
  split; [| repeat (split; [reflexivity |]);
            split; [exact Hfound | repeat (split; [reflexivity |])]].
  - run_endpoint. unfold reliable. rewrite Hdomain. cbn [negb].
    rewrite Hnew. unfold Q.insert_user. cbn [UserDoc._id].
    rewrite (BackendLogin.fresh_key UserDoc._id (uuid4 env) (users db)
               Hfresh).
    reflexivity.
  - run_endpoint. unfold reliable. rewrite Hagain. cbn [negb].
    rewrite Hsame, Hfound. reflexivity.
Qed.

Lemma backend_registration_round_trip_witness :
  exists db' user_doc,
    step empty_mongo Ward.register_ann
    = (Returned
         (Body (Reply.mk true
                  "Registration successful! Welcome to HSS Medicine."
                  (Some "uuid-1") None None None)),
       db')
    /\ Q.user_by_email "ann@hssmedicine.com" db' = Some user_doc
    /\ UserDoc.email user_doc = "ann@hssmedicine.com"
    /\ UserDoc.full_name user_doc = "Ann"
    /\ UserDoc.is_admin user_doc = false
    /\ step db' (Demo.later, reliable,
                 Register "ANN@hssmedicine.com" "Ann" "Surgery")
       = (Raised (HTTPException 400 "User already registered"), db').
Proof.
  destruct (backend_registration_round_trip Demo.morning Demo.later
              empty_mongo Ward.ann "ANN@hssmedicine.com"
              " Ann " "Surgery" "Ann" "Surgery"
              eq_refl eq_refl eq_refl eq_refl eq_refl ltac:(intros [])
              eq_refl eq_refl)
    as (db' & user_doc & Hstep & _ & _ & _ & Hfound & _ & Hemail & Hname
        & _ & _ & _ & Hadmin & _ & _ & Hagain).
  exists db', user_doc. split; [exact Hstep |]. split; [exact Hfound |].
  split; [exact Hemail |]. split; [exact Hname |].
  split; [exact Hadmin | exact Hagain].
Defined.

End BackendRegistration.

(* ===================================================================== *)
(** * Logging out of one session *)
(* ===================================================================== *)

Module OtherSessions.
Import EnterpriseAuth AuthEffects AuthSpec AuthFacts SessionSpec.

Lemma filter_map_fixed {A} (p : A -> bool) (g : A -> A) l :
  (forall x, p (g x) = p x) -> (forall x, p x = true -> g x = x) ->
  filter p (map g l) = filter p l.
Proof.
  intros Hp Hg. induction l as [| x l IH]; cbn; [reflexivity |].
  rewrite Hp. destruct (p x) eqn:E; rewrite IH; [| reflexivity].
  rewrite (Hg x E). reflexivity.
Qed.

Lemma select_session_other session_token other db :
  session_token <> other ->
  Sql.select_session other (Sql.deactivate_session session_token db)
  = Sql.select_session other db.
Proof.
  intros Hne. unfold Sql.select_session, Sql.deactivate_session.
  cbn [user_sessions users with_user_sessions].
  rewrite filter_map_fixed; [reflexivity | |].
  - intros x. unfold Sql.deactivate_session_row.
    destruct (String.eqb_spec (Session.session_token x) session_token)
      as [He |]; [| reflexivity].
    cbn. rewrite He.
    destruct (String.eqb_spec session_token other); [contradiction |].
    reflexivity.
  - intros x Hx. apply andb_prop in Hx. destruct Hx as [Ht _].
    apply String.eqb_eq in Ht. unfold Sql.deactivate_session_row.
    destruct (String.eqb_spec (Session.session_token x) session_token);
      [congruence | reflexivity].
Qed.

Lemma logout_keeps_others env f db session_token other :
  session_token <> other ->
  Sql.select_session other
    (snd (step db (env, f, LogoutUser session_token)))
  = Sql.select_session other db.
Proof.
  intros Hne.
  destruct (step_effect db env f (LogoutUser session_token))
    as (r & _ & Heff).
  destruct (Atomicity.effect_is_the_reliable_one _ _ _ _ _ Heff)
    as [-> | ->]; [reflexivity |].
  rewrite ReliableRuns.reliable_logout. cbn [snd].
  destruct (Sql.select_session session_token db) as [[s u] |];
    apply (select_session_other session_token other db Hne).
Qed.

(** X29: [logout_user] ends one session only.  After a logout with one
    token, under any fault schedule, the session that any other token
    names is found as before, and while it has not expired
    [validate_session] (database calls succeeding) accepts that other token
    with the same user data: the other sessions of the user stay valid.
    (The backend instead ends all sessions of the user.) *)
Theorem logout_ends_one_session_only :
  forall (env env' : environment) (f : nat -> bool) (db : database)
         (session_token other : string) (s : Session.t) (u : User.t),
    session_token <> other ->
    Sql.select_session other db = Some (s, u) ->
    now env' <= Session.expires_at s ->
    step (snd (step db (env, f, LogoutUser session_token)))
         (env', reliable, ValidateSession other)
    = (Returned (accepted s u),
       Sql.touch_session env' other
         (snd (step db (env, f, LogoutUser session_token)))).
Proof.
  intros env env' f db session_token other s u Hne Hsel Hlive.
  apply SessionValidation.reliable_valid; [| exact Hlive].
  rewrite logout_keeps_others by exact Hne. exact Hsel.
Qed.

Lemma logout_ends_one_session_only_witness :
  exists s u,
    Sql.select_session "token-1" Clinic.two_sessions = Some (s, u)
    /\ fst (step (snd (step Clinic.two_sessions
                            (Demo.later, reliable, LogoutUser "token-2")))
                 (Demo.later, reliable, ValidateSession "token-1"))
       = Returned (accepted s u)
    /\ succeeded
         (fst (step (snd (step Clinic.two_sessions
                               (Demo.later, reliable, LogoutUser "token-2")))
                    (Demo.later, reliable, ValidateSession "token-2")))
       = false.
Proof.
  destruct (Sql.select_session "token-1" Clinic.two_sessions)
    as [[s u] |] eqn:E; [| vm_compute in E; discriminate].
  exists s, u. split; [reflexivity |].
  assert (Hlive : now Demo.later <= Session.expires_at s).
  { pose proof E as E'. vm_compute in E'. inversion E'. vm_compute.
    discriminate. }
  split.
  - rewrite (logout_ends_one_session_only Demo.later Demo.later reliable
               Clinic.two_sessions "token-2" "token-1" s u
               ltac:(discriminate) E Hlive).
    reflexivity.
  - vm_compute. reflexivity.
Defined.

End OtherSessions.

(* ===================================================================== *)
(** * Expired codes in both implementations (claim C4) *)
(* ===================================================================== *)

Module Expiry.
Import HttpSpec.

(** With at most one unused document per address, the unused document of
    an address is the only one that a code can match. *)
Lemma only_unused_doc (db : Backend.mongo) email otp_code code r r' :
  BackendSpec.single_live db ->
  In r (Backend.otp_codes db) -> unused_match email otp_code r ->
  In r' (Backend.otp_codes db) -> unused_match email code r' ->
  r' = r.
Proof.
  intros Hs Hin (He & _ & Hu) Hin' (He' & _ & Hu').
  eapply OtpInvariants.at_most_one; [exact (Hs email) | |];
    unfold BackendSpec.live; apply filter_In; split; try assumption.
  - rewrite He', Hu', String.eqb_refl. reflexivity.
  - rewrite He, Hu, String.eqb_refl. reflexivity.
Qed.

Lemma count_doc_unused email otp_code x :
  unused_match email otp_code (Backend.Q.count_doc email x) ->
  unused_match email otp_code x
  /\ Backend.OtpDoc.expires_at (Backend.Q.count_doc email x)
     = Backend.OtpDoc.expires_at x.
Proof.
  unfold Backend.Q.count_doc, unused_match.
  destruct (_ && _); cbn; auto.
Qed.

(** C4, as stated, fails for the backend: [verify_otp_endpoint] refuses
    the matching, unused code that has expired, but it does not mark the
    record used; the record stays unused, with one more attempt. *)
Lemma backend_leaves_expired_code_unused :
  Backend.otp_codes Ward.issued
  = [Backend.OtpDoc.mk "uuid-1" Ward.ann "123456" 1000 600001000 false 0]
  /\ now Demo.later > 600001000
  /\ Backend.step Ward.issued
       (Demo.later, reliable, Backend.VerifyOtp Ward.ann "123456")
     = (Raised (HTTPException 400 "Invalid or expired OTP"),
        Backend.Mongo
          (Backend.users Ward.issued)
          [Backend.OtpDoc.mk "uuid-1" Ward.ann "123456" 1000 600001000
                             false 1]
          (Backend.sessions Ward.issued)).
Proof. vm_compute. repeat split. Qed.

(** C4, amended: OTP expiry is enforced at verification, in two ways.
    When [verify_otp] of [EnterpriseAuth] is called with the matching,
    still-unused code of an address ([row] is the record the query
    selects) and the current time is later than the record's
    [expires_at], then under every fault schedule the call does not
    succeed, creates no session and updates no user; with every database
    call succeeding it returns the expiry message and marks the record
    used; and the record then stays used through every later history.
    When [verify_otp_endpoint] of the backend is called with the matching,
    still-unused code of an address whose record [r] has expired (the
    address holding at most one unused record, as in every reachable
    store), then under every fault schedule the call logs nobody in and
    changes neither users nor sessions; with every database call
    succeeding it raises 400 "Invalid or expired OTP" and adds one to the
    attempts of the record, which stays unused; the code is refused all
    the same at every time from then on, because the query asks for
    [expires_at] later than the clock. *)
Theorem expired_code_is_refused :
  forall (env : environment) (f : nat -> bool) (email otp_code : string),
    (forall (db : database) (row : Otp.t)
            (evs : list EnterpriseAuth.event),
        Sql.select_otp (Py.lower email) otp_code db = Some row ->
        now env > Otp.expires_at row ->
        (AuthSpec.succeeded
           (fst (EnterpriseAuth.step db
                   (env, f, EnterpriseAuth.VerifyOtp email otp_code)))
         = false
         /\ user_sessions
              (snd (EnterpriseAuth.step db
                      (env, f, EnterpriseAuth.VerifyOtp email otp_code)))
            = user_sessions db
         /\ users
              (snd (EnterpriseAuth.step db
                      (env, f, EnterpriseAuth.VerifyOtp email otp_code)))
            = users db)
        /\ EnterpriseAuth.step db
             (env, reliable, EnterpriseAuth.VerifyOtp email otp_code)
           = (Returned
                (Response.failure
                   "OTP has expired. Please request a new one."),
              Sql.mark_otp_used (Otp.id row) db)
        /\ (forall r,
               In r (otp_codes
                       (EnterpriseAuth.execute_all
                          (Sql.mark_otp_used (Otp.id row) db) evs)) ->
               Otp.id r = Otp.id row -> Otp.is_used r = true))
    /\ (forall (db : Backend.mongo) (r : Backend.OtpDoc.t),
           BackendSpec.single_live db ->
           In r (Backend.otp_codes db) ->
           unused_match (Py.lower email) otp_code r ->
           now env > Backend.OtpDoc.expires_at r ->
           (BackendSpec.logged_in
              (fst (Backend.step db
                      (env, f, Backend.VerifyOtp email otp_code))) = false
            /\ Backend.users
                 (snd (Backend.step db
                         (env, f, Backend.VerifyOtp email otp_code)))
               = Backend.users db
            /\ Backend.sessions
                 (snd (Backend.step db
                         (env, f, Backend.VerifyOtp email otp_code)))
               = Backend.sessions db)
           /\ Backend.step db (env, reliable, Backend.VerifyOtp email otp_code)
              = (Raised (HTTPException 400 "Invalid or expired OTP"),
                 Backend.Q.increment_attempts (Py.lower email) db)
           /\ In (Backend.OtpDoc.add_attempt r)
                 (Backend.otp_codes
                    (Backend.Q.increment_attempts (Py.lower email) db))
           /\ Backend.OtpDoc.is_used (Backend.OtpDoc.add_attempt r) = false
           /\ (forall utcnow,
                  now env <= utcnow ->
                  Backend.Q.valid_otp (Py.lower email) otp_code utcnow
                    (Backend.Q.increment_attempts (Py.lower email) db)
                  = None)).
Proof.
  intros env f email otp_code. split.
  - intros db row evs Hsel Hexp. split; [| split].
    + destruct (Verification.verify_without_login env f db email otp_code
                  row Hsel (or_introl Hexp)) as (r & Hstep & Hfail & Hdb).
      rewrite Hstep. cbn [fst snd AuthSpec.succeeded].
      split; [exact Hfail |].
      destruct Hdb as [-> | ->]; split; reflexivity.
    + apply Verification.reliable_expired; assumption.
    + apply AuthFacts.select_otp_Some in Hsel. destruct Hsel as (Hin & _).
      apply (Verification.history_keeps_consumed (Otp.id row) evs).
      apply Verification.mark_consumes. exact Hin.
  - intros db r Hs Hin Hmatch Hexp.
    assert (Hall : forall r', In r' (Backend.otp_codes db) ->
                     unused_match (Py.lower email) otp_code r' ->
                     Backend.OtpDoc.expires_at r' <= now env).
    { intros r' Hin' Hm'.
      rewrite (only_unused_doc db _ _ _ r r' Hs Hin Hmatch Hin' Hm'). lia. }
    pose proof (BackendCodes.expired_do_not_match _ _ _ _ Hall) as Hnone.
    split; [| split; [| split; [| split]]].
    + pose proof (BackendCodes.verify_paths_without_match env db f 0 email
                    otp_code Hnone) as Hf.
      unfold Backend.step, run.
      destruct (Backend.perform env (Backend.VerifyOtp email otp_code)
                                (World db f 0)) as [[a | e] w'];
        [contradiction |].
      cbn [fst snd BackendSpec.logged_in store].
      split; [reflexivity |].
      destruct Hf as [[_ ->] | [_ ->]]; split; reflexivity.
    + pose proof (BackendCodes.verify_paths_without_match env db reliable 0
                    email otp_code Hnone) as Hr.
      revert Hr. BackendFacts.run_endpoint. unfold reliable.
      rewrite Hnone. reflexivity.
    + cbn [Backend.otp_codes Backend.Q.increment_attempts].
      apply in_map_iff. exists r. split; [| exact Hin].
      unfold Backend.Q.count_doc. destruct Hmatch as (He & _ & Hu).
      rewrite He, Hu, String.eqb_refl. reflexivity.
    + destruct Hmatch as (_ & _ & Hu). exact Hu.
    + intros utcnow Hlater. apply BackendCodes.expired_do_not_match.
      intros r' Hin' Hm'.
      cbn [Backend.otp_codes Backend.Q.increment_attempts] in Hin'.
      apply in_map_iff in Hin'. destruct Hin' as (x & <- & Hx).
      apply count_doc_unused in Hm'. destruct Hm' as [Hmx ->].
      specialize (Hall x Hx Hmx). lia.
Qed.

Lemma expired_code_is_refused_witness :
  (Sql.select_otp (Py.lower Demo.bob) "123456" Demo.issued
   = Some (Otp.mk 1 Demo.bob "123456" 1000 600001000 false 0)
   /\ now Demo.later > 600001000
   /\ EnterpriseAuth.step Demo.issued
        (Demo.later, reliable, EnterpriseAuth.VerifyOtp Demo.bob "123456")
      = (Returned
           (Response.failure "OTP has expired. Please request a new one."),
         Sql.mark_otp_used 1 Demo.issued))
  /\ (BackendSpec.single_live Ward.issued
      /\ Backend.step Ward.issued
           (Demo.later, reliable, Backend.VerifyOtp Ward.ann "123456")
         = (Raised (HTTPException 400 "Invalid or expired OTP"),
            Backend.Q.increment_attempts (Py.lower Ward.ann) Ward.issued)
      /\ Backend.Q.valid_otp (Py.lower Ward.ann) "123456" (now Demo.closing)
           (Backend.Q.increment_attempts (Py.lower Ward.ann) Ward.issued)
         = None).
Proof.
  destruct (expired_code_is_refused Demo.later reliable Demo.bob "123456")
    as [Hauth _].
  destruct (expired_code_is_refused Demo.later reliable Ward.ann "123456")
    as [_ Hbackend].
  assert (Hs : BackendSpec.single_live Ward.issued).
  { apply BackendReachable.backend_execute_all_single_live,
      BackendReachable.empty_single_live. }
  split.
  - split; [reflexivity |]. split; [reflexivity |].
    destruct (Hauth Demo.issued
                (Otp.mk 1 Demo.bob "123456" 1000 600001000 false 0) []
                eq_refl eq_refl) as (_ & Hstep & _).
    exact Hstep.
  - split; [exact Hs |].
    destruct (Hbackend Ward.issued
                (Backend.OtpDoc.mk "uuid-1" Ward.ann "123456" 1000
                                   600001000 false 0)
                Hs (or_introl eq_refl)
                (conj eq_refl (conj eq_refl eq_refl)) eq_refl)
      as (_ & Hstep & _ & _ & Hlater).
    split; [exact Hstep |]. apply Hlater. vm_compute. discriminate.
Defined.

End Expiry.

(* ===================================================================== *)
(** * Session validation in both implementations (claim C5) *)
(* ===================================================================== *)

Module Sessions.
Import HttpSpec BackendSessionSpec.

(** ** The dependency [validate_session] of the backend *)

Lemma find_unique_key {A K : Type} (key : A -> K) (p : A -> bool)
      (l : list A) (x : A) :
  NoDup (map key l) -> In x l -> p x = true ->
  (forall y, In y l -> p y = true -> key y = key x) ->
  find p l = Some x.
Proof.
  induction l as [| y l IH]; cbn; [intros _ [] |].
  intros Hnd Hin Hpx Hkey. inversion Hnd as [| ? ? Hfresh Hnd']; subst.
  destruct (p y) eqn:Hpy.
  - destruct Hin as [-> | Hin]; [reflexivity | exfalso].
    apply Hfresh. rewrite (Hkey y (or_introl eq_refl) Hpy).
    apply in_map. exact Hin.
  - destruct Hin as [-> | Hin]; [congruence |]. apply IH; auto.
Qed.

Lemma update_first_unique {A : Type} (key : A -> string) (k : string)
      (g : A -> A) (l : list A) :
  NoDup (map key l) ->
  Backend.update_first (fun x => String.eqb (key x) k) g l
  = map (fun x => if String.eqb (key x) k then g x else x) l.
Proof.
  induction l as [| x l IH]; cbn; [reflexivity |].
  intros Hnd. inversion Hnd as [| ? ? Hfresh Hnd']; subst.
  destruct (String.eqb_spec (key x) k) as [Hk | Hk].
  - f_equal. symmetry. rewrite <- (map_id l) at 2. apply map_ext_in.
    intros y Hy. destruct (String.eqb_spec (key y) k) as [Hyk |];
      [| reflexivity].
    exfalso. apply Hfresh. rewrite Hk, <- Hyk. apply in_map. exact Hy.
  - rewrite (IH Hnd'). reflexivity.
Qed.

Lemma touch_is_touched token utcnow db :
  unique_tokens db ->
  Backend.Q.touch_session token utcnow db = touched token utcnow db.
Proof.
  intros Htok. unfold Backend.Q.touch_session, touched.
  rewrite (update_first_unique Backend.SessionDoc.session_token token _ _
             Htok).
  reflexivity.
Qed.

Lemma validate_paths env db f n token :
  match Backend.perform env (Backend.Authenticated token) (World db f n) with
  | (Returned a, w') =>
      exists s u,
        Backend.Q.live_session token (now env) db = Some s
        /\ Backend.Q.user_by_id (Backend.SessionDoc.user_id s) db = Some u
        /\ a = Backend.Identity (identity_of u)
        /\ store w' = Backend.Q.touch_session token (now env) db
  | (Raised e, w') =>
      e = authentication_failed
      /\ (store w' = db
          \/ store w' = Backend.Q.touch_session token (now env) db)
  end.
Proof.
  BackendFacts.run_endpoint. repeat BackendFacts.split_endpoint;
    try (split; [reflexivity | auto]).
  match goal with
  | Hs : Backend.Q.live_session _ _ _ = Some ?s,
    Hu : Backend.Q.user_by_id _ _ = Some ?u |- _ =>
      exists s, u; repeat split; [exact Hu]
  end.
Qed.

Lemma validate_reliable env db token s u :
  Backend.Q.live_session token (now env) db = Some s ->
  Backend.Q.user_by_id (Backend.SessionDoc.user_id s) db = Some u ->
  Backend.step db (env, reliable, Backend.Authenticated token)
  = (Returned (Backend.Identity (identity_of u)),
     Backend.Q.touch_session token (now env) db).
Proof.
  intros Hs Hu. BackendFacts.run_endpoint. unfold reliable. rewrite Hs.
  change (Backend.Q.user_by_id (Backend.SessionDoc.user_id s)
            (Backend.Q.touch_session token (now env) db))
    with (Backend.Q.user_by_id (Backend.SessionDoc.user_id s) db).
  rewrite Hu. reflexivity.
Qed.

Lemma validate_refuses env f db token :
  Backend.Q.live_session token (now env) db = None ->
  Backend.step db (env, f, Backend.Authenticated token)
  = (Raised authentication_failed, db).
Proof.
  intros H. BackendFacts.run_endpoint. destruct (f 0%nat); [reflexivity |].
  BackendFacts.run_endpoint. rewrite H. reflexivity.
Qed.

Lemma live_session_matches token utcnow db s :
  Backend.Q.live_session token utcnow db = Some s ->
  In s (Backend.sessions db)
  /\ Backend.SessionDoc.session_token s = token
  /\ Backend.SessionDoc.is_active s = true
  /\ Backend.SessionDoc.expires_at s > utcnow.
Proof.
  unfold Backend.Q.live_session. intros H. apply find_some in H.
  destruct H as [Hin Hb].
  apply andb_prop in Hb. destruct Hb as [Hb Hexp].
  apply andb_prop in Hb. destruct Hb as [Ht Ha].
  apply String.eqb_eq in Ht. apply Z.gtb_lt in Hexp.
  repeat split; auto. lia.
Qed.

Lemma matches_live_session token utcnow db s u :
  unique_tokens db -> matches token db s u ->
  Backend.SessionDoc.expires_at s > utcnow ->
  Backend.Q.live_session token utcnow db = Some s.
Proof.
  intros Hnd (Hin & Ht & Ha & _) Hexp. unfold Backend.Q.live_session.
  apply (find_unique_key Backend.SessionDoc.session_token); auto.
  - rewrite Ht, String.eqb_refl, Ha. cbn. apply Z.gtb_lt. lia.
  - intros y _ Hy. apply andb_prop in Hy. destruct Hy as [Hy _].
    apply andb_prop in Hy. destruct Hy as [Hy _].
    apply String.eqb_eq in Hy. congruence.
Qed.

Lemma expired_session_not_live token utcnow db s u :
  unique_tokens db -> matches token db s u ->
  Backend.SessionDoc.expires_at s <= utcnow ->
  Backend.Q.live_session token utcnow db = None.
Proof.
  intros Hnd (Hin & Ht & _) Hexp. unfold Backend.Q.live_session.
  apply BackendLogout.find_all_false. intros y Hy.
  destruct (String.eqb_spec (Backend.SessionDoc.session_token y) token)
    as [Hyt |]; [| reflexivity].
  assert (y = s).
  { eapply (SessionValidation.unique_key Backend.SessionDoc.session_token);
      eauto. congruence. }
  subst y. rewrite Z.gtb_ltb.
  assert (Hle : (utcnow <? Backend.SessionDoc.expires_at s) = false)
    by (apply Z.ltb_ge; exact Hexp).
  rewrite Hle. apply andb_false_r.
Qed.

Lemma matches_user_by_id token db s u :
  unique_ids db -> matches token db s u ->
  Backend.Q.user_by_id (Backend.SessionDoc.user_id s) db = Some u.
Proof.
  intros Hnd (_ & _ & _ & Hin & Hid). unfold Backend.Q.user_by_id.
  apply (find_unique_key Backend.UserDoc._id); auto.
  - apply String.eqb_eq. exact Hid.
  - intros y _ Hy. apply String.eqb_eq in Hy. congruence.
Qed.

Lemma user_by_id_matches _id db u :
  Backend.Q.user_by_id _id db = Some u ->
  In u (Backend.users db) /\ Backend.UserDoc._id u = _id.
Proof.
  unfold Backend.Q.user_by_id. intros H. apply find_some in H.
  destruct H as [Hin Hb]. apply String.eqb_eq in Hb. auto.
Qed.

Lemma backend_validation_success env f db token :
  identified (fst (Backend.step db (env, f, Backend.Authenticated token)))
  = true ->
  exists s u,
    matches token db s u
    /\ Backend.SessionDoc.expires_at s > now env
    /\ Backend.step db (env, f, Backend.Authenticated token)
       = (Returned (Backend.Identity (identity_of u)),
          Backend.Q.touch_session token (now env) db).
Proof.
  pose proof (validate_paths env db f 0 token) as H.
  unfold Backend.step, run.
  destruct (Backend.perform env (Backend.Authenticated token)
                            (World db f 0)) as [[a | e] w'];
    cbn [fst snd identified]; [| discriminate].
  destruct H as (s & u & Hs & Hu & -> & ->). intros _.
  exists s, u. apply live_session_matches in Hs.
  destruct Hs as (Hin & Ht & Ha & Hexp).
  apply user_by_id_matches in Hu. destruct Hu as [Huin Hid].
  repeat split; auto.
Qed.

(** C5, as stated, fails in two ways.  [EnterpriseAuth.validate_session]
    still accepts a session at the very instant it expires (it rejects
    only when the clock is past [expires_at]), where the claim requires
    [expires_at] to be later than the current time.  And the backend's
    [validate_session] does not set an expired session inactive: it
    answers 401 and leaves the collection as it was. *)
Lemma session_expiry_is_not_as_claimed :
  ((exists s u,
       Sql.select_session "token-1" Demo.logged_in = Some (s, u)
       /\ Session.expires_at s = now Demo.closing)
   /\ AuthSpec.succeeded
        (fst (EnterpriseAuth.step Demo.logged_in
                (Demo.closing, reliable,
                 EnterpriseAuth.ValidateSession "token-1")))
      = true)
  /\ (map (fun s => (Backend.SessionDoc.session_token s,
                     Backend.SessionDoc.expires_at s,
                     Backend.SessionDoc.is_active s))
          (Backend.sessions Ward.logged_in)
      = [("token-1", 28800001000, true)]
      /\ now after_hours > 28800001000
      /\ Backend.step Ward.logged_in
           (after_hours, reliable, Backend.Authenticated "token-1")
         = (Raised authentication_failed, Ward.logged_in)).
Proof.
  split; [split; [| vm_compute; reflexivity] | vm_compute; repeat split].
  exists (Session.mk 1 1 "token-1" 1000 28800001000 true 1000 None None),
         (User.mk 1 Demo.bob "Bob" "Cardiology" "hhamedicine.com" true false
                  1000 (Some 1000) 1).
  split; vm_compute; reflexivity.
Qed.

(** C5, amended: session validation succeeds if and only if the presented
    token equals the [session_token] of a stored session that is active,
    that has not expired, and whose [user_id] joins to an existing user;
    on success it returns the matched user's data and changes nothing but
    [last_activity] of that session (in the backend, to the instant of
    the call as the database keeps it).  For [EnterpriseAuth] (with
    [session_token] unique and [users.id] the primary key) a session has
    expired when the clock is past its [expires_at], so it is still
    accepted at [now = expires_at]; for an expired session
    [validate_session] sets that session inactive and returns failure.
    For the backend (with distinct tokens and [_id]s, and for the
    non-empty token that [HTTPBearer] hands on) a session has expired
    unless its [expires_at] is later than the clock, so it is refused at
    [now = expires_at]; for an expired session [validate_session] raises
    401 "Authentication failed" under every fault schedule and changes
    nothing. *)
Theorem session_validation_decides :
  forall (env : environment) (f : nat -> bool) (session_token : string),
    (forall db : database,
        AuthSpec.unique_session_tokens db ->
        AuthSpec.unique_user_ids db ->
        (AuthSpec.succeeded
           (fst (EnterpriseAuth.step db
                   (env, reliable,
                    EnterpriseAuth.ValidateSession session_token))) = true
         <-> exists s u, SessionSpec.matches session_token db s u
                         /\ now env <= Session.expires_at s)
        /\ (AuthSpec.succeeded
              (fst (EnterpriseAuth.step db
                      (env, f, EnterpriseAuth.ValidateSession session_token)))
            = true ->
            exists s u,
              SessionSpec.matches session_token db s u
              /\ now env <= Session.expires_at s
              /\ EnterpriseAuth.step db
                   (env, f, EnterpriseAuth.ValidateSession session_token)
                 = (Returned (SessionSpec.accepted s u),
                    Sql.touch_session env session_token db))
        /\ (forall s u,
               SessionSpec.matches session_token db s u ->
               (now env <= Session.expires_at s ->
                EnterpriseAuth.step db
                  (env, reliable,
                   EnterpriseAuth.ValidateSession session_token)
                = (Returned (SessionSpec.accepted s u),
                   Sql.touch_session env session_token db)
                /\ Sql.touch_session env session_token db
                   = with_user_sessions
                       (map (fun x =>
                               if String.eqb (Session.session_token x)
                                             session_token
                               then Session.set_last_activity
                                      (current_timestamp env) x
                               else x) (user_sessions db)) db
                /\ (forall x, In x (user_sessions db) -> x <> s ->
                              Sql.touch_session_row env session_token x = x))
               /\ (now env > Session.expires_at s ->
                   EnterpriseAuth.step db
                     (env, reliable,
                      EnterpriseAuth.ValidateSession session_token)
                   = (Returned (Response.failure
                                  "Session expired. Please login again."),
                      Sql.deactivate_session session_token db)
                   /\ In (Session.set_inactive s)
                         (user_sessions
                            (Sql.deactivate_session session_token db))
                   /\ (forall x, In x (user_sessions db) -> x <> s ->
                                 Sql.deactivate_session_row session_token x
                                 = x))))
    /\ (forall db : Backend.mongo,
           session_token <> "" ->
           unique_tokens db ->
           unique_ids db ->
           (identified
              (fst (Backend.step db
                      (env, reliable, Backend.Authenticated session_token)))
            = true
            <-> exists s u, matches session_token db s u
                            /\ Backend.SessionDoc.expires_at s > now env)
           /\ (identified
                 (fst (Backend.step db
                         (env, f, Backend.Authenticated session_token)))
               = true ->
               exists s u,
                 matches session_token db s u
                 /\ Backend.SessionDoc.expires_at s > now env
                 /\ fst (Backend.step db
                           (env, f, Backend.Authenticated session_token))
                    = Returned (Backend.Identity (identity_of u))
                 /\ exists last_activity,
                      snd (Backend.step db
                             (env, f, Backend.Authenticated session_token))
                      = touched session_token last_activity db)
           /\ (forall s u,
                  matches session_token db s u ->
                  (Backend.SessionDoc.expires_at s > now env ->
                   fst (Backend.step db
                          (env, reliable,
                           Backend.Authenticated session_token))
                   = Returned (Backend.Identity (identity_of u))
                   /\ (exists last_activity,
                          snd (Backend.step db
                                 (env, reliable,
                                  Backend.Authenticated session_token))
                          = touched session_token last_activity db)
                   /\ (forall x, In x (Backend.sessions db) -> x <> s ->
                                 String.eqb
                                   (Backend.SessionDoc.session_token x)
                                   session_token = false))
                  /\ (Backend.SessionDoc.expires_at s <= now env ->
                      Backend.step db
                        (env, f, Backend.Authenticated session_token)
                      = (Raised authentication_failed, db)))).
Proof.
  intros env f session_token. split.
  - intros db Htok Hid.
    assert (Hothers : forall s, In s (user_sessions db) ->
                      Session.session_token s = session_token ->
                      forall x, In x (user_sessions db) -> x <> s ->
                      String.eqb (Session.session_token x) session_token
                      = false).
    { intros s Hs Hst x Hx Hne. apply String.eqb_neq. intros Heq.
      apply Hne.
      eapply (SessionValidation.unique_key Session.session_token); eauto.
      congruence. }
    split; [| split].
    + split.
      * intros H. apply SessionValidation.validation_success in H.
        destruct H as (s & u & Hsel & Hexp & _).
        exists s, u.
        split; [apply SessionValidation.select_session_matches; exact Hsel
               | exact Hexp].
      * intros (s & u & Hm & Hexp).
        apply SessionValidation.matches_select_session in Hm; auto.
        rewrite (SessionValidation.reliable_valid env db session_token s u
                   Hm Hexp).
        reflexivity.
    + intros H. apply SessionValidation.validation_success in H.
      destruct H as (s & u & Hsel & Hexp & Hstep).
      exists s, u.
      split; [apply SessionValidation.select_session_matches; exact Hsel |].
      auto.
    + intros s u Hm. pose proof Hm as (Hsin & Hst & _).
      apply SessionValidation.matches_select_session in Hm; auto. split.
      * intros Hexp.
        split; [apply SessionValidation.reliable_valid; assumption |].
        split; [reflexivity |].
        intros x Hx Hne. unfold Sql.touch_session_row.
        rewrite (Hothers s Hsin Hst x Hx Hne). reflexivity.
      * intros Hexp.
        split; [apply (SessionValidation.reliable_session_expired
                         env db session_token s u); assumption |].
        split.
        -- cbn. apply in_map_iff. exists s. split; [| exact Hsin].
           unfold Sql.deactivate_session_row.
           rewrite Hst, String.eqb_refl. reflexivity.
        -- intros x Hx Hne. unfold Sql.deactivate_session_row.
           rewrite (Hothers s Hsin Hst x Hx Hne). reflexivity.
  - intros db _ Htok Hid. split; [| split].
    + split.
      * intros H. apply backend_validation_success in H.
        destruct H as (s & u & Hm & Hexp & _). exists s, u. auto.
      * intros (s & u & Hm & Hexp).
        rewrite (validate_reliable env db session_token s u
                   (matches_live_session _ _ _ _ _ Htok Hm Hexp)
                   (matches_user_by_id _ _ _ _ Hid Hm)).
        reflexivity.
    + intros H. apply backend_validation_success in H.
      destruct H as (s & u & Hm & Hexp & ->). exists s, u.
      split; [exact Hm |]. split; [exact Hexp |]. split; [reflexivity |].
      exists (now env). apply touch_is_touched. exact Htok.
    + intros s u Hm. split.
      * intros Hexp.
        rewrite (validate_reliable env db session_token s u
                   (matches_live_session _ _ _ s u Htok Hm Hexp)
                   (matches_user_by_id _ _ s u Hid Hm)).
        split; [reflexivity |]. split.
        -- exists (now env). apply touch_is_touched. exact Htok.
        -- intros x Hx Hne. destruct Hm as (Hsin & Hst & _).
           apply String.eqb_neq. intros Heq. apply Hne.
           eapply (SessionValidation.unique_key
                     Backend.SessionDoc.session_token); eauto.
           congruence.
      * intros Hexp. apply validate_refuses.
        eapply expired_session_not_live; eauto.
Qed.

Lemma session_validation_decides_witness :
  (AuthSpec.unique_session_tokens Demo.logged_in
   /\ AuthSpec.unique_user_ids Demo.logged_in
   /\ (AuthSpec.succeeded
         (fst (EnterpriseAuth.step Demo.logged_in
                 (Demo.later, reliable,
                  EnterpriseAuth.ValidateSession "token-1"))) = true
       <-> exists s u, SessionSpec.matches "token-1" Demo.logged_in s u
                       /\ now Demo.later <= Session.expires_at s))
  /\ (unique_tokens Ward.logged_in
      /\ unique_ids Ward.logged_in
      /\ (identified
            (fst (Backend.step Ward.logged_in
                    (Demo.later, reliable, Backend.Authenticated "token-1")))
          = true
          <-> exists s u, matches "token-1" Ward.logged_in s u
                          /\ Backend.SessionDoc.expires_at s
                             > now Demo.later)).
Proof.
  assert (Ht : AuthSpec.unique_session_tokens Demo.logged_in).
  { unfold AuthSpec.unique_session_tokens. vm_compute.
    constructor; [intros [] | constructor]. }
  assert (Hu : AuthSpec.unique_user_ids Demo.logged_in).
  { unfold AuthSpec.unique_user_ids. vm_compute.
    constructor; [intros [] | constructor]. }
  assert (Ht' : unique_tokens Ward.logged_in).
  { unfold unique_tokens. vm_compute.
    constructor; [intros [] | constructor]. }
  assert (Hu' : unique_ids Ward.logged_in).
  { unfold unique_ids. vm_compute.
    constructor; [intros [] | constructor]. }
  destruct (session_validation_decides Demo.later reliable "token-1")
    as [Hauth Hbackend].
  split.
  - split; [exact Ht |]. split; [exact Hu |].
    destruct (Hauth Demo.logged_in Ht Hu) as [Hiff _]. exact Hiff.
  - split; [exact Ht' |]. split; [exact Hu' |].
    destruct (Hbackend Ward.logged_in ltac:(discriminate) Ht' Hu')
      as [Hiff _].
    exact Hiff.
Defined.

End Sessions.
